(** * ai-skills: the skill store, the semantic router and the tools

    A shallow embedding of the storage module (metadata codec, skill
    repository, roots, enablement store), of the [use-skills] tool and of
    the tools that create and edit a skill, followed by the properties of
    the specification that concern them and by further properties of the
    code.

    Conventions of the embedding.
    - A JavaScript string is a [string]: a sequence of code units below 256.
    - A thrown exception is [None] (or an explicit constructor); [try]/[catch]
      is a [match] on it.
    - The host pieces the module imports but does not define (the YAML
      parser, [JSON.parse], the [AI.Model] table) are the fields of the
      class [Host]; [Reference.host] is an executable instance covering the
      fragment of YAML and JSON that the module itself writes.
    - [LocalStorage], the file system and the environment are the explicit
      state [World]; the call to [AI.ask] is the one visible effect of the
      router and is a constructor of [prog]. *)

From Stdlib Require Import String Ascii List Arith Lia Bool DecimalString.
From stdpp Require Import base option list strings gmap.

(* stdpp seals the append of strings against [simpl]; the proofs below
   compute with it. *)
#[local] Arguments String.append : simpl nomatch.

Local Open Scope string_scope.
Local Open Scope nat_scope.
Local Open Scope list_scope.

(** ** JavaScript string primitives *)

Module JS.

(** [s.startsWith(pat)] *)
Definition startsWith (s pat : string) : bool := String.prefix pat s.

(** [s.indexOf(pat, from)]; [None] is [-1]. *)
Definition indexOf (s pat : string) (from : nat) : option nat :=
  String.index from pat s.

(** [s.substring(a, b)]: the arguments are swapped when [a > b]. *)
Definition substring (s : string) (a b : nat) : string :=
  String.substring (Nat.min a b) (Nat.max a b - Nat.min a b) s.

(** [s.substring(a)] *)
Definition substringFrom (s : string) (a : nat) : string :=
  String.substring a (String.length s - a) s.

(** White space in the sense of [String.prototype.trim], among the code
    units below 256: TAB, LF, VT, FF, CR, SP and NBSP. *)
Definition isWhiteSpace (c : ascii) : bool :=
  let n := nat_of_ascii c in
  ((9 <=? n) && (n <=? 13)) || (n =? 32) || (n =? 160).

Fixpoint trimStart (s : string) : string :=
  match s with
  | EmptyString => EmptyString
  | String c s' => if isWhiteSpace c then trimStart s' else s
  end.

Fixpoint trimEnd (s : string) : string :=
  match s with
  | EmptyString => EmptyString
  | String c s' =>
      match trimEnd s' with
      | EmptyString => if isWhiteSpace c then EmptyString else String c EmptyString
      | t => String c t
      end
  end.

(** [s.trim()] *)
Definition trim (s : string) : string := trimEnd (trimStart s).

(** The double quote and the line feed, which a literal cannot hold. *)
Definition dquote : ascii := ascii_of_nat 34.
Definition LF : ascii := ascii_of_nat 10.

Definition isLower (c : ascii) : bool :=
  let n := nat_of_ascii c in (97 <=? n) && (n <=? 122).

Definition upperChar (c : ascii) : ascii :=
  if isLower c then ascii_of_nat (nat_of_ascii c - 32) else c.

(** [s.toUpperCase()] on the letters a-z; the other code units are left as
    they are, which is all the comparison with an ASCII literal needs. *)
Fixpoint toUpperCase (s : string) : string :=
  match s with
  | EmptyString => EmptyString
  | String c s' => String (upperChar c) (toUpperCase s')
  end.

(** [key.replace(/-([a-z])/g, (_, letter) => letter.toUpperCase())] *)
Fixpoint kebabToCamel (key : string) : string :=
  match key with
  | EmptyString => EmptyString
  | String a tl =>
      match tl with
      | EmptyString => String a EmptyString
      | String c rest =>
          if Ascii.eqb a "-" && isLower c
          then String (upperChar c) (kebabToCamel rest)
          else String a (kebabToCamel tl)
      end
  end.

Definition isQuote (c : ascii) : bool :=
  Ascii.eqb c dquote || Ascii.eqb c "'".

Definition stripLeadingQuote (s : string) : string :=
  match s with
  | String c s' => if isQuote c then s' else s
  | EmptyString => EmptyString
  end.

Fixpoint stripTrailingQuote (s : string) : string :=
  match s with
  | EmptyString => EmptyString
  | String c EmptyString => if isQuote c then EmptyString else s
  | String c s' => String c (stripTrailingQuote s')
  end.

(** [s.replace(re, empty)] for the global pattern that matches one quote
    at the start or one quote at the end: the first alternative can only
    match at index 0, the second only on the last code unit of what is
    left. *)
Definition stripQuotes (s : string) : string :=
  stripTrailingQuote (stripLeadingQuote s).

(** [arr.join(sep)] *)
Definition join (sep : string) (l : list string) : string :=
  String.concat sep l.

Definition hexDigit (n : nat) : ascii :=
  if n <? 10 then ascii_of_nat (48 + n) else ascii_of_nat (87 + n).

(** One code unit inside a JSON string literal, as [JSON.stringify]
    writes it. *)
Definition jsonEscape (c : ascii) : string :=
  let n := nat_of_ascii c in
  if n =? 34 then String "\" (String dquote EmptyString)
  else if n =? 92 then "\\"
  else if n =? 8 then "\b"
  else if n =? 9 then "\t"
  else if n =? 10 then "\n"
  else if n =? 12 then "\f"
  else if n =? 13 then "\r"
  else if n <? 32 then
    "\u00" +:+ String (hexDigit (n / 16)) (String (hexDigit (n mod 16)) EmptyString)
  else String c EmptyString.

Fixpoint jsonEscapeAll (s : string) : string :=
  match s with
  | EmptyString => EmptyString
  | String c s' => jsonEscape c +:+ jsonEscapeAll s'
  end.

(** [JSON.stringify(s)] for a string *)
Definition jsonQuote (s : string) : string :=
  String dquote (jsonEscapeAll s +:+ String dquote EmptyString).

(** [JSON.stringify(l)] for an array of strings *)
Definition JSON_stringify (l : list string) : string :=
  "[" +:+ join "," (map jsonQuote l) +:+ "]".

End JS.



(** ** JavaScript values and objects *)

(** The values a metadata field can hold.  [SkillFrontmatter] declares
    strings, arrays of strings and [undefined]; [VOther] stands for what the
    YAML parser can return besides (null, a boolean, a number, a nested
    mapping, an array that holds something that is not a string), by the
    four things the code observes of such a value: its truth value, the
    text that a template literal writes for it, whether its [length] is
    above zero, and the text that [JSON.stringify] writes for it.  The
    array [[1, 2]] is [VOther true "1,2" true "[1,2]"], the number [5] is
    [VOther true "5" false "5"], null is [VOther false "null" false "null"]. *)
Inductive value : Type :=
| VUndef
| VStr (s : string)
| VArr (l : list string)
| VOther (truthy : bool) (shown : string) (longer : bool) (json : string).

Definition nonEmpty (s : string) : bool :=
  match s with EmptyString => false | _ => true end.

(** The truth value of [v] in a condition. *)
Definition truthy (v : value) : bool :=
  match v with
  | VUndef => false
  | VStr s => nonEmpty s
  | VArr _ => true
  | VOther t _ _ _ => t
  end.

(** What a template literal writes for [v]. *)
Definition toStr (v : value) : string :=
  match v with
  | VUndef => "undefined"
  | VStr s => s
  | VArr l => JS.join "," l
  | VOther _ shown _ _ => shown
  end.

(** [v === s] for a string [s] *)
Definition strictEq (v : value) (s : string) : bool :=
  match v with
  | VStr s' => String.eqb s' s
  | _ => false
  end.

(** [v && v.length > 0] *)
Definition hasLength (v : value) : bool :=
  match v with
  | VUndef => false
  | VStr s => nonEmpty s
  | VArr l => negb (Nat.eqb (length l) 0)
  | VOther t _ longer _ => t && longer
  end.

(** [JSON.stringify(v)] *)
Definition stringifyValue (v : value) : string :=
  match v with
  | VStr s => JS.jsonQuote s
  | VArr l => JS.JSON_stringify l
  | VOther _ _ _ json => json
  | VUndef => "undefined"
  end.

(** An object: its own properties in insertion order.  (JavaScript lists
    the keys that are array indices first; such a key holds no hyphen and no
    letter, so the key normalisation below never makes it meet another.) *)
Definition obj : Type := list (string * value).

(** [o[k]] *)
Fixpoint obj_get (o : obj) (k : string) : value :=
  match o with
  | [] => VUndef
  | (k', v) :: o' => if String.eqb k' k then v else obj_get o' k
  end.

(** [o[k] = v] *)
Fixpoint obj_set (o : obj) (k : string) (v : value) : obj :=
  match o with
  | [] => [(k, v)]
  | (k', v') :: o' =>
      if String.eqb k' k then (k, v) :: o' else (k', v') :: obj_set o' k v
  end.

(** The keys a [for ... in] visits. *)
Definition obj_keys (o : obj) : list string := map fst o.

(** The second operand's properties copied over the first:
    the object literal with two spreads. *)
Definition obj_spread (o updates : obj) : obj :=
  fold_left (fun acc kv => obj_set acc (fst kv) (snd kv)) updates o.

(** ** The host *)

(** What [YAML.parse] returns: null (an empty document), a mapping, a
    string scalar, or another value without own string keys that matter
    here (a number, a boolean, a sequence). *)
Inductive yaml : Type :=
| YNull
| YMap (o : obj)
| YStr (s : string)
| YOther.

(** A file-system path in resolved form: its components from the root. *)
Definition Path : Type := list string.

(** Modelled from the spec: the [SkillsFolder] type of the absent types
    module, a storage root: a path plus an optional label. *)
Record SkillsFolder : Type := mkSkillsFolder {
  folder_path : Path;
  folder_label : option string
}.

(** The result of [JSON.parse] on the stored roots. *)
Inductive parsedFolders : Type :=
| FoldersThrow
| FoldersArray (folders : list SkillsFolder)
| FoldersNotArray.

(** The pieces of the host that the module calls.  [None] is a thrown
    exception.  [SKILLS_FOLDER_KEY] is the constant of the absent types
    module. *)
Class Host : Type := {
  YAML_parse : string -> option yaml;
  JSON_parse_names : string -> option (list string);
  JSON_parse_folders : string -> parsedFolders;
  AI_Model : string -> option string;
  SKILLS_FOLDER_KEY : string
}.

(** ** The metadata codec *)

Record ParsedSkill : Type := mkParsed {
  parsed_metadata : yaml;
  parsed_content : string
}.

(** The loop of [parseSkillMarkdown] that adds the camel-case keys.  The
    object it writes to is the object it reads from.  On a string scalar
    the first assignment is to a read-only index, a TypeError. *)
Definition camelCaseMetadata (metadata : yaml) : option yaml :=
  match metadata with
  | YMap o =>
      Some (YMap (fold_left
                    (fun m key => obj_set m (JS.kebabToCamel key) (obj_get m key))
                    (obj_keys o) o))
  | YStr s => if nonEmpty s then None else Some metadata
  | YNull | YOther => Some metadata
  end.

Definition parseSkillMarkdown `{Host} (content : string) : option ParsedSkill :=
  if negb (JS.startsWith content "---") then None
  else
    match JS.indexOf content "---" 3 with
    | None => None
    | Some frontmatterEnd =>
        let frontmatterText := JS.trim (JS.substring content 3 frontmatterEnd) in
        let markdownContent := JS.trim (JS.substringFrom content (frontmatterEnd + 3)) in
        match YAML_parse frontmatterText with
        | None => None
        | Some metadata =>
            match camelCaseMetadata metadata with
            | None => None
            | Some camel => Some (mkParsed camel markdownContent)
            end
        end
    end.

(** ** Paths *)

(** The components between the slashes of a path text. *)
Fixpoint splitSlash (s : string) : list string :=
  match s with
  | EmptyString => [EmptyString]
  | String c s' =>
      if Ascii.eqb c "/" then EmptyString :: splitSlash s'
      else
        match splitSlash s' with
        | h :: t => String c h :: t
        | [] => [String c EmptyString]
        end
  end.

(** One step of path normalisation: empty and dot components are dropped,
    a double dot removes the last component (and stays at the root). *)
Definition pushComponent (p : Path) (c : string) : Path :=
  if String.eqb c "" || String.eqb c "." then p
  else if String.eqb c ".." then removelast p
  else p ++ [c].

(** [path.join(p, seg)] for a resolved [p]. *)
Definition path_join (p : Path) (seg : string) : Path :=
  fold_left pushComponent (splitSlash seg) p.

(** A path text in resolved form; a relative path is taken from the root. *)
Definition parsePath (s : string) : Path := path_join [] s.

(** ** The file system *)

#[local] Set Warnings "-register-all".

(** A tree of directories and regular files; the entries of a directory
    are in the order [readdirSync] returns them, and a new entry goes to
    the end.  Names are compared code unit by code unit (a case-sensitive
    file system); links and permissions are not modelled. *)
Inductive node : Type :=
| File (data : string)
| Dir (entries : list (string * node)).

Definition isDirectory (n : node) : bool :=
  match n with Dir _ => true | File _ => false end.

Definition isFile (n : node) : bool :=
  match n with File _ => true | Dir _ => false end.

Fixpoint lookupEntry (name : string) (es : list (string * node)) : option node :=
  match es with
  | [] => None
  | (k, n) :: es' => if String.eqb k name then Some n else lookupEntry name es'
  end.

(** The entry [name] replaced where it stands, or added at the end. *)
Fixpoint putEntry (name : string) (n : node) (es : list (string * node))
  : list (string * node) :=
  match es with
  | [] => [(name, n)]
  | (k, n') :: es' =>
      if String.eqb k name then (k, n) :: es' else (k, n') :: putEntry name n es'
  end.

Fixpoint resolve (p : Path) (n : node) : option node :=
  match p with
  | [] => Some n
  | c :: p' =>
      match n with
      | File _ => None
      | Dir es =>
          match lookupEntry c es with
          | Some child => resolve p' child
          | None => None
          end
      end
  end.

(** [fs.existsSync(p)] *)
Definition existsSync (root : node) (p : Path) : bool :=
  match resolve p root with Some _ => true | None => false end.

(** [fs.readdirSync(p)]; throws when [p] is not a directory. *)
Definition readdirSync (root : node) (p : Path) : option (list (string * node)) :=
  match resolve p root with
  | Some (Dir es) => Some es
  | _ => None
  end.

(** [fs.readFileSync(p, utf-8)]; throws when [p] is not a regular file. *)
Definition readFileSync (root : node) (p : Path) : option string :=
  match resolve p root with
  | Some (File data) => Some data
  | _ => None
  end.

(** [fs.statSync(p).isFile()]; throws when [p] does not exist. *)
Definition statIsFile (root : node) (p : Path) : option bool :=
  match resolve p root with
  | Some n => Some (isFile n)
  | None => None
  end.

(** [fs.mkdirSync(p, { recursive: true })]; throws when a component of [p]
    is a regular file. *)
Fixpoint mkdirSync (p : Path) (n : node) : option node :=
  match n with
  | File _ => None
  | Dir es =>
      match p with
      | [] => Some n
      | c :: p' =>
          match lookupEntry c es with
          | Some child =>
              match mkdirSync p' child with
              | Some child' => Some (Dir (putEntry c child' es))
              | None => None
              end
          | None =>
              match mkdirSync p' (Dir []) with
              | Some child' => Some (Dir (putEntry c child' es))
              | None => None
              end
          end
      end
  end.

(** [fs.writeFileSync(p, data, utf-8)]; throws when [p] is a directory or
    its parent is not an existing directory. *)
Fixpoint writeFileSync (p : Path) (data : string) (n : node) : option node :=
  match n with
  | File _ => None
  | Dir es =>
      match p with
      | [] => None
      | [c] =>
          match lookupEntry c es with
          | Some (Dir _) => None
          | _ => Some (Dir (putEntry c (File data) es))
          end
      | c :: p' =>
          match lookupEntry c es with
          | Some child =>
              match writeFileSync p' data child with
              | Some child' => Some (Dir (putEntry c child' es))
              | None => None
              end
          | None => None
          end
      end
  end.

(** [fs.rmSync(p, { recursive: true, force: true })] *)
Fixpoint rmSync (p : Path) (n : node) : node :=
  match n with
  | File _ => n
  | Dir es =>
      match p with
      | [] => n
      | [c] => Dir (List.filter (fun e => negb (String.eqb (fst e) c)) es)
      | c :: p' =>
          match lookupEntry c es with
          | Some child => Dir (putEntry c (rmSync p' child) es)
          | None => n
          end
      end
  end.

(** ** The state the module reads and writes *)

Record World : Type := mkWorld {
  localStorage : gmap string string;
  fs : node;
  env_HOME : option string;
  env_USERPROFILE : option string
}.

Definition setStorage (w : World) (ls : gmap string string) : World :=
  mkWorld ls (fs w) (env_HOME w) (env_USERPROFILE w).

Definition setFs (w : World) (root : node) : World :=
  mkWorld (localStorage w) root (env_HOME w) (env_USERPROFILE w).

(** Modelled from the spec: the [ClaudeSkill] type of the absent types
    module, with the fields the storage module fills in. *)
Record ClaudeSkill : Type := mkSkill {
  name : string;
  path : Path;
  metadata : obj;
  content : string;
  supportingFiles : list string;
  skillMdPath : Path
}.

Definition ENABLED_SKILLS_KEY : string := "enabled_skills".
Definition ROUTING_MODEL_KEY : string := "routing_model".

(** ** The skill repository *)

(** A property of the [updates] argument: not there, there and undefined
    (the edit tool passes every field it was not given that way), or
    given. *)
Inductive optional (A : Type) : Type :=
| Absent
| Undefined
| Given (a : A).
Arguments Absent {A}.
Arguments Undefined {A}.
Arguments Given {A} a.

Record SkillUpdates : Type := mkUpdates {
  upd_description : optional string;
  upd_content : optional string;
  upd_allowedTools : optional (list string);
  upd_model : optional string
}.

Section Storage.
Context `{Host}.

(** [a || b] on optional strings: the first one that is a non-empty string. *)
Definition orElse (a : option string) (b : string) : string :=
  match a with
  | Some s => if nonEmpty s then s else b
  | None => b
  end.

Definition getSkillsFolders (w : World) : list SkillsFolder :=
  let homeDir := orElse (env_HOME w) (orElse (env_USERPROFILE w) "") in
  let fallback :=
    [mkSkillsFolder (path_join (path_join (parsePath homeDir) ".claude") "skills") None] in
  match localStorage w !! SKILLS_FOLDER_KEY with
  | Some storedPaths =>
      if nonEmpty storedPaths then
        match JSON_parse_folders storedPaths with
        | FoldersArray parsed => parsed
        | FoldersThrow => [mkSkillsFolder (parsePath storedPaths) None]
        | FoldersNotArray => fallback
        end
      else fallback
  | None => fallback
  end.

Definition getSkillsFolderPaths (w : World) : list Path :=
  map folder_path (getSkillsFolders w).

(** [paths[0] || ""]: the empty path text resolves to the root. *)
Definition getSkillsFolderPath (w : World) : Path :=
  match getSkillsFolderPaths w with
  | p :: _ => p
  | [] => parsePath ""
  end.

(** The filter that keeps the supporting files of a skill directory;
    [statSync] throws on a name that does not resolve. *)
Fixpoint supportingFilesOf (root : node) (skillPath : Path) (allFiles : list string)
  : option (list string) :=
  match allFiles with
  | [] => Some []
  | f :: rest =>
      if String.eqb f "SKILL.md" then supportingFilesOf root skillPath rest
      else
        match statIsFile root (path_join skillPath f) with
        | None => None
        | Some keep =>
            match supportingFilesOf root skillPath rest with
            | None => None
            | Some fs' => Some (if keep then f :: fs' else fs')
            end
        end
  end.

(** One turn of the inner loop of [getAllSkills] on the entry [entry] of
    the root [skillsFolder]: the list [skills] as the turn leaves it, or
    [None] when the turn throws. *)
Definition visitEntry (root : node) (skillsFolder : Path) (skills : list ClaudeSkill)
    (entry : string * node) : option (list ClaudeSkill) :=
  if negb (isDirectory (snd entry)) then Some skills
  else
    let skillPath := path_join skillsFolder (fst entry) in
    let skillMdPath := path_join skillPath "SKILL.md" in
    if negb (existsSync root skillMdPath) then
      let lowerCasePath := path_join skillPath "skill.md" in
      if existsSync root lowerCasePath then Some skills (* skip invalid skill names *)
      else Some skills
    else
      match readFileSync root skillMdPath with
      | None => None
      | Some content =>
          match parseSkillMarkdown content with
          | None => Some skills
          | Some parsed =>
              match parsed_metadata parsed with
              | YNull => None (* reading a property of null *)
              | YStr _ | YOther => Some skills
              | YMap metadata =>
                  if negb (truthy (obj_get metadata "name"))
                     || negb (truthy (obj_get metadata "description"))
                  then Some skills
                  else
                    match readdirSync root skillPath with
                    | None => None
                    | Some allFiles =>
                        match supportingFilesOf root skillPath (map fst allFiles) with
                        | None => None
                        | Some supportingFiles =>
                            Some (skills ++
                                  [mkSkill (fst entry) skillPath metadata
                                     (parsed_content parsed) supportingFiles skillMdPath])
                        end
                    end
              end
          end
      end.

(** A loop whose turns can throw. *)
Fixpoint forEach {A S : Type} (turn : S -> A -> option S) (l : list A) (s : S) : option S :=
  match l with
  | [] => Some s
  | a :: l' =>
      match turn s a with
      | Some s' => forEach turn l' s'
      | None => None
      end
  end.

(** One turn of the outer loop of [getAllSkills]. *)
Definition visitFolder (root : node) (skills : list ClaudeSkill) (skillsFolder : Path)
  : option (list ClaudeSkill) :=
  if negb (existsSync root skillsFolder) then Some skills
  else
    match readdirSync root skillsFolder with
    | None => None
    | Some entries => forEach (visitEntry root skillsFolder) entries skills
    end.

Definition getAllSkills (w : World) : list ClaudeSkill :=
  match forEach (visitFolder (fs w)) (getSkillsFolderPaths w) [] with
  | Some skills => skills
  | None => [] (* catch *)
  end.

(** The predicate of the [find] in [findSkill] and in the router. *)
Definition matchesSkill (identifier : string) (s : ClaudeSkill) : bool :=
  String.eqb (name s) identifier || strictEq (obj_get (metadata s) "name") identifier.

Definition findSkill (w : World) (identifier : string) : option ClaudeSkill :=
  List.find (matchesSkill identifier) (getAllSkills w).

(** The text that [createSkill] puts before the body. *)
Definition createFrontmatter (skillName description : string)
    (allowedTools : option (list string)) (model : option string) : string :=
  let frontmatter :=
    "---" +:+ String JS.LF "name: " +:+ skillName +:+ String JS.LF "description: " +:+ description in
  let frontmatter :=
    match allowedTools with
    | Some tools =>
        if negb (Nat.eqb (length tools) 0)
        then frontmatter +:+ String JS.LF "allowed-tools: " +:+ JS.JSON_stringify tools
        else frontmatter
    | None => frontmatter
    end in
  let frontmatter :=
    match model with
    | Some m => if nonEmpty m then frontmatter +:+ String JS.LF "model: " +:+ m else frontmatter
    | None => frontmatter
    end in
  frontmatter +:+ String JS.LF "---" +:+ String JS.LF (String JS.LF EmptyString).

Definition optionalValue {A : Type} (f : A -> value) (o : option A) : value :=
  match o with Some a => f a | None => VUndef end.

(** [folderPath] is [None] when the argument is absent or the empty text.
    [None] as a result is an exception of the file system. *)
Definition createSkill (w : World) (skillName description body : string)
    (allowedTools : option (list string)) (model : option string)
    (folderPath : option Path) : option (World * ClaudeSkill) :=
  let skillsFolder :=
    match folderPath with Some p => p | None => getSkillsFolderPath w end in
  let skillPath := path_join skillsFolder skillName in
  match mkdirSync skillPath (fs w) with
  | None => None
  | Some fs1 =>
      let frontmatter := createFrontmatter skillName description allowedTools model in
      let skillMdPath := path_join skillPath "SKILL.md" in
      match writeFileSync skillMdPath (frontmatter +:+ body) fs1 with
      | None => None
      | Some fs2 =>
          Some (setFs w fs2,
                mkSkill skillName skillPath
                  [("name", VStr skillName); ("description", VStr description);
                   ("allowedTools", optionalValue VArr allowedTools);
                   ("model", optionalValue VStr model)]
                  body [] skillMdPath)
      end
  end.

Definition optionalEntry {A : Type} (k : string) (f : A -> value) (o : optional A) : obj :=
  match o with
  | Absent => []
  | Undefined => [(k, VUndef)]
  | Given a => [(k, f a)]
  end.

(** The own properties of [updates]. *)
Definition updatesEntries (u : SkillUpdates) : obj :=
  optionalEntry "description" VStr (upd_description u)
  ++ optionalEntry "content" VStr (upd_content u)
  ++ optionalEntry "allowedTools" VArr (upd_allowedTools u)
  ++ optionalEntry "model" VStr (upd_model u).

(** The text that [updateSkill] puts before the body. *)
Definition updateFrontmatter (metadata : obj) : string :=
  let frontmatter :=
    "---" +:+ String JS.LF "name: " +:+ toStr (obj_get metadata "name")
    +:+ String JS.LF "description: " +:+ toStr (obj_get metadata "description") in
  let frontmatter :=
    if hasLength (obj_get metadata "allowedTools")
    then frontmatter +:+ String JS.LF "allowed-tools: "
         +:+ stringifyValue (obj_get metadata "allowedTools")
    else frontmatter in
  let frontmatter :=
    if truthy (obj_get metadata "model")
    then frontmatter +:+ String JS.LF "model: " +:+ toStr (obj_get metadata "model")
    else frontmatter in
  frontmatter +:+ String JS.LF "---" +:+ String JS.LF (String JS.LF EmptyString).

(** The outer [None] is an exception of the file system, the inner one the
    result null. *)
Definition updateSkill (w : World) (identifier : string) (updates : SkillUpdates)
  : option (World * option ClaudeSkill) :=
  match findSkill w identifier with
  | None => Some (w, None)
  | Some skill =>
      match readFileSync (fs w) (skillMdPath skill) with
      | None => None
      | Some currentContent =>
          match parseSkillMarkdown currentContent with
          | None => Some (w, None)
          | Some parsed =>
              let metadata := obj_spread (metadata skill) (updatesEntries updates) in
              let frontmatter := updateFrontmatter metadata in
              let newContent :=
                match upd_content updates with
                | Given c => c
                | _ => parsed_content parsed
                end in
              match writeFileSync (skillMdPath skill) (frontmatter +:+ newContent) (fs w) with
              | None => None
              | Some fs' =>
                  Some (setFs w fs',
                        Some (mkSkill (name skill) (path skill) metadata newContent
                                (supportingFiles skill) (skillMdPath skill)))
              end
          end
      end
  end.

Definition deleteSkill (w : World) (identifier : string) : World * bool :=
  match findSkill w identifier with
  | None => (w, false)
  | Some skill => (setFs w (rmSync (path skill) (fs w)), true)
  end.

(** ** The enablement store *)

Definition getEnabledSkills (w : World) : list string :=
  match localStorage w !! ENABLED_SKILLS_KEY with
  | Some enabled =>
      if nonEmpty enabled then
        match JSON_parse_names enabled with
        | Some l => l
        | None => []
        end
      else []
  | None => []
  end.

(** [l.includes(s)] *)
Definition includes (l : list string) (s : string) : bool :=
  existsb (String.eqb s) l.

Definition isSkillEnabled (w : World) (skillName : string) : bool :=
  includes (getEnabledSkills w) skillName.

Definition enableSkill (w : World) (skillName : string) : World :=
  let enabled := getEnabledSkills w in
  if negb (includes enabled skillName) then
    setStorage w (<[ENABLED_SKILLS_KEY := JS.JSON_stringify (enabled ++ [skillName])]>
                    (localStorage w))
  else w.

Definition disableSkill (w : World) (skillName : string) : World :=
  let enabled := getEnabledSkills w in
  let filtered := List.filter (fun n => negb (String.eqb n skillName)) enabled in
  setStorage w (<[ENABLED_SKILLS_KEY := JS.JSON_stringify filtered]> (localStorage w)).

Definition getEnabledSkillObjects (w : World) : list ClaudeSkill :=
  let enabledNames := getEnabledSkills w in
  List.filter (fun skill => includes enabledNames (name skill)) (getAllSkills w).

(** [saved || null] *)
Definition getRoutingModel (w : World) : option string :=
  match localStorage w !! ROUTING_MODEL_KEY with
  | Some saved => if nonEmpty saved then Some saved else None
  | None => None
  end.

Definition setRoutingModel (w : World) (model : string) : World :=
  setStorage w (<[ROUTING_MODEL_KEY := model]> (localStorage w)).

Definition clearRoutingModel (w : World) : World :=
  setStorage w (delete ROUTING_MODEL_KEY (localStorage w)).

End Storage.

(** ** The router (the use-skills tool) *)

(** A computation that may ask the classification service: [AI.ask] with
    a prompt and the entry of the model table, resumed with the answer
    ([None] when the call throws). *)
Inductive prog (A : Type) : Type :=
| Ret (a : A)
| Ask (prompt : string) (model : option string) (k : option string -> prog A).
Arguments Ret {A} a.
Arguments Ask {A} prompt model k.

(** The calls a computation makes when the service answers with [oracle],
    and its result. *)
Fixpoint run {A : Type} (oracle : string -> option string -> option string) (p : prog A)
  : list (string * option string) * A :=
  match p with
  | Ret a => ([], a)
  | Ask prompt model k =>
      let '(calls, a) := run oracle (k (oracle prompt model)) in
      ((prompt, model) :: calls, a)
  end.

Definition natToString (n : nat) : string :=
  DecimalString.NilEmpty.string_of_uint (Nat.to_uint n).

Definition Q : string := String JS.dquote EmptyString.
Definition NL : string := String JS.LF EmptyString.

Definition setupRequiredMessage : string :=
"# Setup Required

Before using AI Skills, you need to configure your routing model preference.

## What is a Routing Model?

The routing model is a fast AI model that intelligently selects which skill to use based on your request.

## How to Setup

1. Open " +:+ Q +:+ "Manage Skills" +:+ Q +:+ " command in Raycast
2. Click " +:+ Q +:+ "Setup Preferences" +:+ Q +:+ " (gear icon)
3. Select your preferred routing model (we recommend **Gemini 2.5 Flash Lite**)
4. The selection is saved automatically

Once configured, you can use AI Skills to help with various tasks!".

Definition noSkillsEnabledMessage : string :=
"No AI Skills are currently enabled.

To enable skills:
1. Open " +:+ Q +:+ "Manage Skills" +:+ Q +:+ " command
2. Use Cmd+T to toggle skills on/off
3. Once enabled, skills will be available here

Skills must be enabled before they can be used by the AI.".

(** [skills.map((skill, index) => line (index + 1) skill).join(LF)] *)
Fixpoint numbered (line : nat -> ClaudeSkill -> string) (index : nat)
    (skills : list ClaudeSkill) : list string :=
  match skills with
  | [] => []
  | skill :: rest => line (index + 1) skill :: numbered line (S index) rest
  end.

Definition formatSkillResponse (skill : ClaudeSkill) : string :=
"# Using Skill: " +:+ toStr (obj_get (metadata skill) "name") +:+ "

**Purpose:** " +:+ toStr (obj_get (metadata skill) "description") +:+ "

---

## YOUR TASK

You have been selected to help with this request because this skill matches what the user needs. Follow these steps:

1. **READ and UNDERSTAND** the skill instructions below
2. **APPLY** the instructions directly to address the user's request
3. **RESPOND** helpfully, following any specific guidance in the skill
4. **STAY WITHIN SCOPE** - Focus on what this skill is designed to do

---

## Skill Instructions

" +:+ content skill +:+ "

---

**Remember:** These instructions are your guide. Use them to provide the best possible response to the user's request.".

Definition formatNoMatchMessage (skills : list ClaudeSkill) : string :=
  let skillsList :=
    JS.join NL
      (numbered (fun i skill =>
                   natToString i +:+ ". **" +:+ toStr (obj_get (metadata skill) "name")
                   +:+ "** - " +:+ toStr (obj_get (metadata skill) "description"))
         0 skills) in
"# No Suitable Skill Found

The user's request doesn't clearly match any of your available AI Skills.

## WHAT YOU SHOULD DO

**Respond to the user directly using your general capabilities.** Don't try to force a skill match.

Help the user with their request to the best of your ability. If you need clarification about what they want, ask them.

---

## Available Skills (" +:+ natToString (length skills) +:+ ")

For your reference, here are the skills that are currently enabled:" +:+ NL +:+ NL +:+ skillsList +:+ "

---

## TIPS

- If the user mentions a specific skill name by name, let them know it's not available
- If you think a skill MIGHT be relevant but you're not sure, you can ask: " +:+ Q +:+ "Would you like me to use the [skill-name] skill for this?" +:+ Q +:+ "
- The user can enable more skills or create new ones through the " +:+ Q +:+ "Manage Skills" +:+ Q +:+ " command".

Definition routingPrompt (skills : list ClaudeSkill) (request : string) : string :=
  let skillsList :=
    JS.join NL
      (numbered (fun i skill =>
                   natToString i +:+ ". Name: " +:+ toStr (obj_get (metadata skill) "name")
                   +:+ NL +:+ "   Description: " +:+ toStr (obj_get (metadata skill) "description"))
         0 skills) in
"You are an intelligent skill router. Your task is to match the user's request to the MOST appropriate skill from the available list.

User Request: " +:+ Q +:+ request +:+ Q +:+ "

Available Skills:
" +:+ skillsList +:+ "

SELECTION CRITERIA:
1. Choose the skill whose PURPOSE best aligns with what the user wants to accomplish
2. Look for KEYWORDS in the request that match the skill's description
3. If multiple skills seem relevant, pick the one that is MOST SPECIFIC to the user's intent
4. Only return " +:+ Q +:+ "NONE" +:+ Q +:+ " if the request doesn't meaningfully relate to ANY skill

OUTPUT FORMAT:
- Respond with ONLY the skill name (e.g., " +:+ Q +:+ "code-reviewer" +:+ Q +:+ ", " +:+ Q +:+ "summarizer" +:+ Q +:+ ")
- If no skill matches, respond with exactly " +:+ Q +:+ "NONE" +:+ Q +:+ "
- No explanations, no quotes, no extra text

Selected skill name:".

(** Sequencing: the second computation runs on the result of the first. *)
Fixpoint bind {A B : Type} (p : prog A) (f : A -> prog B) : prog B :=
  match p with
  | Ret a => f a
  | Ask prompt model k => Ask prompt model (fun answer => bind (k answer) f)
  end.

(** How a piece of the tool ends: with a value, or with an exception on
    its way to the caller. *)
Inductive outcome (A : Type) : Type :=
| Returned (a : A)
| Thrown.
Arguments Returned {A} a.
Arguments Thrown {A}.

(** The rest of a block after a statement that may throw. *)
Definition andThen {A B : Type} (p : prog (outcome A)) (f : A -> prog (outcome B))
  : prog (outcome B) :=
  bind p (fun o => match o with Returned a => f a | Thrown => Ret Thrown end).

(** [try { body } catch { handler }] *)
Definition tryCatch {A : Type} (body handler : prog (outcome A)) : prog (outcome A) :=
  bind body (fun o => match o with Returned a => Ret (Returned a) | Thrown => handler end).

(** [await AI.ask(prompt, { creativity, model })] *)
Definition AI_ask (prompt : string) (model : option string) : prog (outcome string) :=
  Ask prompt model
    (fun answer =>
       match answer with
       | Some response => Ret (Returned response)
       | None => Ret Thrown
       end).

Section Router.
Context `{Host}.

(** The answer of the service as [selectSkillWithAI] reads it. *)
Definition readResponse (response : string) : option string :=
  let trimmedResponse := JS.stripQuotes (JS.trim response) in
  if String.eqb (JS.toUpperCase trimmedResponse) "NONE" then None
  else Some trimmedResponse.

Definition selectSkillWithAI (skills : list ClaudeSkill) (request routingModel : string)
  : prog (outcome (option string)) :=
  let prompt := routingPrompt skills request in
  tryCatch
    (andThen (AI_ask prompt (AI_Model routingModel))
       (fun response => Ret (Returned (readResponse response))))
    (Ret (Returned None)).

(** What [tool] does with the name that [selectSkillWithAI] returns. *)
Definition respond (enabledSkills : list ClaudeSkill) (selectedSkillName : option string)
  : string :=
  match selectedSkillName with
  | None => formatNoMatchMessage enabledSkills
  | Some selected =>
      if negb (nonEmpty selected) then formatNoMatchMessage enabledSkills
      else
        match List.find (matchesSkill selected) enabledSkills with
        | Some selectedSkill => formatSkillResponse selectedSkill
        | None => formatNoMatchMessage enabledSkills
        end
  end.

Definition tool (w : World) (request : string) : prog (outcome string) :=
  match getRoutingModel w with
  | None => Ret (Returned setupRequiredMessage)
  | Some routingModel =>
      let enabledSkills := getEnabledSkillObjects w in
      if Nat.eqb (length enabledSkills) 0 then Ret (Returned noSkillsEnabledMessage)
      else
        tryCatch
          (andThen (selectSkillWithAI enabledSkills request routingModel)
             (fun selectedSkillName =>
                Ret (Returned (respond enabledSkills selectedSkillName))))
          (Ret (Returned (formatNoMatchMessage enabledSkills)))
  end.

End Router.

(** ** Reading a supporting file *)

(** How [readSupportingFile] ends: with the text of the file, with the
    error of the module and its message, or with an error of the file
    system. *)
Inductive readResult : Type :=
| FileText (data : string)
| NotFoundError (message : string)
| FileSystemError.

Section SupportingFiles.
Context `{Host}.

Definition readSupportingFile (w : World) (skillName fileName : string) : readResult :=
  match findSkill w skillName with
  | None => NotFoundError ("Skill " +:+ Q +:+ skillName +:+ Q +:+ " not found")
  | Some skill =>
      let filePath := path_join (path skill) fileName in
      if negb (existsSync (fs w) filePath) then
        NotFoundError ("File " +:+ Q +:+ fileName +:+ Q +:+ " not found in skill "
                       +:+ Q +:+ skillName +:+ Q)
      else
        match readFileSync (fs w) filePath with
        | Some data => FileText data
        | None => FileSystemError
        end
  end.

End SupportingFiles.


(** ** A reference host

    An executable instance of [Host] for the fragment of JSON and YAML that
    the module itself writes: arrays of string literals, arrays of folder
    objects, and block mappings of one-line entries.  Outside the fragment
    its parsers answer [None]; the theorems below hold for every host and use
    this one only on texts of the fragment. *)

Module Reference.

Definition hexValue (c : ascii) : option nat :=
  let n := nat_of_ascii c in
  if (48 <=? n) && (n <=? 57) then Some (n - 48)
  else if (97 <=? n) && (n <=? 102) then Some (n - 87)
  else if (65 <=? n) && (n <=? 70) then Some (n - 55)
  else None.

(** The code unit that a one-letter escape stands for. *)
Definition unescape (e : ascii) : option ascii :=
  let n := nat_of_ascii e in
  if n =? 34 then Some e
  else if n =? 92 then Some e
  else if n =? 47 then Some e
  else if n =? 98 then Some (ascii_of_nat 8)
  else if n =? 102 then Some (ascii_of_nat 12)
  else if n =? 110 then Some (ascii_of_nat 10)
  else if n =? 114 then Some (ascii_of_nat 13)
  else if n =? 116 then Some (ascii_of_nat 9)
  else None.

Definition consResult (c : ascii) (r : option (string * string)) : option (string * string) :=
  match r with
  | Some (decoded, rest) => Some (String c decoded, rest)
  | None => None
  end.

(** A JSON string literal after its opening quote: the string it denotes
    and the text after its closing quote. *)
Fixpoint stringBody (s : string) : option (string * string) :=
  match s with
  | EmptyString => None
  | String c s' =>
      if Ascii.eqb c JS.dquote then Some (EmptyString, s')
      else if Ascii.eqb c "\" then
        match s' with
        | EmptyString => None
        | String e s'' =>
            if Ascii.eqb e "u" then
              match s'' with
              | String h1 (String h2 (String h3 (String h4 rest))) =>
                  match hexValue h1, hexValue h2, hexValue h3, hexValue h4 with
                  | Some 0, Some 0, Some a, Some b =>
                      consResult (ascii_of_nat (16 * a + b)) (stringBody rest)
                  | _, _, _, _ => None
                  end
              | _ => None
              end
            else
              match unescape e with
              | Some c' => consResult c' (stringBody s'')
              | None => None
              end
        end
      else if nat_of_ascii c <? 32 then None
      else consResult c (stringBody s')
  end.

Definition isJsonSpace (c : ascii) : bool :=
  let n := nat_of_ascii c in (n =? 32) || (n =? 9) || (n =? 10) || (n =? 13).

Fixpoint skipSpaces (s : string) : string :=
  match s with
  | String c s' => if isJsonSpace c then skipSpaces s' else s
  | EmptyString => EmptyString
  end.

(** The elements of an array of string literals after its opening bracket
    (and at least one element), up to the end of the text. *)
Fixpoint stringElements (fuel : nat) (s : string) : option (list string) :=
  match fuel with
  | 0 => None
  | S fuel' =>
      match skipSpaces s with
      | String q body =>
          if Ascii.eqb q JS.dquote then
            match stringBody body with
            | Some (item, rest) =>
                match skipSpaces rest with
                | String d rest' =>
                    if Ascii.eqb d "," then
                      match stringElements fuel' rest' with
                      | Some items => Some (item :: items)
                      | None => None
                      end
                    else if Ascii.eqb d "]" then
                      match skipSpaces rest' with
                      | EmptyString => Some [item]
                      | _ => None
                      end
                    else None
                | EmptyString => None
                end
            | None => None
            end
          else None
      | EmptyString => None
      end
  end.

(** [JSON.parse] on the text of an array of strings. *)
Definition parseNames (s : string) : option (list string) :=
  match skipSpaces s with
  | String b rest =>
      if Ascii.eqb b "[" then
        match skipSpaces rest with
        | String e rest' =>
            if Ascii.eqb e "]" then
              match skipSpaces rest' with
              | EmptyString => Some []
              | _ => None
              end
            else stringElements (String.length rest) rest
        | EmptyString => None
        end
      else None
  | EmptyString => None
  end.

(** A literal followed by the rest of the text. *)
Definition quoted (s : string) : option (string * string) :=
  match skipSpaces s with
  | String q body => if Ascii.eqb q JS.dquote then stringBody body else None
  | EmptyString => None
  end.

Definition expect (c : ascii) (s : string) : option string :=
  match skipSpaces s with
  | String d rest => if Ascii.eqb d c then Some rest else None
  | EmptyString => None
  end.

(** One folder object: a path and perhaps a label, both string literals. *)
Definition folderObject (s : string) : option (SkillsFolder * string) :=
  match expect "{" s with
  | None => None
  | Some s1 =>
      match quoted s1 with
      | Some ("path", s2) =>
          match expect ":" s2 with
          | None => None
          | Some s3 =>
              match quoted s3 with
              | None => None
              | Some (p, s4) =>
                  match expect "}" s4 with
                  | Some s5 => Some (mkSkillsFolder (parsePath p) None, s5)
                  | None =>
                      match expect "," s4 with
                      | None => None
                      | Some s5 =>
                          match quoted s5 with
                          | Some ("label", s6) =>
                              match expect ":" s6 with
                              | None => None
                              | Some s7 =>
                                  match quoted s7 with
                                  | None => None
                                  | Some (l, s8) =>
                                      match expect "}" s8 with
                                      | Some s9 => Some (mkSkillsFolder (parsePath p) (Some l), s9)
                                      | None => None
                                      end
                                  end
                              end
                          | _ => None
                          end
                      end
                  end
              end
          end
      | _ => None
      end
  end.

Fixpoint folderElements (fuel : nat) (s : string) : option (list SkillsFolder) :=
  match fuel with
  | 0 => None
  | S fuel' =>
      match folderObject s with
      | None => None
      | Some (f, rest) =>
          match expect "," rest with
          | Some rest' =>
              match folderElements fuel' rest' with
              | Some fs' => Some (f :: fs')
              | None => None
              end
          | None =>
              match expect "]" rest with
              | Some rest' =>
                  match skipSpaces rest' with
                  | EmptyString => Some [f]
                  | _ => None
                  end
              | None => None
              end
          end
      end
  end.

(** [JSON.parse] on the stored roots: an array of folder objects, the
    literal null, or a text that is not JSON (a bare path). *)
Definition parseFolders (s : string) : parsedFolders :=
  if String.eqb (JS.trim s) "null" then FoldersNotArray
  else
    match expect "[" s with
    | None => FoldersThrow
    | Some rest =>
        match expect "]" rest with
        | Some rest' =>
            match skipSpaces rest' with
            | EmptyString => FoldersArray []
            | _ => FoldersThrow
            end
        | None =>
            match folderElements (String.length rest) rest with
            | Some fs' => FoldersArray fs'
            | None => FoldersThrow
            end
        end
    end.

Definition isLetter (c : ascii) : bool :=
  let n := nat_of_ascii c in
  ((97 <=? n) && (n <=? 122)) || ((65 <=? n) && (n <=? 90)).

Definition isDigit (c : ascii) : bool :=
  let n := nat_of_ascii c in (48 <=? n) && (n <=? 57).

Definition isKeyChar (c : ascii) : bool :=
  isLetter c || isDigit c || Ascii.eqb c "-" || Ascii.eqb c "_".

(** The code units of the plain scalars of the fragment. *)
Definition isPlainChar (c : ascii) : bool :=
  isLetter c || isDigit c || Ascii.eqb c " " || Ascii.eqb c "-" || Ascii.eqb c "_"
  || Ascii.eqb c "." || Ascii.eqb c ",".

Fixpoint allChars (f : ascii -> bool) (s : string) : bool :=
  match s with
  | EmptyString => true
  | String c s' => f c && allChars f s'
  end.

(** The plain scalars that the core schema reads as null or a boolean. *)
Definition reservedWords : list string :=
  ["null"; "Null"; "NULL"; "true"; "True"; "TRUE"; "false"; "False"; "FALSE"].

Fixpoint splitLines (s : string) : list string :=
  match s with
  | EmptyString => [EmptyString]
  | String c s' =>
      if Ascii.eqb c JS.LF then EmptyString :: splitLines s'
      else
        match splitLines s' with
        | h :: t => String c h :: t
        | [] => [String c EmptyString]
        end
  end.

Fixpoint skipBlanks (s : string) : string :=
  match s with
  | String c s' => if Ascii.eqb c " " then skipBlanks s' else s
  | EmptyString => EmptyString
  end.

Fixpoint dropTrailingBlanks (s : string) : string :=
  match s with
  | EmptyString => EmptyString
  | String c s' =>
      match dropTrailingBlanks s' with
      | EmptyString => if Ascii.eqb c " " then EmptyString else String c EmptyString
      | t => String c t
      end
  end.

(** The key of an entry and the text after it. *)
Fixpoint keyAndRest (s : string) : string * string :=
  match s with
  | String c s' =>
      if isKeyChar c then let '(k, r) := keyAndRest s' in (String c k, r)
      else (EmptyString, s)
  | EmptyString => (EmptyString, EmptyString)
  end.

(** The value of an entry: a flow sequence of string literals, a
    double-quoted scalar or a plain scalar. *)
Definition scalar (text : string) : option value :=
  match text with
  | EmptyString => Some (VOther false "null" false "null")
  | String c body =>
      if Ascii.eqb c "[" then
        match parseNames text with
        | Some l => Some (VArr l)
        | None => None
        end
      else if Ascii.eqb c JS.dquote then
        match stringBody body with
        | Some (s, EmptyString) => Some (VStr s)
        | _ => None
        end
      else if isLetter c && allChars isPlainChar text
              && negb (existsb (String.eqb text) reservedWords)
      then Some (VStr text)
      else None
  end.

(** One line of a block mapping; [Some None] is a blank line. *)
Definition entry (line : string) : option (option (string * value)) :=
  match skipBlanks line with
  | EmptyString => Some None
  | _ =>
      match keyAndRest line with
      | (String k0 k, String colon rest) =>
          if isLetter k0 && Ascii.eqb colon ":" then
            match rest with
            | EmptyString => Some (Some (String k0 k, VOther false "null" false "null"))
            | String sp _ =>
                if Ascii.eqb sp " " then
                  match scalar (dropTrailingBlanks (skipBlanks rest)) with
                  | Some v => Some (Some (String k0 k, v))
                  | None => None
                  end
                else None
            end
          else None
      | _ => None
      end
  end.

Definition hasKey (k : string) (o : obj) : bool :=
  existsb (fun kv => String.eqb (fst kv) k) o.

(** The entries of the lines; a repeated key is an error. *)
Fixpoint entries (lines : list string) (o : obj) : option obj :=
  match lines with
  | [] => Some o
  | line :: rest =>
      match entry line with
      | None => None
      | Some None => entries rest o
      | Some (Some (k, v)) => if hasKey k o then None else entries rest (o ++ [(k, v)])
      end
  end.

(** [YAML.parse] on the fragment: the empty document is null. *)
Definition parseYaml (text : string) : option yaml :=
  match entries (splitLines text) [] with
  | Some [] => Some YNull
  | Some o => Some (YMap o)
  | None => None
  end.

#[export] Instance host : Host := {|
  YAML_parse := parseYaml;
  JSON_parse_names := parseNames;
  JSON_parse_folders := parseFolders;
  AI_Model := fun key => Some key;
  SKILLS_FOLDER_KEY := "skills_folder"
|}.

End Reference.


(** ** The configured roots as texts

    The functions that manage the roots compare and store the path of a
    root as the text it was given, which the resolved form above does not
    keep.  Here are the roots with their texts, and [getSkillsFolders] once
    more on them. *)

Module Roots.

(** A root as the module stores it: an object with a path and, when one
    was given, a label (in this order). *)
Record StoredFolder : Type := mkStoredFolder {
  stored_path : string;
  stored_label : option string
}.

(** The result of [JSON.parse] on the stored roots. *)
Inductive parsed : Type :=
| Throws
| IsArray (folders : list StoredFolder)
| NotArray.

(** [JSON.stringify] of a root: a label that is undefined is left out. *)
Definition stringifyFolder (f : StoredFolder) : string :=
  "{" +:+ JS.jsonQuote "path" +:+ ":" +:+ JS.jsonQuote (stored_path f)
  +:+ match stored_label f with
      | Some l => "," +:+ JS.jsonQuote "label" +:+ ":" +:+ JS.jsonQuote l
      | None => EmptyString
      end
  +:+ "}".

(** [JSON.stringify] of an array of roots *)
Definition JSON_stringify (folders : list StoredFolder) : string :=
  "[" +:+ JS.join "," (map stringifyFolder folders) +:+ "]".

Fixpoint lastSegment (res : list string) : option string :=
  match res with
  | [] => None
  | [s] => Some s
  | _ :: res' => lastSegment res'
  end.

(** One segment in the normalisation of a path text: an empty segment and
    a dot are dropped; a double dot removes the segment before it, or is
    kept in front of a relative path that has none left. *)
Definition normalizeStep (allowAboveRoot : bool) (res : list string) (segment : string)
  : list string :=
  if String.eqb segment "" || String.eqb segment "." then res
  else if String.eqb segment ".." then
    match lastSegment res with
    | Some l =>
        if String.eqb l ".." then (if allowAboveRoot then res ++ [".."] else res)
        else removelast res
    | None => if allowAboveRoot then [".."] else res
    end
  else res ++ [segment].

Fixpoint endsWithSlash (s : string) : bool :=
  match s with
  | EmptyString => false
  | String c EmptyString => Ascii.eqb c "/"
  | String _ s' => endsWithSlash s'
  end.

(** [path.normalize(p)] *)
Definition normalize (p : string) : string :=
  if negb (nonEmpty p) then "."
  else
    let isAbsolute := JS.startsWith p "/" in
    let trailingSeparator := endsWithSlash p in
    let res := JS.join "/" (fold_left (normalizeStep (negb isAbsolute)) (splitSlash p) []) in
    if negb (nonEmpty res) then
      (if isAbsolute then "/" else if trailingSeparator then "./" else ".")
    else
      (if isAbsolute then "/" else EmptyString) +:+ res
      +:+ (if trailingSeparator then "/" else EmptyString).

(** [path.join(...segments)] as a text *)
Definition join (segments : list string) : string :=
  match List.filter nonEmpty segments with
  | [] => "."
  | parts => normalize (JS.join "/" parts)
  end.

(** [folders.findIndex(test)]; [None] is [-1]. *)
Fixpoint findIndex {A : Type} (test : A -> bool) (l : list A) : option nat :=
  match l with
  | [] => None
  | a :: l' =>
      if test a then Some 0
      else match findIndex test l' with Some i => Some (S i) | None => None end
  end.

Section Functions.
Context `{Host}.

(** [JSON.parse] on the stored roots, with the texts of the paths. *)
Variable JSON_parse : string -> parsed.

Definition getSkillsFolders (w : World) : list StoredFolder :=
  let homeDir := orElse (env_HOME w) (orElse (env_USERPROFILE w) "") in
  let fallback := [mkStoredFolder (join [homeDir; ".claude"; "skills"]) None] in
  match localStorage w !! SKILLS_FOLDER_KEY with
  | Some storedPaths =>
      if nonEmpty storedPaths then
        match JSON_parse storedPaths with
        | IsArray folders => folders
        | Throws => [mkStoredFolder storedPaths None]
        | NotArray => fallback
        end
      else fallback
  | None => fallback
  end.

Definition getSkillsFolderPaths (w : World) : list string :=
  map stored_path (getSkillsFolders w).

Definition hasPath (folderPath : string) (f : StoredFolder) : bool :=
  String.eqb (stored_path f) folderPath.

Definition store (w : World) (folders : list StoredFolder) : World :=
  setStorage w (<[SKILLS_FOLDER_KEY := JSON_stringify folders]> (localStorage w)).

Definition addSkillsFolderPath (w : World) (folderPath : string) (label : option string)
  : World :=
  let folders := getSkillsFolders w in
  match List.find (hasPath folderPath) folders with
  | None => store w (folders ++ [mkStoredFolder folderPath label])
  | Some _ => w
  end.

Definition removeSkillsFolderPath (w : World) (folderPath : string) : World :=
  let folders := getSkillsFolders w in
  let filtered := List.filter (fun f => negb (hasPath folderPath f)) folders in
  store w filtered.

Definition updateSkillsFolderPath (w : World) (oldPath newPath : string)
    (label : option string) : World * bool :=
  let folders := getSkillsFolders w in
  match findIndex (hasPath oldPath) folders with
  | None => (w, false)
  | Some index => (store w (<[index := mkStoredFolder newPath label]> folders), true)
  end.

Definition setSkillsFolderPath (w : World) (folderPath : string) : World :=
  store w [mkStoredFolder folderPath None].

End Functions.

(** The root in resolved form. *)
Definition resolved (f : StoredFolder) : SkillsFolder :=
  mkSkillsFolder (parsePath (stored_path f)) (stored_label f).

(** The reference parser of the roots, with the texts of the paths. *)
Definition storedObject (s : string) : option (StoredFolder * string) :=
  match Reference.expect "{" s with
  | None => None
  | Some s1 =>
      match Reference.quoted s1 with
      | Some ("path", s2) =>
          match Reference.expect ":" s2 with
          | None => None
          | Some s3 =>
              match Reference.quoted s3 with
              | None => None
              | Some (p, s4) =>
                  match Reference.expect "}" s4 with
                  | Some s5 => Some (mkStoredFolder p None, s5)
                  | None =>
                      match Reference.expect "," s4 with
                      | None => None
                      | Some s5 =>
                          match Reference.quoted s5 with
                          | Some ("label", s6) =>
                              match Reference.expect ":" s6 with
                              | None => None
                              | Some s7 =>
                                  match Reference.quoted s7 with
                                  | None => None
                                  | Some (l, s8) =>
                                      match Reference.expect "}" s8 with
                                      | Some s9 => Some (mkStoredFolder p (Some l), s9)
                                      | None => None
                                      end
                                  end
                              end
                          | _ => None
                          end
                      end
                  end
              end
          end
      | _ => None
      end
  end.

Fixpoint storedElements (fuel : nat) (s : string) : option (list StoredFolder) :=
  match fuel with
  | 0 => None
  | S fuel' =>
      match storedObject s with
      | None => None
      | Some (f, rest) =>
          match Reference.expect "," rest with
          | Some rest' =>
              match storedElements fuel' rest' with
              | Some fs' => Some (f :: fs')
              | None => None
              end
          | None =>
              match Reference.expect "]" rest with
              | Some rest' =>
                  match Reference.skipSpaces rest' with
                  | EmptyString => Some [f]
                  | _ => None
                  end
              | None => None
              end
          end
      end
  end.

Definition parseStored (s : string) : parsed :=
  if String.eqb (JS.trim s) "null" then NotArray
  else
    match Reference.expect "[" s with
    | None => Throws
    | Some rest =>
        match Reference.expect "]" rest with
        | Some rest' =>
            match Reference.skipSpaces rest' with
            | EmptyString => IsArray []
            | _ => Throws
            end
        | None =>
            match storedElements (String.length rest) rest with
            | Some fs' => IsArray fs'
            | None => Throws
            end
        end
    end.

End Roots.

(** ** The tools that create and edit a skill *)

(** The marks that open the answers of the tools, U+274C and U+2705.  Each
    is one code unit in JavaScript and is written here as its three bytes
    in UTF-8; no length is taken of a text that holds one. *)
Definition crossMark : string := "❌".
Definition checkMark : string := "✅".

(** [!s || s.trim().length === 0] *)
Definition isBlank (s : string) : bool :=
  negb (nonEmpty s) || Nat.eqb (String.length (JS.trim s)) 0.

Definition isSlugChar (c : ascii) : bool :=
  JS.isLower c || Reference.isDigit c || Ascii.eqb c "-".

(** [/^[a-z0-9-]+$/.test(s)] *)
Definition isSlug (s : string) : bool :=
  nonEmpty s && Reference.allChars isSlugChar s.

(** A property of an object literal written from an input field that may
    be undefined: the property is there either way. *)
Definition passed {A : Type} (field : option A) : optional A :=
  match field with
  | Some a => Given a
  | None => Undefined
  end.

(** [Object.entries(o).filter(([, v]) => v !== undefined)] on the entries
    of an object literal. *)
Definition definedEntries (o : list (string * option string)) : list (string * string) :=
  omap (fun kv => match snd kv with Some v => Some (fst kv, v) | None => None end) o.

(** [content ? updated : undefined] *)
Definition contentChange (content : option string) : option string :=
  match content with
  | Some c => if nonEmpty c then Some "(updated)" else None
  | None => None
  end.

(** The tool of [src/unnamed/part_001]. *)
Module CreateTool.

Record Input : Type := mkInput {
  in_name : string;
  in_description : string;
  in_content : string;
  in_allowedTools : option (list string);
  in_model : option string
}.

Section Tool.
Context `{Host}.

(** The text of a path, which its resolved form does not keep, and the
    message of the error that the file system throws. *)
Variable pathText : Path -> string.
Variable errorMessage : string.

Definition tool (w : World) (input : Input) : World * string :=
  if isBlank (in_name input) then
    (w, crossMark +:+ " Skill name is required.")
  else if negb (isSlug (in_name input)) then
    (w, crossMark +:+ " Invalid skill name " +:+ Q +:+ in_name input +:+ Q
        +:+ ". Skill names must use lowercase letters, numbers, and hyphens only (max 64 characters).")
  else if 64 <? String.length (in_name input) then
    (w, crossMark +:+ " Skill name too long. Maximum 64 characters allowed.")
  else if isBlank (in_description input) then
    (w, crossMark +:+ " Description is required.")
  else if 1024 <? String.length (in_description input) then
    (w, crossMark +:+ " Description too long. Maximum 1024 characters allowed (currently "
        +:+ natToString (String.length (in_description input)) +:+ " characters).")
  else if isBlank (in_content input) then
    (w, crossMark +:+ " Content is required.")
  else
    match createSkill w (in_name input) (in_description input) (in_content input)
            (in_allowedTools input) (in_model input) None with
    | Some (w', skill) =>
        let supportingInfo :=
          match in_allowedTools input with
          | Some tools => NL +:+ "- Allowed Tools: " +:+ JS.join ", " tools
          | None => EmptyString
          end in
        let modelInfo :=
          match in_model input with
          | Some m => if nonEmpty m then NL +:+ "- Model: " +:+ m else EmptyString
          | None => EmptyString
          end in
        (w', checkMark +:+ " Successfully created Claude Code Skill " +:+ Q
             +:+ toStr (obj_get (metadata skill) "name") +:+ Q +:+ NL +:+ NL
             +:+ "Directory: " +:+ pathText (path skill) +:+ supportingInfo +:+ modelInfo
             +:+ NL +:+ NL +:+ "Description: "
             +:+ toStr (obj_get (metadata skill) "description") +:+ NL +:+ NL
             +:+ "The skill is now available for Claude to use automatically when relevant.")
    | None => (w, crossMark +:+ " Failed to create skill: " +:+ errorMessage)
    end.

End Tool.
End CreateTool.

(** The tool of [src/unnamed/part_002], which takes the four fields. *)
Module EditFieldsTool.

Record Input : Type := mkInput {
  in_name : string;
  in_description : option string;
  in_content : option string;
  in_allowedTools : option (list string);
  in_model : option string
}.

Section Tool.
Context `{Host}.
Variable errorMessage : string.

Definition tool (w : World) (input : Input) : World * string :=
  if isBlank (in_name input) then
    (w, crossMark +:+ " Skill name is required.")
  else
    match findSkill w (in_name input) with
    | None =>
        (w, crossMark +:+ " Skill " +:+ Q +:+ in_name input +:+ Q
            +:+ " not found. Use list-skills to see all available skills.")
    | Some existingSkill =>
        match
          match in_description input with
          | Some description =>
              if Nat.eqb (String.length (JS.trim description)) 0 then
                Some (crossMark +:+ " Description cannot be empty.")
              else if 1024 <? String.length description then
                Some (crossMark
                      +:+ " Description too long. Maximum 1024 characters allowed (currently "
                      +:+ natToString (String.length description) +:+ " characters).")
              else None
          | None => None
          end
        with
        | Some refusal => (w, refusal)
        | None =>
            if match in_content input with
               | Some content => Nat.eqb (String.length (JS.trim content)) 0
               | None => false
               end
            then (w, crossMark +:+ " Content cannot be empty.")
            else
              match updateSkill w (in_name input)
                      (mkUpdates (passed (in_description input)) (passed (in_content input))
                         (passed (in_allowedTools input)) (passed (in_model input))) with
              | None => (w, crossMark +:+ " Failed to update skill: " +:+ errorMessage)
              | Some (w', None) =>
                  (w', crossMark +:+ " Failed to update skill " +:+ Q +:+ in_name input +:+ Q)
              | Some (w', Some updatedSkill) =>
                  let changes :=
                    JS.join NL
                      (map (fun kv => "  - " +:+ fst kv +:+ ": " +:+ snd kv)
                         (definedEntries
                            [("description", in_description input);
                             ("content", contentChange (in_content input));
                             ("allowedTools", option_map (JS.join ",") (in_allowedTools input));
                             ("model", in_model input)])) in
                  (w', checkMark +:+ " Successfully updated Claude Code Skill " +:+ Q
                       +:+ toStr (obj_get (metadata updatedSkill) "name") +:+ Q
                       +:+ NL +:+ NL +:+ "Changes:" +:+ NL +:+ changes +:+ NL +:+ NL
                       +:+ "Description: "
                       +:+ toStr (obj_get (metadata updatedSkill) "description")
                       +:+ NL +:+ NL
                       +:+ "The skill will use the updated content next time Claude invokes it.")
              end
        end
    end.

End Tool.
End EditFieldsTool.

(** The tool of [src/src/tools/edit-skill.ts] and its confirmation. *)
Module EditTool.

Record Input : Type := mkInput {
  in_name : string;
  in_description : option string;
  in_content : option string
}.

(** What the confirmation shows (its style is the regular one). *)
Record Confirmation : Type := mkConfirmation {
  message : string;
  info : list (string * value)
}.

(** [key.charAt(0).toUpperCase() + key.slice(1)] *)
Definition capitalize (key : string) : string :=
  match key with
  | String c rest => String (JS.upperChar c) rest
  | EmptyString => EmptyString
  end.

Section Tool.
Context `{Host}.
Variable pathText : Path -> string.
Variable errorMessage : string.

Definition confirmation (w : World) (input : Input) : option Confirmation :=
  if isBlank (in_name input) then None
  else
    match findSkill w (in_name input) with
    | None => None
    | Some existingSkill =>
        if match in_description input with
           | Some description =>
               Nat.eqb (String.length (JS.trim description)) 0
               || (1024 <? String.length description)
           | None => false
           end
        then None
        else if match in_content input with
                | Some content => Nat.eqb (String.length (JS.trim content)) 0
                | None => false
                end
        then None
        else
          let changes :=
            map (fun kv => (capitalize (fst kv), VStr (snd kv)))
              (definedEntries
                 [("description", in_description input);
                  ("content", contentChange (in_content input))]) in
          Some (mkConfirmation
                  ("Update Claude Code Skill " +:+ Q
                   +:+ toStr (obj_get (metadata existingSkill) "name") +:+ Q +:+ "?")
                  ([("Skill Name", obj_get (metadata existingSkill) "name");
                    ("Directory", VStr (pathText (path existingSkill)))]
                   ++ changes))
    end.

Definition tool (w : World) (input : Input) : World * string :=
  if isBlank (in_name input) then
    (w, crossMark +:+ " Skill name is required.")
  else
    match findSkill w (in_name input) with
    | None =>
        (w, crossMark +:+ " Skill " +:+ Q +:+ in_name input +:+ Q
            +:+ " not found. Use list-skills to see all available skills.")
    | Some existingSkill =>
        match
          match in_description input with
          | Some description =>
              if Nat.eqb (String.length (JS.trim description)) 0 then
                Some (crossMark +:+ " Description cannot be empty.")
              else if 1024 <? String.length description then
                Some (crossMark
                      +:+ " Description too long. Maximum 1024 characters allowed (currently "
                      +:+ natToString (String.length description) +:+ " characters).")
              else None
          | None => None
          end
        with
        | Some refusal => (w, refusal)
        | None =>
            if match in_content input with
               | Some content => Nat.eqb (String.length (JS.trim content)) 0
               | None => false
               end
            then (w, crossMark +:+ " Content cannot be empty.")
            else
              match updateSkill w (in_name input)
                      (mkUpdates (passed (in_description input)) (passed (in_content input))
                         Absent Absent) with
              | None => (w, crossMark +:+ " Failed to update skill: " +:+ errorMessage)
              | Some (w', None) =>
                  (w', crossMark +:+ " Failed to update skill " +:+ Q +:+ in_name input +:+ Q)
              | Some (w', Some updatedSkill) =>
                  let changes :=
                    JS.join NL
                      (map (fun kv => "  - " +:+ fst kv +:+ ": " +:+ snd kv)
                         (definedEntries
                            [("description", in_description input);
                             ("content", contentChange (in_content input))])) in
                  (w', checkMark +:+ " Successfully updated Claude Code Skill " +:+ Q
                       +:+ toStr (obj_get (metadata updatedSkill) "name") +:+ Q
                       +:+ NL +:+ NL +:+ "Changes:" +:+ NL +:+ changes +:+ NL +:+ NL
                       +:+ "Description: "
                       +:+ toStr (obj_get (metadata updatedSkill) "description")
                       +:+ NL +:+ NL
                       +:+ "The skill will use the updated content next time Claude invokes it.")
              end
        end
    end.

End Tool.
End EditTool.


(** ** Notions used in the statements *)

(** [pat] stands in [s] at index [i]. *)
Definition occursAt (pat s : string) (i : nat) : Prop :=
  String.substring i (String.length pat) s = pat.

(** Following the words of the specification: two code units that differ
    at most by their case, by the table of the code units alone (a capital
    letter of the basic Latin alphabet has a code from 65 to 90, and its
    small letter stands 32 above it), and two strings equal up to the case
    of their letters. *)
Definition isCapital (c : ascii) : bool :=
  let n := nat_of_ascii c in (65 <=? n) && (n <=? 90).

Definition sameLetter (c d : ascii) : bool :=
  Ascii.eqb c d
  || (isCapital c && (nat_of_ascii d =? nat_of_ascii c + 32))
  || (isCapital d && (nat_of_ascii c =? nat_of_ascii d + 32)).

Fixpoint equalsIgnoringCase (a b : string) : bool :=
  match a, b with
  | EmptyString, EmptyString => true
  | String c a', String d b' => sameLetter c d && equalsIgnoringCase a' b'
  | _, _ => false
  end.

(** The keys that the writers of the metadata document know. *)
Definition wellKnownKeys : list string := ["name"; "description"; "allowedTools"; "model"].

(** The field [k] of the merged metadata, for an update that gives [u]
    for it (nothing is said of a property that is there and undefined). *)
Definition mergedAs {A : Type} (f : A -> value) (u : optional A) (current merged : value)
  : Prop :=
  match u with
  | Absent => merged = current
  | Given a => merged = f a
  | Undefined => True
  end.

(** The lines that [createSkill] writes between the delimiters. *)
Definition headerLines (skillName description : string)
    (allowedTools : option (list string)) (model : option string) : string :=
  "name: " +:+ skillName +:+ String JS.LF "description: " +:+ description
  +:+ match allowedTools with
      | Some tools =>
          if negb (Nat.eqb (length tools) 0)
          then String JS.LF "allowed-tools: " +:+ JS.JSON_stringify tools
          else EmptyString
      | None => EmptyString
      end
  +:+ match model with
      | Some m => if nonEmpty m then String JS.LF "model: " +:+ m else EmptyString
      | None => EmptyString
      end.

(** The mapping that the header lines spell. *)
Definition writtenFields (skillName description : string)
    (allowedTools : option (list string)) (model : option string) : obj :=
  [("name", VStr skillName); ("description", VStr description)]
  ++ match allowedTools with
     | Some tools =>
         if negb (Nat.eqb (length tools) 0) then [("allowed-tools", VArr tools)] else []
     | None => []
     end
  ++ match model with
     | Some m => if nonEmpty m then [("model", VStr m)] else []
     | None => []
     end.

(** A name that is one component of a path: not empty, not a dot or two,
    and without a slash. *)
Definition isComponent (x : string) : bool :=
  nonEmpty x && negb (String.eqb x ".") && negb (String.eqb x "..")
  && Reference.allChars (fun c => negb (Ascii.eqb c "/")) x.

(** A description that the edit tools take: none, or one that is not blank
    and has at most 1024 code units; and a content that they take: none,
    or one that is not blank. *)
Definition descriptionTaken (description : option string) : bool :=
  match description with
  | Some d => negb (Nat.eqb (String.length (JS.trim d)) 0) && (String.length d <=? 1024)
  | None => true
  end.

Definition contentTaken (content : option string) : bool :=
  match content with
  | Some c => negb (Nat.eqb (String.length (JS.trim c)) 0)
  | None => true
  end.

(** What a template literal writes for a field that may be undefined. *)
Definition shown (field : option string) : string :=
  match field with
  | Some s => s
  | None => "undefined"
  end.

(** What holds besides of a record of the listing: it stands for a
    directory entry of a configured root, by its name and its paths, and
    its supporting files are, in the order of the directory, the names
    other than the metadata document that are regular files. *)
Definition describesDirectory (root : node) (folders : list Path) (s : ClaudeSkill) : Prop :=
  exists folder entries es allFiles,
    In folder folders
    /\ readdirSync root folder = Some entries
    /\ In (name s, Dir es) entries
    /\ path s = path_join folder (name s)
    /\ skillMdPath s = path_join (path s) "SKILL.md"
    /\ readdirSync root (path s) = Some allFiles
    /\ supportingFiles s
       = List.filter
           (fun f => negb (String.eqb f "SKILL.md")
                     && match statIsFile root (path_join (path s) f) with
                        | Some regular => regular
                        | None => false
                        end)
           (map fst allFiles).

Section Notions.
Context `{Host}.

(** What [parseSkillMarkdown] does with the two texts it cuts out. *)
Definition parseParts (frontmatterText markdownContent : string) : option ParsedSkill :=
  match YAML_parse frontmatterText with
  | None => None
  | Some metadata =>
      match camelCaseMetadata metadata with
      | None => None
      | Some camel => Some (mkParsed camel markdownContent)
      end
  end.

(** What holds of a record of the listing: it stands for a directory of a
    configured root, and carries what [parseSkillMarkdown] reads in the
    metadata document of that directory, which declares a name and a
    description. *)
Definition listedIn (root : node) (folders : list Path) (s : ClaudeSkill) : Prop :=
  exists (document : string) (folder : Path),
    In folder folders
    /\ path s = path_join folder (name s)
    /\ skillMdPath s = path_join (path s) "SKILL.md"
    /\ readFileSync root (skillMdPath s) = Some document
    /\ parseSkillMarkdown document = Some (mkParsed (YMap (metadata s)) (content s))
    /\ truthy (obj_get (metadata s) "name") = true
    /\ truthy (obj_get (metadata s) "description") = true.

(** The root that [createSkill] writes under. *)
Definition targetFolder (w : World) (folderPath : option Path) : Path :=
  match folderPath with Some p => p | None => getSkillsFolderPath w end.

(** The listing of the state does not end in the catch. *)
Definition listingCompletes (w : World) : Prop :=
  forEach (visitFolder (fs w)) (getSkillsFolderPaths w) [] <> None.

End Notions.

(** ** Concrete states *)

Module Examples.

(** A skill directory that holds only its metadata document. *)
Definition skillDir (dirName document : string) : string * node :=
  (dirName, Dir [("SKILL.md", File document)]).

(** The document that [createSkill] writes for a name, a description and
    a body. *)
Definition document (skillName description body : string) : string :=
  createFrontmatter skillName description None None +:+ body.

(** A state whose only root is the default one under the home directory,
    with the given skill directories, stored routing model and stored
    enabled names. *)
Definition homeWorld (storage : gmap string string) (skills : list (string * node)) : World :=
  mkWorld storage
    (Dir [("home", Dir [(".claude", Dir [("skills", Dir skills)])])])
    (Some "/home") None.

(** A metadata block with nothing in it. *)
Definition emptyBlock : string := "---" +:+ NL +:+ "---" +:+ NL.

(** A metadata block without a description. *)
Definition noDescription : string :=
  "---" +:+ NL +:+ "name: b" +:+ NL +:+ "---" +:+ NL +:+ NL +:+ "text".

Definition validAndEmptyBlock : World :=
  homeWorld ∅ [skillDir "a" (document "a" "desc" "body"); skillDir "b" emptyBlock].

Definition validAndNoDescription : World :=
  homeWorld ∅ [skillDir "a" (document "a" "desc" "body"); skillDir "b" noDescription].

(** The directory a declares the name b and is listed before the
    directory b. *)
Definition declaredNameFirst : World :=
  homeWorld ∅ [skillDir "a" (document "b" "first" "one");
               skillDir "b" (document "bee" "second" "two")].

(** A metadata value that holds three hyphens. *)
Definition hyphensInValue : string :=
  "---" +:+ NL +:+ "name: a---b" +:+ NL +:+ "---" +:+ NL +:+ "body".

(** A document with a key besides the well-known ones. *)
Definition licensed : string :=
  "---" +:+ NL +:+ "name: notes" +:+ NL +:+ "description: d" +:+ NL +:+ "license: MIT"
  +:+ NL +:+ "---" +:+ NL +:+ NL +:+ "body".

(** A skill whose document holds that key. *)
Definition withLicense : World := homeWorld ∅ [skillDir "notes" licensed].

Definition newDescription : SkillUpdates :=
  mkUpdates (Given "new") Absent Absent Absent.

Definition notesDocument : Path := ["home"; ".claude"; "skills"; "notes"; "SKILL.md"].

(** A body with a space before it. *)
Definition spaced : string := document "a" "d" " x".

(** A state with a routing model and one enabled skill. *)
Definition routed : World :=
  homeWorld
    (<[ROUTING_MODEL_KEY := "Gemini_2_5_Flash_Lite"]>
       (<[ENABLED_SKILLS_KEY := JS.JSON_stringify ["summarizer"]]> ∅))
    [skillDir "summarizer"
       (document "summarizer" "Summarizes text" "Shorten the text.")].

Definition summarizer : ClaudeSkill :=
  mkSkill "summarizer" ["home"; ".claude"; "skills"; "summarizer"]
    [("name", VStr "summarizer"); ("description", VStr "Summarizes text")]
    "Shorten the text." []
    ["home"; ".claude"; "skills"; "summarizer"; "SKILL.md"].

(** A state with a routing model and one enabled skill, whose directory
    and declared name are the word none. *)
Definition routedNone : World :=
  homeWorld
    (<[ROUTING_MODEL_KEY := "Gemini_2_5_Flash_Lite"]>
       (<[ENABLED_SKILLS_KEY := JS.JSON_stringify ["none"]]> ∅))
    [skillDir "none" (document "none" "Does nothing" "Stay idle.")].

Definition idle : ClaudeSkill :=
  mkSkill "none" ["home"; ".claude"; "skills"; "none"]
    [("name", VStr "none"); ("description", VStr "Does nothing")]
    "Stay idle." []
    ["home"; ".claude"; "skills"; "none"; "SKILL.md"].

(** An enabled list that names a twice. *)
Definition twiceEnabled : World :=
  homeWorld (<[ENABLED_SKILLS_KEY := JS.JSON_stringify ["a"; "b"; "a"]]> ∅) [].

(** Two configured roots; the first one holds a skill x. *)
Definition twoRoots : World :=
  mkWorld
    (<[Reference.host.(SKILLS_FOLDER_KEY) :=
         "[{" +:+ Q +:+ "path" +:+ Q +:+ ":" +:+ Q +:+ "/r1" +:+ Q +:+ "},{"
         +:+ Q +:+ "path" +:+ Q +:+ ":" +:+ Q +:+ "/r2" +:+ Q +:+ "}]"]> ∅)
    (Dir [("r1", Dir [skillDir "x" (document "x" "old" "kept")]);
          ("r2", Dir [])])
    None None.

Definition notes : ClaudeSkill :=
  mkSkill "notes" ["home"; ".claude"; "skills"; "notes"]
    [("name", VStr "notes"); ("description", VStr "d"); ("license", VStr "MIT")]
    "body" [] notesDocument.

(** A state whose roots are the paths given, stored as the module stores
    them, over the tree given. *)
Definition rootsWorld (roots : list string) (tree : list (string * node)) : World :=
  mkWorld
    (<[Reference.host.(SKILLS_FOLDER_KEY) :=
         Roots.JSON_stringify (map (fun p => Roots.mkStoredFolder p None) roots)]> ∅)
    (Dir tree) None None.

(** Two roots with a skill each, and a regular file. *)
Definition twoSkills : list (string * node) :=
  [("r1", Dir [skillDir "x" (document "x" "first" "one")]);
   ("r2", Dir [skillDir "y" (document "y" "second" "two")]);
   ("f", File "not a directory")].

(** A skill directory with a supporting file and a sub-directory, beside a
    file that belongs to no skill. *)
Definition withSupport : World :=
  mkWorld ∅
    (Dir [("home",
           Dir [(".claude",
                 Dir [("skills",
                       Dir [("notes",
                             Dir [("SKILL.md", File (document "notes" "d" "body"));
                                  ("ref.txt", File "reference");
                                  ("assets", Dir [])])])])]);
          ("etc", Dir [("passwd", File "secret")])])
    (Some "/home") None.

Definition notesWithSupport : ClaudeSkill :=
  mkSkill "notes" ["home"; ".claude"; "skills"; "notes"]
    [("name", VStr "notes"); ("description", VStr "d")]
    "body" ["ref.txt"] ["home"; ".claude"; "skills"; "notes"; "SKILL.md"].

(** A document with an allowed-tools list and a model. *)
Definition equipped : string :=
  createFrontmatter "notes" "d" (Some ["Read"]) (Some "fast") +:+ "body".

Definition withTools : World := homeWorld ∅ [skillDir "notes" equipped].

Definition notesWithTools : ClaudeSkill :=
  mkSkill "notes" ["home"; ".claude"; "skills"; "notes"]
    [("name", VStr "notes"); ("description", VStr "d"); ("allowed-tools", VArr ["Read"]);
     ("model", VStr "fast"); ("allowedTools", VArr ["Read"])]
    "body" [] notesDocument.

(** A document whose allowed tools are an array of numbers, and a host
    whose YAML parser reads its metadata block (the reference parser reads
    arrays of strings only). *)
Definition toolsOfNumbers : string :=
  "---" +:+ NL +:+ "name: notes" +:+ NL +:+ "description: d" +:+ NL
  +:+ "allowed-tools: [1, 2]" +:+ NL +:+ "---" +:+ NL +:+ NL +:+ "body".

Definition numbersHost : Host := {|
  YAML_parse := fun text =>
    if String.eqb text
         ("name: notes" +:+ NL +:+ "description: d" +:+ NL +:+ "allowed-tools: [1, 2]")
    then Some (YMap [("name", VStr "notes"); ("description", VStr "d");
                     ("allowed-tools", VOther true "1,2" true "[1,2]")])
    else Reference.parseYaml text;
  JSON_parse_names := Reference.parseNames;
  JSON_parse_folders := Reference.parseFolders;
  AI_Model := fun key => Some key;
  SKILLS_FOLDER_KEY := "skills_folder"
|}.

Definition withNumbers : World := homeWorld ∅ [skillDir "notes" toolsOfNumbers].

End Examples.

(** * Properties *)

(** ** Strings *)

(** The 256 cases of a code unit. *)
Ltac each_ascii c := destruct c as [[] [] [] [] [] [] [] []].

Lemma index_ge (pat s : string) :
  forall n m, String.index n pat s = Some m -> n <= m.
Proof.
  induction s as [|c s IH]; intros n m; destruct n as [|n]; simpl.
  - destruct pat; intros E; inversion E; lia.
  - discriminate.
  - intros _; lia.
  - destruct (String.index n pat s) as [k|] eqn:E; intros E'; inversion E'; subst.
    apply IH in E. lia.
Qed.

Lemma index_skip3 (pat rest : string) (a b c : ascii) :
  String.index 3 pat (String a (String b (String c rest))) =
  match String.index 0 pat rest with Some i => Some (3 + i) | None => None end.
Proof.
  simpl. destruct (String.index 0 pat rest); reflexivity.
Qed.

Lemma substring_all (s : string) : String.substring 0 (String.length s) s = s.
Proof. induction s; simpl; congruence. Qed.

Lemma length_append (a b : string) :
  String.length (a +:+ b) = String.length a + String.length b.
Proof. induction a; simpl; congruence. Qed.

Lemma append_assoc (a b c : string) : (a +:+ b) +:+ c = a +:+ (b +:+ c).
Proof. induction a; simpl; congruence. Qed.

Lemma append_nil_r (a : string) : a +:+ "" = a.
Proof. induction a; simpl; congruence. Qed.

Lemma substring_drop_append (a b : string) :
  String.substring (String.length a) (String.length b) (a +:+ b) = b.
Proof. induction a; simpl; auto using substring_all. Qed.

Lemma substringFrom_append (a b : string) :
  JS.substringFrom (a +:+ b) (String.length a) = b.
Proof.
  unfold JS.substringFrom. rewrite length_append.
  replace (String.length a + String.length b - String.length a) with (String.length b) by lia.
  apply substring_drop_append.
Qed.

Lemma substring_take_append (a b : string) :
  String.substring 0 (String.length a) (a +:+ b) = a.
Proof. induction a; simpl; [destruct b; reflexivity | congruence]. Qed.

Lemma prefix_append (p r : string) : String.prefix p (p +:+ r) = true.
Proof.
  induction p as [|c p IH]; simpl; [destruct r; reflexivity|].
  destruct (ascii_dec c c); congruence.
Qed.

Lemma trimStart_space (c : ascii) (s : string) :
  JS.isWhiteSpace c = true -> JS.trimStart (String c s) = JS.trimStart s.
Proof. intros E. simpl. now rewrite E. Qed.

Lemma trim_space (c : ascii) (s : string) :
  JS.isWhiteSpace c = true -> JS.trim (String c s) = JS.trim s.
Proof. intros E. unfold JS.trim. now rewrite trimStart_space. Qed.

(** ** The metadata codec: where the block starts and ends *)

Section CodecProperties.
Context `{Host}.

Lemma parse_after_opening (rest : string) :
  parseSkillMarkdown ("---" +:+ rest) =
  match String.index 0 "---" rest with
  | None => None
  | Some i =>
      parseParts (JS.trim (String.substring 0 i rest))
                 (JS.trim (JS.substringFrom rest (i + 3)))
  end.
Proof.
  unfold parseSkillMarkdown, JS.indexOf, JS.startsWith, parseParts.
  rewrite prefix_append. cbn [negb].
  change ("---" +:+ rest) with (String "-" (String "-" (String "-" rest))).
  rewrite index_skip3.
  destruct (String.index 0 "---" rest) as [i|]; [|reflexivity].
  assert (E1 : JS.substring (String "-" (String "-" (String "-" rest))) 3 (3 + i)
               = String.substring 0 i rest).
  { unfold JS.substring.
    replace (Nat.min 3 (3 + i)) with 3 by lia.
    replace (Nat.max 3 (3 + i) - 3) with i by lia. reflexivity. }
  assert (E2 : JS.substringFrom (String "-" (String "-" (String "-" rest))) (3 + i + 3)
               = JS.substringFrom rest (i + 3)).
  { unfold JS.substringFrom. cbn [String.length].
    replace (3 + i + 3) with (S (S (S (i + 3)))) by lia.
    replace (S (S (S (String.length rest))) - S (S (S (i + 3))))
      with (String.length rest - (i + 3)) by lia.
    reflexivity. }
  rewrite E1, E2. reflexivity.
Qed.

Lemma index0_prefix (p s : string) :
  String.prefix p s = true -> String.index 0 p s = Some 0.
Proof.
  destruct s as [|c s]; simpl.
  - destruct p; [reflexivity|discriminate].
  - intros ->. reflexivity.
Qed.

(** C10.  The delimiters need not stand on lines of their own.  A document
    whose first three code units are hyphens passes the opening test
    whatever follows them; the block then ends at the first place, at or
    after index 3, where three hyphens stand, and the parser answers null
    only when there is no such place or the YAML of the block is refused.
    So six hyphens in a row open and close an empty block, and three
    hyphens inside a value end the block there. *)
Theorem delimiters_need_no_line_of_their_own :
  (forall rest,
      let content := "---" +:+ rest in
      JS.startsWith content "---" = true
      /\ parseSkillMarkdown content =
         match JS.indexOf content "---" 3 with
         | None => None
         | Some e =>
             parseParts (JS.trim (JS.substring content 3 e))
                        (JS.trim (JS.substringFrom content (e + 3)))
         end
      /\ match JS.indexOf content "---" 3 with
         | Some e =>
             3 <= e /\ occursAt "---" content e
             /\ forall j, 3 <= j -> j < e -> ~ occursAt "---" content j
         | None => forall j, 3 <= j -> ~ occursAt "---" content j
         end)
  /\ (forall tail,
         parseSkillMarkdown ("------" +:+ tail) = parseParts "" (JS.trim tail))
  /\ parseSkillMarkdown Examples.hyphensInValue
     = parseParts "name: a" ("b" +:+ NL +:+ "---" +:+ NL +:+ "body").
Proof.
  split; [|split].
  - intros rest content. split; [|split].
    + apply prefix_append.
    + unfold parseSkillMarkdown, JS.startsWith. fold content.
      unfold content at 1. rewrite prefix_append. cbn [negb].
      destruct (JS.indexOf content "---" 3); reflexivity.
    + unfold JS.indexOf. destruct (String.index 3 "---" content) as [e|] eqn:E.
      * split; [eapply index_ge; eauto|]. split.
        -- unfold occursAt. eapply String.index_correct1; eauto.
        -- intros j Hj Hlt. unfold occursAt.
           eapply String.index_correct2; eauto.
      * intros j Hj. unfold occursAt.
        eapply String.index_correct3; eauto; discriminate.
  - intros tail.
    change ("------" +:+ tail) with ("---" +:+ ("---" +:+ tail)).
    rewrite parse_after_opening.
    rewrite (index0_prefix "---" ("---" +:+ tail)) by apply prefix_append.
    change (String.substring 0 0 ("---" +:+ tail)) with "".
    change (0 + 3) with (String.length "---").
    rewrite substringFrom_append. reflexivity.
  - unfold Examples.hyphensInValue.
    rewrite parse_after_opening.
    match goal with
    | |- context [String.index 0 "---" ?r] =>
        replace (String.index 0 "---" r) with (Some 8) by (vm_compute; reflexivity)
    end.
    f_equal; vm_compute; reflexivity.
Qed.

(** A document that does not start with three hyphens, or that holds no
    further three hyphens at or after index 3, parses to null. *)
Theorem missing_delimiter_parses_to_null (content : string) :
  JS.startsWith content "---" = false \/ JS.indexOf content "---" 3 = None ->
  parseSkillMarkdown content = None.
Proof.
  unfold parseSkillMarkdown. intros [Hopen | Hclose].
  - now rewrite Hopen.
  - rewrite Hclose. now destruct (negb (JS.startsWith content "---")).
Qed.

End CodecProperties.


(** ** The reference host reads back what [JSON.stringify] writes *)

Lemma stringBody_escape_one (c : ascii) (tail : string) :
  Reference.stringBody (JS.jsonEscape c +:+ tail)
  = Reference.consResult c (Reference.stringBody tail).
Proof. each_ascii c; reflexivity. Qed.

Lemma stringBody_escaped (s rest : string) :
  Reference.stringBody (JS.jsonEscapeAll s +:+ String JS.dquote rest) = Some (s, rest).
Proof.
  induction s as [|c s IH].
  - reflexivity.
  - cbn [JS.jsonEscapeAll]. rewrite append_assoc, stringBody_escape_one, IH.
    reflexivity.
Qed.

Lemma jsonQuote_append (s rest : string) :
  JS.jsonQuote s +:+ rest
  = String JS.dquote (JS.jsonEscapeAll s +:+ String JS.dquote rest).
Proof. unfold JS.jsonQuote. simpl. now rewrite append_assoc. Qed.

Lemma join_cons2 (sep x y : string) (l : list string) :
  JS.join sep (x :: y :: l) = x +:+ sep +:+ JS.join sep (y :: l).
Proof. reflexivity. Qed.

Lemma stringElements_written (l : list string) :
  forall (x : string) (fuel : nat),
    length l < fuel ->
    Reference.stringElements fuel (JS.join "," (map JS.jsonQuote (x :: l)) +:+ "]")
    = Some (x :: l).
Proof.
  induction l as [|y l IH]; intros x fuel Hfuel;
    (destruct fuel as [|fuel]; [simpl in Hfuel; lia|]).
  - cbn [map JS.join String.concat]. rewrite jsonQuote_append.
    cbn [Reference.stringElements Reference.skipSpaces].
    change (Reference.isJsonSpace JS.dquote) with false. cbn iota.
    change (Ascii.eqb JS.dquote JS.dquote) with true. cbn iota.
    rewrite stringBody_escaped. reflexivity.
  - cbn [map]. rewrite join_cons2, !append_assoc, jsonQuote_append.
    cbn [Reference.stringElements Reference.skipSpaces].
    change (Reference.isJsonSpace JS.dquote) with false. cbn iota.
    change (Ascii.eqb JS.dquote JS.dquote) with true. cbn iota.
    rewrite stringBody_escaped.
    change ("," +:+ JS.join "," (JS.jsonQuote y :: map JS.jsonQuote l) +:+ "]")
      with (String "," (JS.join "," (map JS.jsonQuote (y :: l)) +:+ "]")).
    cbn [Reference.skipSpaces].
    change (Reference.isJsonSpace ",") with false. cbn iota.
    change (Ascii.eqb "," ",") with true. cbn iota.
    rewrite IH by (simpl in Hfuel; lia). reflexivity.
Qed.

Lemma join_quoted_length (l : list string) (x : string) :
  length l < String.length (JS.join "," (map JS.jsonQuote (x :: l)) +:+ "]").
Proof.
  revert x. induction l as [|y l IH]; intros x.
  - cbn [map JS.join String.concat]. rewrite jsonQuote_append. simpl. lia.
  - cbn [map]. rewrite join_cons2, !append_assoc, jsonQuote_append.
    specialize (IH y). cbn [map] in IH.
    cbn [String.length length]. rewrite length_append.
    cbn [String.length]. rewrite length_append.
    change (String.length ",") with 1. lia.
Qed.

(** The reference parser is a left inverse of [JSON.stringify] on arrays
    of strings. *)
Lemma parseNames_stringify (l : list string) :
  Reference.parseNames (JS.JSON_stringify l) = Some l.
Proof.
  unfold JS.JSON_stringify. destruct l as [|x l].
  - reflexivity.
  - change ("[" +:+ JS.join "," (map JS.jsonQuote (x :: l)) +:+ "]")
      with (String "[" (JS.join "," (map JS.jsonQuote (x :: l)) +:+ "]")).
    unfold Reference.parseNames.
    cbn [Reference.skipSpaces].
    change (Reference.isJsonSpace "[") with false. cbn iota.
    change (Ascii.eqb "[" "[") with true. cbn iota.
    pose proof (join_quoted_length l x) as Hlen.
    pose proof (stringElements_written l x _ Hlen) as Hparse.
    revert Hlen Hparse.
    cbn [map]. 
    destruct l as [|y l].
    + cbn [map JS.join String.concat]. rewrite jsonQuote_append.
      intros Hlen Hparse. cbn [Reference.skipSpaces].
      change (Reference.isJsonSpace JS.dquote) with false. cbn iota.
      change (Ascii.eqb JS.dquote "]") with false. cbn iota. exact Hparse.
    + cbn [map]. rewrite join_cons2, !append_assoc, jsonQuote_append.
      intros Hlen Hparse. cbn [Reference.skipSpaces].
      change (Reference.isJsonSpace JS.dquote) with false. cbn iota.
      change (Ascii.eqb JS.dquote "]") with false. cbn iota. exact Hparse.
Qed.

(** ** Lookup and the enablement store *)

Lemma find_first {A : Type} (f : A -> bool) (l : list A) :
  match List.find f l with
  | Some x =>
      exists before after,
        l = before ++ x :: after /\ f x = true
        /\ forall y, In y before -> f y = false
  | None => forall y, In y l -> f y = false
  end.
Proof.
  induction l as [|a l IH]; simpl.
  - intros y [].
  - destruct (f a) eqn:Fa.
    + exists [], l. repeat split; auto. intros y [].
    + destruct (List.find f l) as [x|].
      * destruct IH as (before & after & -> & Fx & Hb).
        exists (a :: before), after. repeat split; auto.
        intros y [<- | Hy]; auto.
      * intros y [<- | Hy]; auto.
Qed.

Lemma matchesSkill_true (identifier : string) (s : ClaudeSkill) :
  matchesSkill identifier s = true <->
  name s = identifier \/ obj_get (metadata s) "name" = VStr identifier.
Proof.
  unfold matchesSkill. rewrite orb_true_iff, String.eqb_eq.
  destruct (obj_get (metadata s) "name") as [| n | |]; simpl;
    rewrite ?String.eqb_eq; intuition (try discriminate; congruence).
Qed.

Lemma matchesSkill_false (identifier : string) (s : ClaudeSkill) :
  matchesSkill identifier s = false <->
  name s <> identifier /\ obj_get (metadata s) "name" <> VStr identifier.
Proof.
  rewrite <- not_true_iff_false, matchesSkill_true. tauto.
Qed.

Lemma includes_filter_out (l : list string) (s : string) :
  includes (List.filter (fun n => negb (String.eqb n s)) l) s = false.
Proof.
  unfold includes. induction l as [|a l IH]; simpl; [reflexivity|].
  destruct (String.eqb a s) eqn:E; simpl; [exact IH|].
  rewrite String.eqb_sym, E. exact IH.
Qed.

Lemma includes_filter_other (l : list string) (s other : string) :
  other <> s ->
  includes (List.filter (fun n => negb (String.eqb n s)) l) other = includes l other.
Proof.
  intros Hne. unfold includes. induction l as [|a l IH]; simpl; [reflexivity|].
  destruct (String.eqb a s) eqn:E; simpl; rewrite IH; [|reflexivity].
  apply String.eqb_eq in E. subst a.
  apply String.eqb_neq in Hne. now rewrite Hne.
Qed.

Section StoreProperties.
Context `{Host}.

(** C3, as the code has it.  [findSkill] returns the first skill of the
    listing (roots in their order, then directories in theirs) whose
    directory name or declared name equals the identifier, whichever of the
    two it is, and null when no listed skill has either. *)
Theorem findSkill_returns_first_match (w : World) (identifier : string) :
  match findSkill w identifier with
  | Some s =>
      exists before after,
        getAllSkills w = before ++ s :: after
        /\ (name s = identifier \/ obj_get (metadata s) "name" = VStr identifier)
        /\ forall s', In s' before ->
                      name s' <> identifier
                      /\ obj_get (metadata s') "name" <> VStr identifier
  | None =>
      forall s', In s' (getAllSkills w) ->
                 name s' <> identifier
                 /\ obj_get (metadata s') "name" <> VStr identifier
  end.
Proof.
  unfold findSkill.
  pose proof (find_first (matchesSkill identifier) (getAllSkills w)) as F.
  destruct (List.find (matchesSkill identifier) (getAllSkills w)) as [s|].
  - destruct F as (before & after & E & M & B).
    exists before, after. split; [exact E|]. split.
    + now apply matchesSkill_true.
    + intros s' Hs'. apply matchesSkill_false. auto.
  - intros s' Hs'. apply matchesSkill_false. auto.
Qed.

Lemma getEnabledSkills_stored (w : World) (l : list string) :
  JSON_parse_names (JS.JSON_stringify l) = Some l ->
  getEnabledSkills
    (setStorage w (<[ENABLED_SKILLS_KEY := JS.JSON_stringify l]> (localStorage w)))
  = l.
Proof.
  intros R. unfold getEnabledSkills, setStorage. cbn [localStorage].
  rewrite lookup_insert_eq. change (nonEmpty (JS.JSON_stringify l)) with true.
  cbn iota. now rewrite R.
Qed.

(** C9.  [disableSkill] stores the enabled list without any occurrence of
    the name, the other entries as they were and in their order, so the
    name is not enabled afterwards (and the other names are enabled or not
    as before); the files and the other stored keys are left alone.  The
    host is asked to read back the arrays of strings that [JSON.stringify]
    writes. *)
Theorem disableSkill_removes_every_occurrence (w : World) (skillName : string) :
  (forall l, JSON_parse_names (JS.JSON_stringify l) = Some l) ->
  let remaining :=
    List.filter (fun n => negb (String.eqb n skillName)) (getEnabledSkills w) in
  let w' := disableSkill w skillName in
  localStorage w' !! ENABLED_SKILLS_KEY = Some (JS.JSON_stringify remaining)
  /\ getEnabledSkills w' = remaining
  /\ isSkillEnabled w' skillName = false
  /\ (forall other, other <> skillName ->
                    isSkillEnabled w' other = isSkillEnabled w other)
  /\ fs w' = fs w
  /\ (forall key, key <> ENABLED_SKILLS_KEY ->
                  localStorage w' !! key = localStorage w !! key).
Proof.
  intros R remaining w'.
  assert (E : getEnabledSkills w' = remaining).
  { apply getEnabledSkills_stored, R. }
  split; [|split; [exact E|split; [|split; [|split]]]].
  - unfold w', disableSkill, setStorage. cbn [localStorage].
    now rewrite lookup_insert_eq.
  - unfold isSkillEnabled. rewrite E. apply includes_filter_out.
  - intros other Hne. unfold isSkillEnabled. rewrite E.
    now apply includes_filter_other.
  - reflexivity.
  - intros key Hne. unfold w', disableSkill, setStorage. cbn [localStorage].
    now rewrite lookup_insert_ne.
Qed.

Lemma includes_app_last (l : list string) (s : string) : includes (l ++ [s]) s = true.
Proof.
  unfold includes. rewrite existsb_app. simpl. rewrite String.eqb_refl.
  now rewrite orb_true_r.
Qed.

Lemma count_occ_absent (l : list string) (s : string) :
  includes l s = false -> count_occ string_dec l s = 0.
Proof.
  unfold includes. induction l as [|a l IH]; simpl; [reflexivity|].
  intros E. apply orb_false_elim in E. destruct E as [Ea El].
  destruct (string_dec a s) as [->|_]; [now rewrite String.eqb_refl in Ea|auto].
Qed.

(** Enabling a name that is enabled changes nothing, so enabling twice is
    enabling once; a name that was not enabled stands exactly once, at the
    end of the list, afterwards. *)
Theorem enableSkill_twice_is_once (w : World) (skillName : string) :
  (forall l, JSON_parse_names (JS.JSON_stringify l) = Some l) ->
  enableSkill (enableSkill w skillName) skillName = enableSkill w skillName
  /\ isSkillEnabled (enableSkill w skillName) skillName = true
  /\ (isSkillEnabled w skillName = false ->
      getEnabledSkills (enableSkill w skillName) = getEnabledSkills w ++ [skillName]
      /\ count_occ string_dec (getEnabledSkills (enableSkill w skillName)) skillName = 1).
Proof.
  intros R. unfold isSkillEnabled.
  destruct (includes (getEnabledSkills w) skillName) eqn:I.
  - assert (E : enableSkill w skillName = w) by (unfold enableSkill; now rewrite I).
    rewrite !E. rewrite I. repeat split; discriminate.
  - assert (G : getEnabledSkills (enableSkill w skillName)
                = getEnabledSkills w ++ [skillName]).
    { unfold enableSkill. rewrite I. cbn [negb]. apply getEnabledSkills_stored, R. }
    assert (I' : includes (getEnabledSkills (enableSkill w skillName)) skillName = true)
      by (rewrite G; apply includes_app_last).
    split; [|split; [exact I'|]].
    + unfold enableSkill at 1. now rewrite I'.
    + intros _. split; [exact G|]. rewrite G, count_occ_app.
      rewrite (count_occ_absent _ _ I). simpl.
      now destruct (string_dec skillName skillName).
Qed.

(** A stored root text that is not JSON is one root, the text as a path;
    with nothing stored the only root is the skills directory under the
    home directory. *)
Theorem legacy_path_is_one_root (w : World) (stored : string) :
  (localStorage w !! SKILLS_FOLDER_KEY = Some stored ->
   nonEmpty stored = true ->
   JSON_parse_folders stored = FoldersThrow ->
   getSkillsFolders w = [mkSkillsFolder (parsePath stored) None])
  /\ (localStorage w !! SKILLS_FOLDER_KEY = None ->
      getSkillsFolderPaths w
      = [path_join
           (path_join (parsePath (orElse (env_HOME w) (orElse (env_USERPROFILE w) "")))
              ".claude") "skills"]).
Proof.
  unfold getSkillsFolderPaths, getSkillsFolders. split.
  - intros -> -> ->. reflexivity.
  - intros ->. reflexivity.
Qed.

End StoreProperties.



(** ** The file system: reading after writing *)

Lemma lookupEntry_putEntry (c : string) (n : node) (es : list (string * node)) :
  lookupEntry c (putEntry c n es) = Some n.
Proof.
  induction es as [|[k m] es IH]; simpl.
  - now rewrite String.eqb_refl.
  - destruct (String.eqb k c) eqn:E; simpl; rewrite E; auto.
Qed.

Lemma lookupEntry_putEntry_other (c c' : string) (n : node) (es : list (string * node)) :
  c' <> c -> lookupEntry c' (putEntry c n es) = lookupEntry c' es.
Proof.
  intros Hne. induction es as [|[k m] es IH]; simpl.
  - destruct (String.eqb c c') eqn:E; [|reflexivity].
    apply String.eqb_eq in E. congruence.
  - destruct (String.eqb k c) eqn:E; simpl.
    + apply String.eqb_eq in E. subst k.
      destruct (String.eqb c c') eqn:E'; [|reflexivity].
      apply String.eqb_eq in E'. congruence.
    + now rewrite IH.
Qed.

(** Writing to a path that holds a regular file succeeds and leaves the
    new text there. *)
Lemma writeFileSync_existing (p : Path) (data : string) :
  forall (root : node) (old : string),
    p <> [] ->
    resolve p root = Some (File old) ->
    exists root',
      writeFileSync p data root = Some root'
      /\ resolve p root' = Some (File data).
Proof.
  induction p as [|c p IH]; intros root old Hp R; [congruence|].
  destruct root as [d|es]; [discriminate|].
  cbn [resolve] in R.
  destruct (lookupEntry c es) as [child|] eqn:L; [|discriminate].
  destruct p as [|c' p].
  - cbn [resolve] in R. injection R as ->.
    exists (Dir (putEntry c (File data) es)). split.
    + cbn [writeFileSync]. now rewrite L.
    + cbn [resolve]. now rewrite lookupEntry_putEntry.
  - destruct (IH child old ltac:(discriminate) R) as (child' & W & R').
    exists (Dir (putEntry c child' es)). split.
    + change (writeFileSync (c :: c' :: p) data (Dir es))
        with (match lookupEntry c es with
              | Some ch =>
                  match writeFileSync (c' :: p) data ch with
                  | Some ch' => Some (Dir (putEntry c ch' es))
                  | None => None
                  end
              | None => None
              end).
      now rewrite L, W.
    + cbn [resolve]. now rewrite lookupEntry_putEntry.
Qed.

Lemma path_join_component (p : Path) :
  path_join p "SKILL.md" = p ++ ["SKILL.md"].
Proof. reflexivity. Qed.

Lemma map_fst_putEntry (c : string) (n child : node) (es : list (string * node)) :
  lookupEntry c es = Some child -> map fst (putEntry c n es) = map fst es.
Proof.
  induction es as [|[k m] es IH]; simpl; [discriminate|].
  destruct (String.eqb k c) eqn:E; simpl; [reflexivity|].
  intros L. now rewrite IH.
Qed.

Lemma read_below_file (q : Path) (a b : string) :
  q <> [] -> readFileSync (File a) q = readFileSync (File b) q.
Proof. destruct q; [congruence|reflexivity]. Qed.

Lemma readdir_below_file (q : Path) (a b : string) :
  readdirSync (File a) q = readdirSync (File b) q.
Proof. destruct q; reflexivity. Qed.

Lemma readFileSync_cons (c : string) (q : Path) (es : list (string * node)) :
  readFileSync (Dir es) (c :: q)
  = match lookupEntry c es with Some child => readFileSync child q | None => None end.
Proof. unfold readFileSync. cbn [resolve]. now destruct (lookupEntry c es). Qed.

Lemma readdirSync_cons (c : string) (q : Path) (es : list (string * node)) :
  readdirSync (Dir es) (c :: q)
  = match lookupEntry c es with Some child => readdirSync child q | None => None end.
Proof. unfold readdirSync. cbn [resolve]. now destruct (lookupEntry c es). Qed.

(** Replacing the child [c] of a directory by one that reads the same but
    for the path [p] below it gives a directory that reads the same but for
    [c :: p]. *)
Lemma putEntry_frame (c : string) (p : Path) (child child' : node)
    (es : list (string * node)) :
  lookupEntry c es = Some child ->
  (forall q, q <> p -> readFileSync child' q = readFileSync child q) ->
  (forall q, option_map (map fst) (readdirSync child' q)
             = option_map (map fst) (readdirSync child q)) ->
  (forall q, q <> c :: p ->
             readFileSync (Dir (putEntry c child' es)) q = readFileSync (Dir es) q)
  /\ (forall q, option_map (map fst) (readdirSync (Dir (putEntry c child' es)) q)
                = option_map (map fst) (readdirSync (Dir es) q)).
Proof.
  intros L Hfile Hdir. split; intros q.
  - intros Hq. destruct q as [|c' q]; [reflexivity|].
    rewrite !readFileSync_cons.
    destruct (String.eqb_spec c' c) as [->|Hne].
    + rewrite lookupEntry_putEntry, L. apply Hfile. intros ->. now apply Hq.
    + now rewrite lookupEntry_putEntry_other.
  - destruct q as [|c' q].
    + unfold readdirSync. cbn [resolve option_map].
      now rewrite (map_fst_putEntry _ _ _ _ L).
    + rewrite !readdirSync_cons.
      destruct (String.eqb_spec c' c) as [->|Hne].
      * rewrite lookupEntry_putEntry, L. apply Hdir.
      * now rewrite lookupEntry_putEntry_other.
Qed.

(** Overwriting a regular file changes no other file, and no directory
    gains or loses a name. *)
Lemma writeFileSync_frame (p : Path) (data : string) :
  forall (root root' : node) (old : string),
    resolve p root = Some (File old) ->
    writeFileSync p data root = Some root' ->
    (forall q, q <> p -> readFileSync root' q = readFileSync root q)
    /\ (forall q, option_map (map fst) (readdirSync root' q)
                  = option_map (map fst) (readdirSync root q)).
Proof.
  induction p as [|c p IH]; intros root root' old R W.
  - destruct root; discriminate.
  - destruct root as [d|es]; [discriminate|].
    cbn [resolve] in R.
    destruct (lookupEntry c es) as [child|] eqn:L; [|discriminate].
    destruct p as [|c2 p].
    + cbn [resolve] in R. injection R as ->.
      cbn [writeFileSync] in W. rewrite L in W. injection W as <-.
      apply (putEntry_frame c [] (File old) (File data) es L).
      * intros q Hq. now apply read_below_file.
      * intros q. now rewrite (readdir_below_file q data old).
    + change (writeFileSync (c :: c2 :: p) data (Dir es))
        with (match lookupEntry c es with
              | Some ch =>
                  match writeFileSync (c2 :: p) data ch with
                  | Some ch' => Some (Dir (putEntry c ch' es))
                  | None => None
                  end
              | None => None
              end) in W.
      rewrite L in W.
      destruct (writeFileSync (c2 :: p) data child) as [child'|] eqn:W'; [|discriminate].
      injection W as <-.
      destruct (IH child child' old R W') as [Hfile Hdir].
      now apply (putEntry_frame c (c2 :: p) child child' es L).
Qed.

(** ** What the listing returns *)

Lemma forEach_preserves {A S : Type} (P : S -> Prop) (turn : S -> A -> option S)
    (l : list A) :
  (forall s a s', In a l -> P s -> turn s a = Some s' -> P s') ->
  forall s s', P s -> forEach turn l s = Some s' -> P s'.
Proof.
  induction l as [|a l IH]; intros Hturn s s' Hs E; simpl in E.
  - now injection E as <-.
  - destruct (turn s a) as [s1|] eqn:T; [|discriminate].
    apply (IH (fun s a s' Ha => Hturn s a s' (or_intror Ha)) s1 s'); auto.
    apply (Hturn s a s1); simpl; auto.
Qed.

Section ListingProperties.
Context `{Host}.

Lemma visitEntry_listed (root : node) (folders : list Path) (folder : Path)
    (skills skills' : list ClaudeSkill) (e : string * node) :
  In folder folders ->
  Forall (listedIn root folders) skills ->
  visitEntry root folder skills e = Some skills' ->
  Forall (listedIn root folders) skills'.
Proof.
  intros Hf Hs. unfold visitEntry.
  destruct (negb (isDirectory (snd e))); [intros E; now injection E as <-|].
  destruct (negb (existsSync root _));
    [destruct (existsSync root _); intros E; now injection E as <-|].
  destruct (readFileSync root _) as [document|] eqn:R; [|discriminate].
  destruct (parseSkillMarkdown document) as [[m c]|] eqn:Pd;
    [|intros E; now injection E as <-].
  cbn [parsed_metadata parsed_content].
  destruct m as [|o|str|]; try discriminate; try (intros E; now injection E as <-).
  destruct (negb (truthy (obj_get o "name")) || negb (truthy (obj_get o "description")))
    eqn:T; [intros E; now injection E as <-|].
  apply orb_false_elim in T. destruct T as [Tn Td].
  apply negb_false_iff in Tn, Td.
  destruct (readdirSync root _) as [allFiles|]; [|discriminate].
  destruct (supportingFilesOf root _ _) as [supporting|]; [|discriminate].
  intros E. injection E as <-.
  apply Forall_app. split; [exact Hs|].
  constructor; [|constructor].
  exists document, folder. cbn [name path skillMdPath metadata content].
  repeat split; auto.
Qed.

Lemma visitFolder_listed (root : node) (folders : list Path) (folder : Path)
    (skills skills' : list ClaudeSkill) :
  In folder folders ->
  Forall (listedIn root folders) skills ->
  visitFolder root skills folder = Some skills' ->
  Forall (listedIn root folders) skills'.
Proof.
  intros Hf Hs. unfold visitFolder.
  destruct (negb (existsSync root folder)); [intros E; now injection E as <-|].
  destruct (readdirSync root folder) as [es|]; [|discriminate].
  apply forEach_preserves; [|exact Hs].
  intros s a s' _ Ps. now apply visitEntry_listed.
Qed.

(** Every record of the listing is as [listedIn] says. *)
Lemma getAllSkills_listed (w : World) :
  Forall (listedIn (fs w) (getSkillsFolderPaths w)) (getAllSkills w).
Proof.
  unfold getAllSkills.
  destruct (forEach (visitFolder (fs w)) (getSkillsFolderPaths w) []) as [skills|] eqn:E;
    [|constructor].
  revert E. apply forEach_preserves; [|constructor].
  intros s folder s' Hin Ps. now apply visitFolder_listed.
Qed.

Lemma findSkill_listed (w : World) (identifier : string) (s : ClaudeSkill) :
  findSkill w identifier = Some s -> listedIn (fs w) (getSkillsFolderPaths w) s.
Proof.
  unfold findSkill. intros F. apply find_some in F. destruct F as [Hin _].
  exact (proj1 (List.Forall_forall _ _) (getAllSkills_listed w) s Hin).
Qed.

(** Every record of the listing comes from a document on disk whose
    metadata declares a name and a description that are not empty: a
    directory whose document lacks one of them is not listed. *)
Theorem listed_skills_declare_name_and_description (w : World) :
  Forall (fun s =>
            (exists document,
                readFileSync (fs w) (skillMdPath s) = Some document
                /\ parseSkillMarkdown document
                   = Some (mkParsed (YMap (metadata s)) (content s)))
            /\ truthy (obj_get (metadata s) "name") = true
            /\ truthy (obj_get (metadata s) "description") = true)
    (getAllSkills w).
Proof.
  eapply List.Forall_impl; [|apply getAllSkills_listed].
  intros s (document & folder & _ & _ & _ & R & P & Tn & Td). eauto.
Qed.

End ListingProperties.

(** ** The router *)

Lemma upper_is_N (c : ascii) : Ascii.eqb (JS.upperChar c) "N" = sameLetter c "N".
Proof. each_ascii c; reflexivity. Qed.

Lemma upper_is_O (c : ascii) : Ascii.eqb (JS.upperChar c) "O" = sameLetter c "O".
Proof. each_ascii c; reflexivity. Qed.

Lemma upper_is_E (c : ascii) : Ascii.eqb (JS.upperChar c) "E" = sameLetter c "E".
Proof. each_ascii c; reflexivity. Qed.

Lemma toUpperCase_NONE (t : string) :
  String.eqb (JS.toUpperCase t) "NONE" = equalsIgnoringCase t "NONE".
Proof.
  destruct t as [|c1 [|c2 [|c3 [|c4 [|c5 t]]]]]; simpl;
    rewrite ?upper_is_N, ?upper_is_O, ?upper_is_E;
    repeat match goal with
           | |- context [sameLetter ?c ?d] => destruct (sameLetter c d)
           end;
    reflexivity.
Qed.

Lemma sameLetter_N (c : ascii) : sameLetter c "N" = true <-> c = "N"%char \/ c = "n"%char.
Proof.
  replace (sameLetter c "N") with (Ascii.eqb c "N" || Ascii.eqb c "n")
    by (each_ascii c; reflexivity).
  now rewrite orb_true_iff, !Ascii.eqb_eq.
Qed.

Lemma sameLetter_O (c : ascii) : sameLetter c "O" = true <-> c = "O"%char \/ c = "o"%char.
Proof.
  replace (sameLetter c "O") with (Ascii.eqb c "O" || Ascii.eqb c "o")
    by (each_ascii c; reflexivity).
  now rewrite orb_true_iff, !Ascii.eqb_eq.
Qed.

Lemma sameLetter_E (c : ascii) : sameLetter c "E" = true <-> c = "E"%char \/ c = "e"%char.
Proof.
  replace (sameLetter c "E") with (Ascii.eqb c "E" || Ascii.eqb c "e")
    by (each_ascii c; reflexivity).
  now rewrite orb_true_iff, !Ascii.eqb_eq.
Qed.

(** The strings that equal NONE up to case, letter by letter. *)
Lemma equalsIgnoringCase_NONE (t : string) :
  equalsIgnoringCase t "NONE" = true
  <-> exists c1 c2 c3 c4 : ascii,
        t = String c1 (String c2 (String c3 (String c4 EmptyString)))
        /\ (c1 = "N"%char \/ c1 = "n"%char) /\ (c2 = "O"%char \/ c2 = "o"%char)
        /\ (c3 = "N"%char \/ c3 = "n"%char) /\ (c4 = "E"%char \/ c4 = "e"%char).
Proof.
  split.
  - destruct t as [|c1 [|c2 [|c3 [|c4 [|c5 t]]]]]; cbn [equalsIgnoringCase];
      rewrite ?andb_true_iff, ?andb_false_r; try (intuition discriminate).
    rewrite sameLetter_N, sameLetter_O, sameLetter_N, sameLetter_E.
    intros (H1 & H2 & H3 & H4 & _). exists c1, c2, c3, c4. auto.
  - intros (c1 & c2 & c3 & c4 & -> & H1 & H2 & H3 & H4).
    cbn [equalsIgnoringCase]. rewrite !andb_true_iff.
    rewrite (sameLetter_N c1), sameLetter_O, (sameLetter_N c3), sameLetter_E. auto.
Qed.

Lemma stripTrailingQuote_last (s : string) (q : ascii) :
  JS.isQuote q = true -> JS.stripTrailingQuote (s +:+ String q EmptyString) = s.
Proof.
  intros Hq. induction s as [|c s IH]; simpl.
  - now rewrite Hq.
  - rewrite IH. destruct s; reflexivity.
Qed.

Lemma numbered_length (line : nat -> ClaudeSkill -> string) (skills : list ClaudeSkill)
    (index : nat) :
  length (numbered line index skills) = length skills.
Proof.
  revert index. induction skills as [|s skills IH]; intros index; simpl; [reflexivity|].
  now rewrite IH.
Qed.

Lemma numbered_nth (line : nat -> ClaudeSkill -> string) (skills : list ClaudeSkill)
    (index i : nat) (s : ClaudeSkill) :
  nth_error skills i = Some s ->
  nth_error (numbered line index skills) i = Some (line (index + i + 1) s).
Proof.
  revert index i. induction skills as [|s0 skills IH]; intros index i E.
  - destruct i; discriminate E.
  - destruct i as [|i]; simpl in *.
    + injection E as ->. now rewrite Nat.add_0_r.
    + rewrite (IH (S index) i E). do 2 f_equal. lia.
Qed.

(** The no-match guidance holds the number of the skills it is given and
    one numbered line for each of them, in their order, with the declared
    name and the description. *)
Lemma formatNoMatchMessage_lists (skills : list ClaudeSkill) :
  exists lines,
    length lines = length skills
    /\ (forall i s,
           nth_error skills i = Some s ->
           nth_error lines i
           = Some (natToString (i + 1) +:+ ". **" +:+ toStr (obj_get (metadata s) "name")
                   +:+ "** - " +:+ toStr (obj_get (metadata s) "description")))
    /\ exists before after,
         formatNoMatchMessage skills
         = before +:+ "## Available Skills (" +:+ natToString (length skills) +:+ ")"
           +:+ NL +:+ NL
           +:+ "For your reference, here are the skills that are currently enabled:"
           +:+ NL +:+ NL +:+ JS.join NL lines +:+ NL +:+ NL +:+ "---" +:+ after.
Proof.
  exists (numbered (fun i skill =>
                      natToString i +:+ ". **" +:+ toStr (obj_get (metadata skill) "name")
                      +:+ "** - " +:+ toStr (obj_get (metadata skill) "description"))
            0 skills).
  split; [apply numbered_length|]. split.
  - intros i s E. rewrite (numbered_nth _ _ 0 i s E). reflexivity.
  - unfold formatNoMatchMessage.
    exists "# No Suitable Skill Found

The user's request doesn't clearly match any of your available AI Skills.

## WHAT YOU SHOULD DO

**Respond to the user directly using your general capabilities.** Don't try to force a skill match.

Help the user with their request to the best of your ability. If you need clarification about what they want, ask them.

---

".
    exists ("

## TIPS

- If the user mentions a specific skill name by name, let them know it's not available
- If you think a skill MIGHT be relevant but you're not sure, you can ask: " +:+ Q +:+ "Would you like me to use the [skill-name] skill for this?" +:+ Q +:+ "
- The user can enable more skills or create new ones through the " +:+ Q +:+ "Manage Skills" +:+ Q +:+ " command").
    cbv zeta.
    set (l := JS.join NL _). set (n := natToString _).
    unfold NL, Q.
    repeat (first [rewrite append_assoc | progress cbn [String.append]]).
    reflexivity.
Qed.

Section RouterProperties.
Context `{Host}.

(** When the tool calls the service, it is with the prompt of the enabled
    skills, and it answers what [respond] says of the name read. *)
Lemma tool_asks (w : World) (request prompt : string) (model : option string)
    (k : option string -> prog (outcome string)) :
  tool w request = Ask prompt model k ->
  prompt = routingPrompt (getEnabledSkillObjects w) request
  /\ forall answer,
      k answer = Ret (Returned
                        (respond (getEnabledSkillObjects w)
                           (match answer with Some r => readResponse r | None => None end))).
Proof.
  unfold tool. destruct (getRoutingModel w) as [routingModel|]; [|discriminate].
  destruct (Nat.eqb (length (getEnabledSkillObjects w)) 0); [discriminate|].
  simpl. intros E. injection E as <- <- <-. split; [reflexivity|].
  intros [r|]; reflexivity.
Qed.

(** No exception leaves the tool, whatever the service does. *)
Lemma tool_returns (w : World) (request : string)
    (oracle : string -> option string -> option string) :
  exists text, snd (run oracle (tool w request)) = Returned text.
Proof.
  destruct (tool w request) as [[text|]|prompt model k] eqn:E.
  - now exists text.
  - exfalso. revert E. unfold tool.
    destruct (getRoutingModel w); [|discriminate].
    destruct (Nat.eqb (length (getEnabledSkillObjects w)) 0); discriminate.
  - destruct (tool_asks _ _ _ _ _ E) as [_ Hk].
    cbn [run]. rewrite Hk. cbn [run snd]. eauto.
Qed.

(** C6.  With no routing model preference stored (or an empty one), the
    tool returns the setup guidance, word for word, for every request and
    whatever skills are enabled, and calls the classification service not
    once. *)
Theorem unconfigured_router_returns_setup_guidance (w : World) (request : string) :
  localStorage w !! ROUTING_MODEL_KEY = None
  \/ localStorage w !! ROUTING_MODEL_KEY = Some EmptyString ->
  tool w request = Ret (Returned setupRequiredMessage)
  /\ forall oracle, run oracle (tool w request) = ([], Returned setupRequiredMessage).
Proof.
  intros Hcfg.
  assert (E : getRoutingModel w = None).
  { unfold getRoutingModel. destruct Hcfg as [-> | ->]; reflexivity. }
  unfold tool. rewrite E. split; [reflexivity|]. intros oracle. reflexivity.
Qed.

(** C5.  Whenever the tool calls the classification service and the call
    throws, the tool returns the no-match guidance that lists the enabled
    skills; and whatever the service does, the tool ends with a text, never
    with an exception.  The enabled skills are the skills of the listing
    whose directory name is in the stored list of enabled names; the
    guidance holds their number under the heading Available Skills and,
    after the sentence that introduces them, one line for each of them, in
    the order of the listing: its number from one on, its declared name
    between asterisks, a hyphen and its description. *)
Theorem classification_failure_gives_no_match (w : World) (request prompt : string)
    (model : option string) (k : option string -> prog (outcome string)) :
  tool w request = Ask prompt model k ->
  k None = Ret (Returned (formatNoMatchMessage (getEnabledSkillObjects w)))
  /\ (forall oracle,
         oracle prompt model = None ->
         run oracle (tool w request)
         = ([(prompt, model)], Returned (formatNoMatchMessage (getEnabledSkillObjects w))))
  /\ (forall oracle, exists text, snd (run oracle (tool w request)) = Returned text)
  /\ (forall s, In s (getEnabledSkillObjects w)
                <-> In s (getAllSkills w) /\ isSkillEnabled w (name s) = true)
  /\ (exists lines,
         length lines = length (getEnabledSkillObjects w)
         /\ (forall i s,
                nth_error (getEnabledSkillObjects w) i = Some s ->
                nth_error lines i
                = Some (natToString (i + 1) +:+ ". **"
                        +:+ toStr (obj_get (metadata s) "name")
                        +:+ "** - " +:+ toStr (obj_get (metadata s) "description")))
         /\ exists before after,
              formatNoMatchMessage (getEnabledSkillObjects w)
              = before +:+ "## Available Skills ("
                +:+ natToString (length (getEnabledSkillObjects w)) +:+ ")"
                +:+ NL +:+ NL
                +:+ "For your reference, here are the skills that are currently enabled:"
                +:+ NL +:+ NL +:+ JS.join NL lines +:+ NL +:+ NL +:+ "---" +:+ after).
Proof.
  intros E. destruct (tool_asks _ _ _ _ _ E) as [_ Hk].
  split; [apply (Hk None)|]. split; [|split; [|split]].
  - intros oracle Hthrow. rewrite E. simpl. rewrite Hthrow, (Hk None). reflexivity.
  - intros oracle. apply tool_returns.
  - intros s. unfold getEnabledSkillObjects, isSkillEnabled. apply filter_In.
  - apply formatNoMatchMessage_lists.
Qed.

Lemma find_none_of {A : Type} (f : A -> bool) (l : list A) :
  (forall x, In x l -> f x = false) -> List.find f l = None.
Proof.
  induction l as [|a l IH]; intros Hf; simpl; [reflexivity|].
  rewrite (Hf a) by now left. apply IH. intros x Hx. apply Hf. now right.
Qed.

(** The enabled skills are listed skills: they declare a name. *)
Lemma enabled_declare_names (w : World) (s : ClaudeSkill) :
  In s (getEnabledSkillObjects w) -> truthy (obj_get (metadata s) "name") = true.
Proof.
  unfold getEnabledSkillObjects. intros Hin. apply filter_In in Hin.
  destruct Hin as [Hin _].
  destruct (proj1 (List.Forall_forall _ _) (getAllSkills_listed w) s Hin)
    as (document & folder & _ & _ & _ & _ & _ & Tn & _).
  exact Tn.
Qed.

(** C7.  The answer of the service is trimmed, then loses one quote at its
    start and one at its end (one layer and no more); [selectSkillWithAI]
    returns null exactly when what is left equals NONE up to case, that is,
    when it is made of four code units, an N, an O, an N and an E, each one
    capital or small; the tool then gives the no-match guidance; otherwise
    what is left is the identifier looked up among the enabled skills by
    directory name or declared name.  The tool answers an empty identifier
    with the no-match guidance without looking it up, which is what the
    lookup gives as soon as no directory has the empty name. *)
Theorem response_normalisation (w : World) (request prompt response : string)
    (model : option string) (k : option string -> prog (outcome string)) :
  tool w request = Ask prompt model k ->
  let enabled := getEnabledSkillObjects w in
  let identifier := JS.stripQuotes (JS.trim response) in
  readResponse response
  = (if equalsIgnoringCase identifier "NONE" then None else Some identifier)
  /\ (readResponse response = None
      <-> exists c1 c2 c3 c4 : ascii,
            identifier = String c1 (String c2 (String c3 (String c4 EmptyString)))
            /\ (c1 = "N"%char \/ c1 = "n"%char) /\ (c2 = "O"%char \/ c2 = "o"%char)
            /\ (c3 = "N"%char \/ c3 = "n"%char) /\ (c4 = "E"%char \/ c4 = "e"%char))
  /\ k (Some response)
     = Ret (Returned
              (if equalsIgnoringCase identifier "NONE" then formatNoMatchMessage enabled
               else if nonEmpty identifier then
                 match List.find (matchesSkill identifier) enabled with
                 | Some selectedSkill => formatSkillResponse selectedSkill
                 | None => formatNoMatchMessage enabled
                 end
               else formatNoMatchMessage enabled))
  /\ ((forall s, In s enabled -> name s <> EmptyString) ->
      k (Some response)
      = Ret (Returned
               (if equalsIgnoringCase identifier "NONE" then formatNoMatchMessage enabled
                else
                  match List.find (matchesSkill identifier) enabled with
                  | Some selectedSkill => formatSkillResponse selectedSkill
                  | None => formatNoMatchMessage enabled
                  end)))
  /\ (forall (q1 q2 : ascii) (inner : string),
         JS.isQuote q1 = true -> JS.isQuote q2 = true ->
         JS.stripQuotes (String q1 (inner +:+ String q2 EmptyString)) = inner).
Proof.
  intros E enabled identifier.
  destruct (tool_asks _ _ _ _ _ E) as [_ Hk].
  assert (R : readResponse response
              = if equalsIgnoringCase identifier "NONE" then None else Some identifier).
  { unfold readResponse. fold identifier. now rewrite toUpperCase_NONE. }
  assert (K : k (Some response)
              = Ret (Returned
                       (if equalsIgnoringCase identifier "NONE"
                        then formatNoMatchMessage enabled
                        else if nonEmpty identifier then
                               match List.find (matchesSkill identifier) enabled with
                               | Some selectedSkill => formatSkillResponse selectedSkill
                               | None => formatNoMatchMessage enabled
                               end
                             else formatNoMatchMessage enabled))).
  { rewrite (Hk (Some response)), R. fold enabled.
    destruct (equalsIgnoringCase identifier "NONE"); [reflexivity|].
    unfold respond. destruct (nonEmpty identifier); reflexivity. }
  split; [exact R|]. split.
  { rewrite R, <- equalsIgnoringCase_NONE.
    destruct (equalsIgnoringCase identifier "NONE"); split; congruence. }
  split; [exact K|]. split.
  - intros Hnames. rewrite K.
    destruct (equalsIgnoringCase identifier "NONE"); [reflexivity|].
    destruct identifier as [|c rest]; [|reflexivity].
    cbn [nonEmpty]. rewrite find_none_of; [reflexivity|].
    intros s Hs. apply matchesSkill_false. split; [now apply Hnames|].
    pose proof (enabled_declare_names w s Hs) as Tn.
    intros Eq. rewrite Eq in Tn. discriminate Tn.
  - intros q1 q2 inner H1 H2. unfold JS.stripQuotes. simpl. rewrite H1.
    now apply stripTrailingQuote_last.
Qed.

End RouterProperties.

(** ** Updating a skill *)

Lemma obj_get_set (o : obj) (k : string) (v : value) : obj_get (obj_set o k v) k = v.
Proof.
  induction o as [|[k' v'] o IH]; simpl.
  - now rewrite String.eqb_refl.
  - destruct (String.eqb k' k) eqn:E; simpl.
    + now rewrite String.eqb_refl.
    + now rewrite E.
Qed.

Lemma obj_get_set_other (o : obj) (k k' : string) (v : value) :
  k' <> k -> obj_get (obj_set o k v) k' = obj_get o k'.
Proof.
  intros Hne. induction o as [|[k0 v0] o IH]; simpl.
  - destruct (String.eqb k k') eqn:E; [|reflexivity].
    apply String.eqb_eq in E. congruence.
  - destruct (String.eqb k0 k) eqn:E; simpl.
    + apply String.eqb_eq in E. subst k0.
      destruct (String.eqb k k') eqn:E'; [|reflexivity].
      apply String.eqb_eq in E'. congruence.
    + now rewrite IH.
Qed.

Lemma obj_get_spread_other (updates o : obj) (k : string) :
  (forall v, ~ In (k, v) updates) ->
  obj_get (obj_spread o updates) k = obj_get o k.
Proof.
  unfold obj_spread. revert o.
  induction updates as [|[k' v'] updates IH]; intros o Hk; simpl; [reflexivity|].
  rewrite IH.
  - apply obj_get_set_other. intros ->. apply (Hk v'). now left.
  - intros v Hin. apply (Hk v). now right.
Qed.

(** The text before the body depends on the four well-known fields and on
    nothing else of the metadata. *)
Lemma updateFrontmatter_well_known (m m' : obj) :
  (forall k, In k wellKnownKeys -> obj_get m' k = obj_get m k) ->
  updateFrontmatter m' = updateFrontmatter m.
Proof.
  intros E. unfold updateFrontmatter.
  rewrite !(E "name"), !(E "description"), !(E "allowedTools"), !(E "model");
    simpl; auto 6.
Qed.

(** The header that [updateSkill] writes, line by line. *)
Lemma updateFrontmatter_text (m : obj) :
  updateFrontmatter m
  = "---" +:+ NL +:+ "name: " +:+ toStr (obj_get m "name") +:+ NL
    +:+ "description: " +:+ toStr (obj_get m "description")
    +:+ (if hasLength (obj_get m "allowedTools")
         then NL +:+ "allowed-tools: " +:+ stringifyValue (obj_get m "allowedTools")
         else EmptyString)
    +:+ (if truthy (obj_get m "model")
         then NL +:+ "model: " +:+ toStr (obj_get m "model")
         else EmptyString)
    +:+ NL +:+ "---" +:+ NL +:+ NL.
Proof.
  unfold updateFrontmatter, NL.
  destruct (hasLength (obj_get m "allowedTools")); destruct (truthy (obj_get m "model"));
    repeat (first [rewrite append_assoc | progress cbn [String.append]]);
    reflexivity.
Qed.

(** On a metadata whose well-known fields have the declared types, the two
    writers put the same header. *)
Lemma updateFrontmatter_typed (m : obj) (skillName description : string)
    (allowedTools : option (list string)) (model : option string) :
  obj_get m "name" = VStr skillName ->
  obj_get m "description" = VStr description ->
  obj_get m "allowedTools" = optionalValue VArr allowedTools ->
  obj_get m "model" = optionalValue VStr model ->
  updateFrontmatter m = createFrontmatter skillName description allowedTools model.
Proof.
  intros En Ed Et Em. unfold updateFrontmatter, createFrontmatter.
  rewrite En, Ed, Et, Em.
  destruct allowedTools as [tools|]; destruct model as [md|]; reflexivity.
Qed.

Lemma spread_updates (o : obj) (u : SkillUpdates) :
  let merged := obj_spread o (updatesEntries u) in
  obj_get merged "name" = obj_get o "name"
  /\ mergedAs VStr (upd_description u) (obj_get o "description") (obj_get merged "description")
  /\ mergedAs VArr (upd_allowedTools u) (obj_get o "allowedTools")
       (obj_get merged "allowedTools")
  /\ mergedAs VStr (upd_model u) (obj_get o "model") (obj_get merged "model")
  /\ forall k, ~ In k ["description"; "content"; "allowedTools"; "model"] ->
               obj_get merged k = obj_get o k.
Proof.
  intros merged. split; [|split; [|split; [|split]]].
  - apply obj_get_spread_other. intros v.
    destruct u as [[| |d] [| |c] [| |t] [| |m]]; simpl; intuition congruence.
  - destruct u as [[| |d] [| |c] [| |t] [| |m]]; simpl; auto; unfold merged, obj_spread;
      simpl;
      rewrite ?obj_get_set_other by discriminate;
      rewrite ?obj_get_set; reflexivity.
  - destruct u as [[| |d] [| |c] [| |t] [| |m]]; simpl; auto; unfold merged, obj_spread;
      simpl;
      rewrite ?obj_get_set_other by discriminate;
      rewrite ?obj_get_set; reflexivity.
  - destruct u as [[| |d] [| |c] [| |t] [| |m]]; simpl; auto; unfold merged, obj_spread;
      simpl;
      rewrite ?obj_get_set_other by discriminate;
      rewrite ?obj_get_set; reflexivity.
  - intros k Hk. apply obj_get_spread_other. intros v Hin. apply Hk.
    destruct u as [[| |d] [| |c] [| |t] [| |m]]; simpl in *;
      intuition (try congruence;
                 match goal with
                 | E : (_, _) = (_, _) |- _ => injection E as <- _; auto
                 end).
Qed.




(** ** Writing a document and reading it back *)

Lemma trimEnd_space (s : string) (c : ascii) :
  JS.isWhiteSpace c = true -> JS.trimEnd (s +:+ String c EmptyString) = JS.trimEnd s.
Proof.
  intros E. induction s as [|a s IH]; simpl.
  - now rewrite E.
  - now rewrite IH.
Qed.

Lemma no_delimiter_extend (s tail : string) :
  String.prefix "---" s = false ->
  String.prefix "---" (s +:+ String JS.LF tail) = false.
Proof.
  destruct s as [|c1 [|c2 [|c3 s]]]; cbn [String.prefix String.append];
    repeat match goal with
           | |- context [ascii_dec ?a ?b] => destruct (ascii_dec a b); try discriminate
           end;
    auto; destruct s; discriminate.
Qed.

Lemma index_cons_none (pat : string) (c : ascii) (s : string) :
  String.index 0 pat (String c s) = None ->
  String.prefix pat (String c s) = false /\ String.index 0 pat s = None.
Proof.
  cbn [String.index]. destruct (String.prefix pat (String c s)); [discriminate|].
  destruct (String.index 0 pat s); [discriminate|auto].
Qed.

(** The closing delimiter is found right after a block that holds no
    three hyphens in a row. *)
Lemma index_closing_delimiter (lines tail : string) :
  String.index 0 "---" lines = None ->
  String.index 0 "---" (lines +:+ String JS.LF ("---" +:+ tail))
  = Some (String.length lines + 1).
Proof.
  induction lines as [|c lines IH]; intros E.
  - change ("" +:+ String JS.LF ("---" +:+ tail)) with (String JS.LF ("---" +:+ tail)).
    cbn [String.index].
    replace (String.prefix "---" (String JS.LF ("---" +:+ tail))) with false
      by reflexivity.
    rewrite (index0_prefix "---" ("---" +:+ tail)) by apply prefix_append.
    reflexivity.
  - apply index_cons_none in E. destruct E as [Ep Ei].
    change (String c lines +:+ String JS.LF ("---" +:+ tail))
      with (String c (lines +:+ String JS.LF ("---" +:+ tail))).
    cbn [String.index].
    change (String c (lines +:+ String JS.LF ("---" +:+ tail)))
      with (String c lines +:+ String JS.LF ("---" +:+ tail)).
    rewrite (no_delimiter_extend _ _ Ep).
    change (String c lines +:+ String JS.LF ("---" +:+ tail))
      with (String c (lines +:+ String JS.LF ("---" +:+ tail))).
    rewrite (IH Ei). reflexivity.
Qed.

Lemma createFrontmatter_lines (skillName description : string)
    (allowedTools : option (list string)) (model : option string) (body : string) :
  createFrontmatter skillName description allowedTools model +:+ body
  = "---" +:+ String JS.LF
      (headerLines skillName description allowedTools model
       +:+ String JS.LF ("---" +:+ String JS.LF (String JS.LF body))).
Proof.
  unfold createFrontmatter, headerLines.
  destruct allowedTools as [tools|]; [destruct (negb (Nat.eqb (length tools) 0))|];
    (destruct model as [m|]; [destruct (nonEmpty m)|]);
    repeat (first [rewrite append_assoc | progress cbn [String.append]]);
    reflexivity.
Qed.

Lemma trim_wrapped (c : ascii) (s : string) :
  JS.isWhiteSpace c = false ->
  JS.trim (String JS.LF (String c s +:+ String JS.LF EmptyString)) = JS.trim (String c s).
Proof.
  intros E. rewrite trim_space by reflexivity.
  unfold JS.trim. cbn [String.append JS.trimStart]. rewrite E.
  apply (trimEnd_space (String c s)). reflexivity.
Qed.

Lemma headerLines_first (skillName description : string)
    (allowedTools : option (list string)) (model : option string) :
  exists s, headerLines skillName description allowedTools model = String "n" s.
Proof. eexists. reflexivity. Qed.

(** The metadata that the key loop makes of the mapping of the header
    lines. *)
Lemma camelCase_writtenFields (skillName description : string)
    (allowedTools : option (list string)) (model : option string) :
  exists read,
    camelCaseMetadata (YMap (writtenFields skillName description allowedTools model))
    = Some (YMap read)
    /\ obj_get read "name" = VStr skillName
    /\ obj_get read "description" = VStr description
    /\ obj_get read "allowedTools"
       = match allowedTools with
         | Some tools => if negb (Nat.eqb (length tools) 0) then VArr tools else VUndef
         | None => VUndef
         end
    /\ obj_get read "allowed-tools" = obj_get read "allowedTools"
    /\ obj_get read "model"
       = match model with
         | Some m => if nonEmpty m then VStr m else VUndef
         | None => VUndef
         end.
Proof.
  unfold writtenFields.
  destruct allowedTools as [tools|]; [destruct (negb (Nat.eqb (length tools) 0))|];
    (destruct model as [m|]; [destruct (nonEmpty m)|]);
    (eexists; split; [reflexivity|repeat split]).
Qed.

Section RoundTrip.
Context `{Host}.

(** Where [parseSkillMarkdown] cuts a document that [createSkill] wrote,
    when the header lines hold no three hyphens in a row. *)
Lemma parse_written (skillName description : string)
    (allowedTools : option (list string)) (model : option string) (body : string) :
  String.index 0 "---" (headerLines skillName description allowedTools model) = None ->
  parseSkillMarkdown (createFrontmatter skillName description allowedTools model +:+ body)
  = parseParts (JS.trim (headerLines skillName description allowedTools model))
               (JS.trim body).
Proof.
  intros Hfree. rewrite createFrontmatter_lines, parse_after_opening.
  set (lines := headerLines skillName description allowedTools model) in *.
  set (tail := String JS.LF (String JS.LF body)).
  cbn [String.index].
  replace (String.prefix "---" (String JS.LF (lines +:+ String JS.LF ("---" +:+ tail))))
    with false by reflexivity.
  rewrite (index_closing_delimiter lines tail Hfree).
  f_equal.
  - cbn [String.substring].
    change (lines +:+ String JS.LF ("---" +:+ tail))
      with (lines +:+ (String JS.LF EmptyString +:+ ("---" +:+ tail))).
    rewrite <- append_assoc.
    replace (String.length lines + 1)
      with (String.length (lines +:+ String JS.LF EmptyString))
      by (rewrite length_append; reflexivity).
    rewrite substring_take_append.
    destruct (headerLines_first skillName description allowedTools model) as [s Es].
    unfold lines. rewrite Es. apply trim_wrapped. reflexivity.
  - change (String JS.LF (lines +:+ String JS.LF ("---" +:+ tail)))
      with (String JS.LF (lines +:+ (String JS.LF "---" +:+ tail))).
    rewrite <- append_assoc.
    change (String JS.LF ((lines +:+ String JS.LF "---") +:+ tail))
      with (String JS.LF (lines +:+ String JS.LF "---") +:+ tail).
    replace (S (String.length lines + 1) + 3)
      with (String.length (String JS.LF (lines +:+ String JS.LF "---")))
      by (cbn [String.length]; rewrite length_append; cbn [String.length]; lia).
    rewrite substringFrom_append. unfold tail.
    now rewrite !trim_space by reflexivity.
Qed.

(** C1, as the code has it.  Take a name, a description, optional allowed
    tools and an optional model whose header lines hold no three hyphens in
    a row and are read by the YAML parser as the mapping they spell.  Then
    the document written for them with any body parses; the metadata read
    has that name and description, the allowed tools (when not empty) and
    the model (when not empty), the absent ones being undefined (the
    hyphenated key of the allowed tools stays beside its camel-case copy);
    the body read is the body written without the white space around it. *)
Theorem written_document_reads_back (skillName description : string)
    (allowedTools : option (list string)) (model : option string) (body : string) :
  String.index 0 "---" (headerLines skillName description allowedTools model) = None ->
  YAML_parse (JS.trim (headerLines skillName description allowedTools model))
  = Some (YMap (writtenFields skillName description allowedTools model)) ->
  exists read,
    parseSkillMarkdown (createFrontmatter skillName description allowedTools model +:+ body)
    = Some (mkParsed (YMap read) (JS.trim body))
    /\ obj_get read "name" = VStr skillName
    /\ obj_get read "description" = VStr description
    /\ obj_get read "allowedTools"
       = match allowedTools with
         | Some tools => if negb (Nat.eqb (length tools) 0) then VArr tools else VUndef
         | None => VUndef
         end
    /\ obj_get read "allowed-tools" = obj_get read "allowedTools"
    /\ obj_get read "model"
       = match model with
         | Some m => if nonEmpty m then VStr m else VUndef
         | None => VUndef
         end.
Proof.
  intros Hfree Hyaml. rewrite (parse_written _ _ _ _ _ Hfree).
  unfold parseParts. rewrite Hyaml.
  destruct (camelCase_writtenFields skillName description allowedTools model)
    as (read & Ec & Gets).
  rewrite Ec. exists read. split; [reflexivity|exact Gets].
Qed.

End RoundTrip.

(** ** Updating a skill: the document written *)

Section UpdateProperties.
Context `{Host}.

(** The document that [updateSkill] writes for a metadata whose well-known
    fields have the declared types: its text, and what is read back of
    it. *)
Lemma typed_header_reads_back (m : obj) (skillName description : string)
    (allowedTools : option (list string)) (model : option string) (body : string) :
  obj_get m "name" = VStr skillName ->
  obj_get m "description" = VStr description ->
  obj_get m "allowedTools" = optionalValue VArr allowedTools ->
  obj_get m "model" = optionalValue VStr model ->
  updateFrontmatter m +:+ body
  = "---" +:+ NL +:+ headerLines skillName description allowedTools model
    +:+ NL +:+ "---" +:+ NL +:+ NL +:+ body
  /\ (String.index 0 "---" (headerLines skillName description allowedTools model) = None ->
      YAML_parse (JS.trim (headerLines skillName description allowedTools model))
      = Some (YMap (writtenFields skillName description allowedTools model)) ->
      exists read,
        parseSkillMarkdown (updateFrontmatter m +:+ body)
        = Some (mkParsed (YMap read) (JS.trim body))
        /\ obj_get read "name" = VStr skillName
        /\ obj_get read "description" = VStr description
        /\ obj_get read "allowedTools"
           = match allowedTools with
             | Some tools => if negb (Nat.eqb (length tools) 0) then VArr tools else VUndef
             | None => VUndef
             end
        /\ obj_get read "model"
           = match model with
             | Some md => if nonEmpty md then VStr md else VUndef
             | None => VUndef
             end).
Proof.
  intros En Ed Et Em.
  rewrite (updateFrontmatter_typed m _ _ _ _ En Ed Et Em). split.
  - rewrite createFrontmatter_lines. unfold NL.
    repeat (first [rewrite append_assoc | progress cbn [String.append]]).
    reflexivity.
  - intros Hfree Hyaml. rewrite (parse_written _ _ _ _ _ Hfree).
    unfold parseParts. rewrite Hyaml.
    destruct (camelCase_writtenFields skillName description allowedTools model)
      as (read & -> & Rn & Rd & Rt & _ & Rm).
    exists read. auto.
Qed.

(** C2, as the code has it.  For a skill that [findSkill] returns,
    [updateSkill] succeeds; the metadata it merges over is the one parsed
    from the document now on disk; a well-known field (name, description,
    allowed tools, model) that is not a property of the update keeps its
    current value, one that the update gives takes the given value; the
    document is rewritten as the text of the four well-known fields of the
    merged metadata followed by the body (the given one, else the current
    one); no other file changes and no directory gains or loses a name.  A
    further key of the metadata is kept in the returned record and is not
    written: the new document is the same whatever the further keys hold.

    The text written before the body is, line by line: three hyphens; the
    name; the description; the allowed tools in JSON, when they are there
    with a length above zero; the model, when it is there and not empty;
    three hyphens; an empty line.  When the merged name and description are
    strings, the merged allowed tools a list of strings or undefined and
    the merged model a string or undefined, these are the header lines that
    [createSkill] writes, and (when they hold no three hyphens in a row and
    the YAML parser reads them as the mapping they spell) the new document
    is read back with the merged name, description, allowed tools (when not
    empty) and model (when not empty), and with the body trimmed. *)
Theorem updateSkill_rewrites_well_known_fields (w : World) (identifier : string)
    (updates : SkillUpdates) (skill : ClaudeSkill) :
  findSkill w identifier = Some skill ->
  let merged := obj_spread (metadata skill) (updatesEntries updates) in
  let newContent :=
    match upd_content updates with Given c => c | _ => content skill end in
  (exists document,
      readFileSync (fs w) (skillMdPath skill) = Some document
      /\ parseSkillMarkdown document
         = Some (mkParsed (YMap (metadata skill)) (content skill)))
  /\ (exists w',
        updateSkill w identifier updates
        = Some (w', Some (mkSkill (name skill) (path skill) merged newContent
                            (supportingFiles skill) (skillMdPath skill)))
        /\ localStorage w' = localStorage w
        /\ readFileSync (fs w') (skillMdPath skill)
           = Some (updateFrontmatter merged +:+ newContent)
        /\ (forall q, q <> skillMdPath skill ->
                      readFileSync (fs w') q = readFileSync (fs w) q)
        /\ (forall q, option_map (map fst) (readdirSync (fs w') q)
                      = option_map (map fst) (readdirSync (fs w) q)))
  /\ obj_get merged "name" = obj_get (metadata skill) "name"
  /\ mergedAs VStr (upd_description updates)
       (obj_get (metadata skill) "description") (obj_get merged "description")
  /\ mergedAs VArr (upd_allowedTools updates)
       (obj_get (metadata skill) "allowedTools") (obj_get merged "allowedTools")
  /\ mergedAs VStr (upd_model updates)
       (obj_get (metadata skill) "model") (obj_get merged "model")
  /\ (forall k, ~ In k ["description"; "content"; "allowedTools"; "model"] ->
                obj_get merged k = obj_get (metadata skill) k)
  /\ (forall m', (forall k, In k wellKnownKeys -> obj_get m' k = obj_get merged k) ->
                 updateFrontmatter m' = updateFrontmatter merged)
  /\ updateFrontmatter merged
     = "---" +:+ NL +:+ "name: " +:+ toStr (obj_get merged "name") +:+ NL
       +:+ "description: " +:+ toStr (obj_get merged "description")
       +:+ (if hasLength (obj_get merged "allowedTools")
            then NL +:+ "allowed-tools: " +:+ stringifyValue (obj_get merged "allowedTools")
            else EmptyString)
       +:+ (if truthy (obj_get merged "model")
            then NL +:+ "model: " +:+ toStr (obj_get merged "model")
            else EmptyString)
       +:+ NL +:+ "---" +:+ NL +:+ NL
  /\ (forall (skillName description : string) (allowedTools : option (list string))
             (model : option string),
         obj_get merged "name" = VStr skillName ->
         obj_get merged "description" = VStr description ->
         obj_get merged "allowedTools" = optionalValue VArr allowedTools ->
         obj_get merged "model" = optionalValue VStr model ->
         updateFrontmatter merged +:+ newContent
         = "---" +:+ NL +:+ headerLines skillName description allowedTools model
           +:+ NL +:+ "---" +:+ NL +:+ NL +:+ newContent
         /\ (String.index 0 "---" (headerLines skillName description allowedTools model)
             = None ->
             YAML_parse (JS.trim (headerLines skillName description allowedTools model))
             = Some (YMap (writtenFields skillName description allowedTools model)) ->
             exists read,
               parseSkillMarkdown (updateFrontmatter merged +:+ newContent)
               = Some (mkParsed (YMap read) (JS.trim newContent))
               /\ obj_get read "name" = VStr skillName
               /\ obj_get read "description" = VStr description
               /\ obj_get read "allowedTools"
                  = match allowedTools with
                    | Some tools =>
                        if negb (Nat.eqb (length tools) 0) then VArr tools else VUndef
                    | None => VUndef
                    end
               /\ obj_get read "model"
                  = match model with
                    | Some md => if nonEmpty md then VStr md else VUndef
                    | None => VUndef
                    end)).
Proof.
  intros F merged newContent.
  destruct (findSkill_listed _ _ _ F)
    as (document & folder & _ & _ & Emd & R & P & _ & _).
  destruct (spread_updates (metadata skill) updates) as (Sn & Sd & St & Sm & So).
  split; [now exists document|].
  split.
  { assert (Rf : resolve (skillMdPath skill) (fs w) = Some (File document)).
    { unfold readFileSync in R.
      destruct (resolve (skillMdPath skill) (fs w)) as [[d|es]|]; congruence. }
    destruct (writeFileSync_existing (skillMdPath skill)
                (updateFrontmatter merged +:+ newContent) (fs w) document)
      as (root' & W & R');
      [rewrite Emd, path_join_component; now destruct (path skill)|exact Rf|].
    destruct (writeFileSync_frame _ _ _ _ _ Rf W) as [Hfile Hdir].
    exists (setFs w root'). unfold updateSkill.
    rewrite F, R, P. cbn [parsed_content]. fold merged. fold newContent.
    rewrite W. split; [reflexivity|]. split; [reflexivity|].
    split; [unfold readFileSync; cbn [fs setFs]; now rewrite R'|].
    split; [exact Hfile|exact Hdir]. }
  split; [exact Sn|]. split; [exact Sd|]. split; [exact St|]. split; [exact Sm|].
  split; [exact So|].
  split; [intros m' Hm'; now apply updateFrontmatter_well_known|].
  split; [apply updateFrontmatter_text|].
  intros skillName description allowedTools model En Ed Et Em.
  now apply typed_header_reads_back.
Qed.

End UpdateProperties.



(** ** Creating a skill twice *)

Lemma putEntry_same (c : string) (child : node) (es : list (string * node)) :
  lookupEntry c es = Some child -> putEntry c child es = es.
Proof.
  induction es as [|[k n] es IH]; simpl; [discriminate|].
  destruct (String.eqb k c) eqn:E.
  - intros L. now injection L as ->.
  - intros L. now rewrite IH.
Qed.

Lemma resolve_app (p q : Path) :
  forall root,
    resolve (p ++ q) root
    = match resolve p root with Some n => resolve q n | None => None end.
Proof.
  induction p as [|c p IH]; intros root; [reflexivity|].
  cbn [app resolve]. destruct root as [d|es]; [reflexivity|].
  destruct (lookupEntry c es); [apply IH|reflexivity].
Qed.

Lemma resolve_component (c : string) (n m : node) :
  resolve [c] n = Some m -> exists es, n = Dir es /\ lookupEntry c es = Some m.
Proof.
  cbn [resolve]. destruct n as [d|es]; [discriminate|].
  destruct (lookupEntry c es) as [child|] eqn:L; [|discriminate].
  intros E. injection E as ->. eauto.
Qed.

(** Making a directory that is there changes nothing. *)
Lemma mkdirSync_existing (p : Path) :
  forall root es, resolve p root = Some (Dir es) -> mkdirSync p root = Some root.
Proof.
  induction p as [|c p IH]; intros root es R.
  - cbn [resolve] in R. injection R as ->. reflexivity.
  - destruct root as [d|es0]; [discriminate|].
    cbn [resolve] in R. cbn [mkdirSync].
    destruct (lookupEntry c es0) as [child|] eqn:L; [|discriminate].
    rewrite (IH child es R). now rewrite (putEntry_same _ _ _ L).
Qed.

(** What was written is what is read. *)
Lemma writeFileSync_reads (p : Path) (data : string) :
  forall root root',
    writeFileSync p data root = Some root' -> resolve p root' = Some (File data).
Proof.
  induction p as [|c p IH]; intros root root' W.
  - destruct root; discriminate.
  - destruct root as [d|es]; [discriminate|].
    destruct p as [|c' p].
    + cbn [writeFileSync] in W.
      assert (E : root' = Dir (putEntry c (File data) es)).
      { destruct (lookupEntry c es) as [[d|es']|]; congruence. }
      subst root'. cbn [resolve]. now rewrite lookupEntry_putEntry.
    + change (writeFileSync (c :: c' :: p) data (Dir es))
        with (match lookupEntry c es with
              | Some ch =>
                  match writeFileSync (c' :: p) data ch with
                  | Some ch' => Some (Dir (putEntry c ch' es))
                  | None => None
                  end
              | None => None
              end) in W.
      destruct (lookupEntry c es) as [child|]; [|discriminate].
      destruct (writeFileSync (c' :: p) data child) as [child'|] eqn:W';
        [|discriminate].
      injection W as <-. cbn [resolve]. rewrite lookupEntry_putEntry.
      exact (IH _ _ W').
Qed.

Lemma forEach_app {A S : Type} (turn : S -> A -> option S) (l1 l2 : list A) (s : S) :
  forEach turn (l1 ++ l2) s
  = match forEach turn l1 s with Some s1 => forEach turn l2 s1 | None => None end.
Proof.
  revert s. induction l1 as [|a l1 IH]; intros s; simpl; [reflexivity|].
  destruct (turn s a); [apply IH|reflexivity].
Qed.

Lemma forEach_extends {A B : Type} (turn : list B -> A -> option (list B)) :
  (forall s a s', turn s a = Some s' -> exists added, s' = s ++ added) ->
  forall l s s', forEach turn l s = Some s' -> exists added, s' = s ++ added.
Proof.
  intros Hturn l s s'.
  apply (forEach_preserves (fun t => exists added, t = s ++ added)).
  - intros t a t' _ [added ->] T. destruct (Hturn _ _ _ T) as [more ->].
    exists (added ++ more). now rewrite app_assoc.
  - exists []. now rewrite app_nil_r.
Qed.

Lemma lookupEntry_split (c : string) (n : node) (es : list (string * node)) :
  lookupEntry c es = Some n -> exists e1 e2, es = e1 ++ (c, n) :: e2.
Proof.
  induction es as [|[k m] es IH]; simpl; [discriminate|].
  destruct (String.eqb k c) eqn:E.
  - intros L. injection L as ->. apply String.eqb_eq in E. subst k.
    now exists [], es.
  - intros L. destruct (IH L) as (e1 & e2 & ->). now exists ((k, m) :: e1), e2.
Qed.

Section CreateProperties.
Context `{Host}.

Lemma visitEntry_extends (root : node) (folder : Path) (skills skills' : list ClaudeSkill)
    (e : string * node) :
  visitEntry root folder skills e = Some skills' -> exists added, skills' = skills ++ added.
Proof.
  unfold visitEntry.
  repeat match goal with
         | |- context [match ?x with _ => _ end] => destruct x
         end;
    intros E; try discriminate; injection E as <-;
    solve [exists []; now rewrite app_nil_r | eauto].
Qed.

Lemma visitFolder_extends (root : node) (skills skills' : list ClaudeSkill) (folder : Path) :
  visitFolder root skills folder = Some skills' -> exists added, skills' = skills ++ added.
Proof.
  unfold visitFolder.
  destruct (negb (existsSync root folder)).
  - intros E. injection E as <-. exists []. now rewrite app_nil_r.
  - destruct (readdirSync root folder) as [es|]; [|discriminate].
    apply forEach_extends. intros s a s'. apply visitEntry_extends.
Qed.

(** The turn of the inner loop on a directory whose document parses to a
    mapping with a name and a description adds its record. *)
Lemma visitEntry_adds (root : node) (folder : Path) (skills skills' : list ClaudeSkill)
    (dirName document body : string) (es : list (string * node)) (o : obj) :
  resolve (path_join folder dirName ++ ["SKILL.md"]) root = Some (File document) ->
  parseSkillMarkdown document = Some (mkParsed (YMap o) body) ->
  truthy (obj_get o "name") = true ->
  truthy (obj_get o "description") = true ->
  visitEntry root folder skills (dirName, Dir es) = Some skills' ->
  exists supporting,
    skills' = skills ++ [mkSkill dirName (path_join folder dirName) o body supporting
                           (path_join folder dirName ++ ["SKILL.md"])].
Proof.
  intros R P Tn Td. unfold visitEntry. cbn [fst snd isDirectory negb].
  rewrite path_join_component. unfold existsSync, readFileSync. rewrite R.
  cbn [negb]. rewrite P. cbn [parsed_metadata parsed_content].
  rewrite Tn, Td. cbn [negb orb].
  destruct (readdirSync root _) as [allFiles|]; [|discriminate].
  destruct (supportingFilesOf root _ _) as [supporting|]; [|discriminate].
  intros E. injection E as <-. now exists supporting.
Qed.

(** A listing that completes holds a record for every such directory of
    a configured root. *)
Lemma listing_holds (root : node) (folders : list Path) (skills : list ClaudeSkill)
    (folder : Path) (dirName document body : string) (o : obj) :
  forEach (visitFolder root) folders [] = Some skills ->
  In folder folders ->
  resolve (path_join folder dirName ++ ["SKILL.md"]) root = Some (File document) ->
  path_join folder dirName = folder ++ [dirName] ->
  parseSkillMarkdown document = Some (mkParsed (YMap o) body) ->
  truthy (obj_get o "name") = true ->
  truthy (obj_get o "description") = true ->
  exists supporting,
    In (mkSkill dirName (path_join folder dirName) o body supporting
          (path_join folder dirName ++ ["SKILL.md"])) skills.
Proof.
  intros L Hin R Pj P Tn Td.
  destruct (in_split _ _ Hin) as (f1 & f2 & ->).
  rewrite forEach_app in L.
  destruct (forEach (visitFolder root) f1 []) as [s1|]; [|discriminate].
  cbn [forEach] in L.
  destruct (visitFolder root s1 folder) as [s2|] eqn:V; [|discriminate].
  destruct (forEach_extends _ (fun s a s' => visitFolder_extends root s s' a) _ _ _ L)
    as [more ->].
  (* inside the root *)
  assert (Rd : exists es es',
             resolve folder root = Some (Dir es)
             /\ lookupEntry dirName es = Some (Dir es')).
  { rewrite Pj, <- app_assoc, resolve_app in R.
    destruct (resolve folder root) as [n|]; [|discriminate].
    rewrite resolve_app in R.
    destruct (resolve [dirName] n) as [m|] eqn:Rn; [|discriminate].
    destruct (resolve_component _ _ _ Rn) as (es & -> & Le).
    destruct (resolve_component _ _ _ R) as (es' & -> & _).
    eauto. }
  destruct Rd as (es & es' & Rfolder & Le).
  unfold visitFolder, existsSync, readdirSync in V. rewrite Rfolder in V.
  cbn [negb] in V.
  destruct (lookupEntry_split _ _ _ Le) as (e1 & e2 & ->).
  rewrite forEach_app in V.
  destruct (forEach (visitEntry root folder) e1 s1) as [t1|]; [|discriminate].
  cbn [forEach] in V.
  destruct (visitEntry root folder t1 (dirName, Dir es')) as [t2|] eqn:Ve; [|discriminate].
  destruct (visitEntry_adds _ _ _ _ _ _ _ _ _ R P Tn Td Ve) as [supporting ->].
  destruct (forEach_extends _ (fun s a s' => visitEntry_extends root folder s s' a) _ _ _ V)
    as [more' ->].
  exists supporting. rewrite !in_app_iff. left. left. right. now left.
Qed.

End CreateProperties.

Lemma splitSlash_component (x : string) :
  Reference.allChars (fun c => negb (Ascii.eqb c "/")) x = true -> splitSlash x = [x].
Proof.
  induction x as [|c x IH]; simpl; [reflexivity|].
  destruct (Ascii.eqb c "/"); simpl; [discriminate|].
  intros E. now rewrite (IH E).
Qed.

Lemma path_join_simple (p : Path) (x : string) :
  isComponent x = true -> path_join p x = p ++ [x].
Proof.
  unfold isComponent. rewrite !andb_true_iff, !negb_true_iff.
  intros [[[Hne Hdot] Hdots] Hslash].
  unfold path_join. rewrite (splitSlash_component _ Hslash).
  cbn [fold_left]. unfold pushComponent. rewrite Hdot, Hdots.
  destruct x; [discriminate|reflexivity].
Qed.

Section CreateTwice.
Context `{Host}.

(** C8, as the code has it.  When a first [createSkill] succeeds, a second
    one with the same name on the same root succeeds too and leaves, in the
    directory that is already there, the document of the second call.  If
    the header lines of the second call hold no three hyphens in a row and
    the YAML parser reads them as the mapping they spell, every listed
    record of that directory carries the name, the description and the
    trimmed body of the second call; and [findSkill] with the name returns
    such a record when the name is one path component, the description is
    not empty, the root is a configured one, the listing completes, and
    no listed skill of another directory has that directory name or
    declared name. *)
Theorem createSkill_twice_overwrites (w w1 : World) (s1 : ClaudeSkill)
    (x d b d2 b2 : string) (t t2 : option (list string)) (m m2 : option string)
    (f : option Path) :
  createSkill w x d b t m f = Some (w1, s1) ->
  exists w2 s2,
    createSkill w1 x d2 b2 t2 m2 f = Some (w2, s2)
    /\ path s2 = path s1
    /\ skillMdPath s2 = skillMdPath s1
    /\ readFileSync (fs w2) (skillMdPath s2) = Some (createFrontmatter x d2 t2 m2 +:+ b2)
    /\ (String.index 0 "---" (headerLines x d2 t2 m2) = None ->
        YAML_parse (JS.trim (headerLines x d2 t2 m2))
        = Some (YMap (writtenFields x d2 t2 m2)) ->
        (forall s, In s (getAllSkills w2) -> path s = path s2 ->
                   obj_get (metadata s) "name" = VStr x
                   /\ obj_get (metadata s) "description" = VStr d2
                   /\ content s = JS.trim b2)
        /\ (isComponent x = true ->
            nonEmpty d2 = true ->
            In (targetFolder w f) (getSkillsFolderPaths w2) ->
            listingCompletes w2 ->
            (forall s, In s (getAllSkills w2) -> matchesSkill x s = true ->
                       path s = path s2) ->
            exists s,
              findSkill w2 x = Some s
              /\ path s = path s2
              /\ obj_get (metadata s) "description" = VStr d2
              /\ content s = JS.trim b2)).
Proof.
  intros C1. unfold createSkill in C1.
  fold (targetFolder w f) in C1.
  set (P := path_join (targetFolder w f) x) in *.
  destruct (mkdirSync P (fs w)) as [fs1|] eqn:M; [|discriminate].
  destruct (writeFileSync (path_join P "SKILL.md") _ fs1) as [fs2|] eqn:W; [|discriminate].
  injection C1 as <- <-.
  rewrite path_join_component in W.
  pose proof (writeFileSync_reads _ _ _ _ W) as R1.
  assert (Rd : exists es, resolve P fs2 = Some (Dir es)).
  { rewrite resolve_app in R1. destruct (resolve P fs2) as [n|]; [|discriminate].
    destruct (resolve_component _ _ _ R1) as (es & -> & _). eauto. }
  destruct Rd as [es Rd].
  destruct (writeFileSync_existing (P ++ ["SKILL.md"]) (createFrontmatter x d2 t2 m2 +:+ b2)
              fs2 _ ltac:(now destruct P) R1) as (fs3 & W2 & R2).
  set (w2 := setFs (setFs w fs2) fs3).
  set (s2 := mkSkill x P
               [("name", VStr x); ("description", VStr d2);
                ("allowedTools", optionalValue VArr t2); ("model", optionalValue VStr m2)]
               b2 [] (P ++ ["SKILL.md"])).
  assert (C2 : createSkill (setFs w fs2) x d2 b2 t2 m2 f = Some (w2, s2)).
  { unfold createSkill. change (match f with
                                | Some p => p
                                | None => getSkillsFolderPath (setFs w fs2)
                                end) with (targetFolder w f).
    fold P. cbn [fs setFs]. rewrite (mkdirSync_existing _ _ _ Rd).
    rewrite path_join_component, W2. reflexivity. }
  assert (Rf : readFileSync (fs w2) (P ++ ["SKILL.md"])
               = Some (createFrontmatter x d2 t2 m2 +:+ b2)).
  { unfold readFileSync. cbn [fs w2 setFs]. now rewrite R2. }
  exists w2, s2. split; [exact C2|].
  cbn [path skillMdPath s2]. rewrite path_join_component.
  split; [reflexivity|]. split; [reflexivity|]. split; [exact Rf|].
  intros Hfree Hyaml.
  destruct (camelCase_writtenFields x d2 t2 m2) as (read & Ec & Gn & Gd & _).
  assert (Pr : parseSkillMarkdown (createFrontmatter x d2 t2 m2 +:+ b2)
               = Some (mkParsed (YMap read) (JS.trim b2))).
  { rewrite (parse_written _ _ _ _ _ Hfree). unfold parseParts.
    now rewrite Hyaml, Ec. }
  assert (B : forall s, In s (getAllSkills w2) -> path s = P ->
                        obj_get (metadata s) "name" = VStr x
                        /\ obj_get (metadata s) "description" = VStr d2
                        /\ content s = JS.trim b2).
  { intros s Hin Hp.
    pose proof (proj1 (List.Forall_forall _ _) (getAllSkills_listed w2) s Hin)
      as (document & folder & _ & _ & Emd & Rs & Ps & _ & _).
    rewrite Emd, Hp, path_join_component, Rf in Rs. injection Rs as <-.
    rewrite Pr in Ps. injection Ps as <- <-. auto. }
  split; [exact B|].
  intros Hx Hd2 Hroot Hcomplete Hunique.
  unfold listingCompletes in Hcomplete.
  destruct (forEach (visitFolder (fs w2)) (getSkillsFolderPaths w2) []) as [skills|] eqn:L;
    [|congruence].
  assert (G : getAllSkills w2 = skills) by (unfold getAllSkills; now rewrite L).
  assert (Tn : truthy (obj_get read "name") = true).
  { rewrite Gn. cbn [truthy]. unfold isComponent in Hx.
    now rewrite !andb_true_iff in Hx. }
  assert (Td : truthy (obj_get read "description") = true) by now rewrite Gd.
  destruct (listing_holds (fs w2) _ _ (targetFolder w f) x
              (createFrontmatter x d2 t2 m2 +:+ b2) (JS.trim b2) read L Hroot)
    as [supporting Hrec];
    [exact R2 | now apply path_join_simple | exact Pr | exact Tn | exact Td |].
  fold P in Hrec. rewrite <- G in Hrec.
  pose proof (find_first (matchesSkill x) (getAllSkills w2)) as F.
  unfold findSkill.
  destruct (List.find (matchesSkill x) (getAllSkills w2)) as [s|] eqn:Fs.
  - apply find_some in Fs. destruct Fs as [Hin Hm].
    pose proof (Hunique s Hin Hm) as Hp. cbn [path s2] in Hp.
    destruct (B s Hin Hp) as (_ & Dd & Dc).
    exists s. auto.
  - specialize (F _ Hrec). unfold matchesSkill in F. cbn [name] in F.
    now rewrite String.eqb_refl in F.
Qed.

End CreateTwice.

(** ** The listing and an empty metadata block *)

Section NullMetadata.
Context `{Host}.

Lemma parse_emptyBlock :
  YAML_parse "" = Some YNull ->
  parseSkillMarkdown Examples.emptyBlock = Some (mkParsed YNull "").
Proof.
  intros Hnull. unfold Examples.emptyBlock.
  change ("---" +:+ NL +:+ "---" +:+ NL) with ("---" +:+ (NL +:+ "---" +:+ NL)).
  rewrite parse_after_opening.
  replace (String.index 0 "---" (NL +:+ "---" +:+ NL)) with (Some 1)
    by (vm_compute; reflexivity).
  replace (JS.trim (String.substring 0 1 (NL +:+ "---" +:+ NL))) with ""
    by (vm_compute; reflexivity).
  replace (JS.trim (JS.substringFrom (NL +:+ "---" +:+ NL) (1 + 3))) with ""
    by (vm_compute; reflexivity).
  unfold parseParts. now rewrite Hnull.
Qed.

(** The turn of the inner loop on a directory whose document parses to
    null metadata throws. *)
Lemma visitEntry_null_metadata (root : node) (folder : Path) (skills : list ClaudeSkill)
    (dirName document body : string) (es : list (string * node)) :
  readFileSync root (path_join (path_join folder dirName) "SKILL.md") = Some document ->
  parseSkillMarkdown document = Some (mkParsed YNull body) ->
  visitEntry root folder skills (dirName, Dir es) = None.
Proof.
  intros R P. unfold visitEntry. cbn [fst snd isDirectory negb].
  unfold existsSync. unfold readFileSync in R.
  destruct (resolve _ root) as [[data|es']|] eqn:Rs; try discriminate.
  injection R as ->. cbn [negb]. unfold readFileSync. rewrite Rs, P. reflexivity.
Qed.

Lemma forEach_throws {A S : Type} (turn : S -> A -> option S) (a : A) (l : list A) :
  (forall s, turn s a = None) -> In a l -> forall s, forEach turn l s = None.
Proof.
  intros Ha. induction l as [|b l IH]; intros Hin s; [destruct Hin|].
  cbn [forEach]. destruct (turn s b) as [s'|] eqn:T; [|reflexivity].
  destruct Hin as [-> | Hin]; [now rewrite Ha in T|now apply IH].
Qed.

(** C4, where the code fails.  Under a host whose YAML parser reads the
    empty text as null (as the YAML library does), one directory of a
    configured root whose document is an empty metadata block empties the
    whole listing, whatever valid skills stand beside it: reading the name
    of the null metadata throws, and the catch around the whole listing
    returns the empty list.  The directory is not skipped. *)
Theorem empty_block_empties_the_listing (w : World) (folder : Path)
    (es es' : list (string * node)) (dirName : string) :
  YAML_parse "" = Some YNull ->
  In folder (getSkillsFolderPaths w) ->
  readdirSync (fs w) folder = Some es ->
  In (dirName, Dir es') es ->
  readFileSync (fs w) (path_join (path_join folder dirName) "SKILL.md")
  = Some Examples.emptyBlock ->
  getAllSkills w = [].
Proof.
  intros Hnull Hfolder Hdir Hentry Hdoc. unfold getAllSkills.
  rewrite (forEach_throws (visitFolder (fs w)) folder); [reflexivity| |exact Hfolder].
  intros skills. unfold visitFolder, existsSync.
  rewrite Hdir. unfold readdirSync in Hdir.
  destruct (resolve folder (fs w)) as [n|]; [|discriminate]. cbn [negb].
  apply (forEach_throws _ (dirName, Dir es')); [|exact Hentry].
  intros skills'.
  apply (visitEntry_null_metadata _ _ _ _ Examples.emptyBlock "");
    [exact Hdoc|now apply parse_emptyBlock].
Qed.

End NullMetadata.

(** ** The listing, root by root *)

Lemma forEach_accumulates {A B : Type} (turn : list B -> A -> option (list B)) :
  (forall s a, turn s a = option_map (app s) (turn [] a)) ->
  forall l s, forEach turn l s = option_map (app s) (forEach turn l []).
Proof.
  intros Hturn l. induction l as [|a l IH]; intros s; cbn [forEach].
  - cbn [option_map]. now rewrite app_nil_r.
  - rewrite (Hturn s a). destruct (turn [] a) as [t|]; cbn [option_map]; [|reflexivity].
    rewrite (IH (s ++ t)), (IH t).
    destruct (forEach turn l []) as [u|]; cbn [option_map]; [|reflexivity].
    now rewrite app_assoc.
Qed.

Lemma supportingFilesOf_filter (root : node) (skillPath : Path) (allFiles supporting : list string) :
  supportingFilesOf root skillPath allFiles = Some supporting ->
  supporting
  = List.filter (fun f => negb (String.eqb f "SKILL.md")
                          && match statIsFile root (path_join skillPath f) with
                             | Some regular => regular
                             | None => false
                             end) allFiles.
Proof.
  revert supporting. induction allFiles as [|f rest IH]; intros supporting; cbn [supportingFilesOf].
  - intros E. now injection E as <-.
  - cbn [List.filter]. destruct (String.eqb f "SKILL.md"); cbn [negb andb]; [apply IH|].
    destruct (statIsFile root (path_join skillPath f)) as [keep|]; [|discriminate].
    destruct (supportingFilesOf root skillPath rest) as [fs'|]; [|discriminate].
    intros E. injection E as <-. rewrite (IH fs' eq_refl). now destruct keep.
Qed.

Section RootByRoot.
Context `{Host}.

(** What a turn of the inner loop does: nothing, or it adds the record of
    the directory it is on. *)
Lemma visitEntry_cases (root : node) (folder : Path) (skills skills' : list ClaudeSkill)
    (e : string * node) :
  visitEntry root folder skills e = Some skills' ->
  skills' = skills
  \/ exists es document metadata body allFiles supporting,
       snd e = Dir es
       /\ readFileSync root (path_join (path_join folder (fst e)) "SKILL.md") = Some document
       /\ parseSkillMarkdown document = Some (mkParsed (YMap metadata) body)
       /\ readdirSync root (path_join folder (fst e)) = Some allFiles
       /\ supportingFilesOf root (path_join folder (fst e)) (map fst allFiles) = Some supporting
       /\ skills' = skills ++ [mkSkill (fst e) (path_join folder (fst e)) metadata body
                                 supporting
                                 (path_join (path_join folder (fst e)) "SKILL.md")].
Proof.
  unfold visitEntry.
  destruct (snd e) as [d|es] eqn:Es; cbn [isDirectory negb];
    [intros E; left; now injection E as <-|].
  destruct (negb (existsSync root _));
    [destruct (existsSync root _); intros E; left; now injection E as <-|].
  destruct (readFileSync root _) as [document|] eqn:R; [|discriminate].
  destruct (parseSkillMarkdown document) as [[m c]|] eqn:Pd;
    [|intros E; left; now injection E as <-].
  cbn [parsed_metadata parsed_content].
  destruct m as [|o|str|]; try discriminate; try (intros E; left; now injection E as <-).
  destruct (negb (truthy (obj_get o "name")) || negb (truthy (obj_get o "description")));
    [intros E; left; now injection E as <-|].
  destruct (readdirSync root _) as [allFiles|] eqn:Rd; [|discriminate].
  destruct (supportingFilesOf root _ _) as [supporting|] eqn:Sp; [|discriminate].
  intros E. injection E as <-. right.
  exists es, document, o, c, allFiles, supporting. auto 10.
Qed.

Lemma visitEntry_accumulates (root : node) (folder : Path) (skills : list ClaudeSkill)
    (e : string * node) :
  visitEntry root folder skills e = option_map (app skills) (visitEntry root folder [] e).
Proof.
  unfold visitEntry.
  repeat match goal with
         | |- context [match ?x with _ => _ end] => destruct x
         end;
    cbn [option_map]; rewrite ?app_nil_r; reflexivity.
Qed.

Lemma visitFolder_accumulates (root : node) (skills : list ClaudeSkill) (folder : Path) :
  visitFolder root skills folder = option_map (app skills) (visitFolder root [] folder).
Proof.
  unfold visitFolder.
  destruct (negb (existsSync root folder)); [cbn [option_map]; now rewrite app_nil_r|].
  destruct (readdirSync root folder) as [es|]; [|reflexivity].
  apply forEach_accumulates. intros s a. apply visitEntry_accumulates.
Qed.

Lemma listing_app (root : node) (f1 f2 : list Path) :
  forEach (visitFolder root) (f1 ++ f2) []
  = match forEach (visitFolder root) f1 [] with
    | Some l1 => option_map (app l1) (forEach (visitFolder root) f2 [])
    | None => None
    end.
Proof.
  rewrite forEach_app.
  destruct (forEach (visitFolder root) f1 []) as [l1|]; [|reflexivity].
  apply forEach_accumulates. intros s a. apply visitFolder_accumulates.
Qed.

(** The roots are listed one after the other, each on its own: when the
    listing of a state completes, it is the listing of its first roots
    followed by the listing of the roots after them. *)
Theorem listing_follows_the_order_of_the_roots (w w1 w2 : World) :
  fs w1 = fs w -> fs w2 = fs w ->
  getSkillsFolderPaths w = getSkillsFolderPaths w1 ++ getSkillsFolderPaths w2 ->
  listingCompletes w ->
  getAllSkills w = getAllSkills w1 ++ getAllSkills w2.
Proof.
  intros E1 E2 Er. unfold listingCompletes, getAllSkills.
  rewrite E1, E2, Er, listing_app.
  destruct (forEach (visitFolder (fs w)) (getSkillsFolderPaths w1) []) as [l1|];
    [|congruence].
  destruct (forEach (visitFolder (fs w)) (getSkillsFolderPaths w2) []) as [l2|];
    cbn [option_map]; congruence.
Qed.

(** A configured root that does not exist on disk is passed over: the
    listing is what it is without that root. *)
Theorem missing_root_is_passed_over (w w' : World) (before after : list Path)
    (folder : Path) :
  fs w' = fs w ->
  getSkillsFolderPaths w = before ++ folder :: after ->
  getSkillsFolderPaths w' = before ++ after ->
  existsSync (fs w) folder = false ->
  getAllSkills w = getAllSkills w'.
Proof.
  intros Ef Ew Ew' Hmissing. unfold getAllSkills.
  rewrite Ef, Ew, Ew', !forEach_app.
  destruct (forEach (visitFolder (fs w)) before []) as [l|]; [|reflexivity].
  cbn [forEach]. unfold visitFolder at 1. now rewrite Hmissing.
Qed.

(** A configured root that exists and is not a directory makes
    [readdirSync] throw, and the catch around the whole listing returns the
    empty list, whatever the other roots hold. *)
Theorem root_that_is_a_file_empties_the_listing (w : World) (folder : Path) :
  In folder (getSkillsFolderPaths w) ->
  statIsFile (fs w) folder = Some true ->
  getAllSkills w = [].
Proof.
  intros Hin Hfile. unfold getAllSkills.
  rewrite (forEach_throws (visitFolder (fs w)) folder); [reflexivity| |exact Hin].
  intros skills. unfold visitFolder, existsSync, readdirSync.
  unfold statIsFile in Hfile.
  destruct (resolve folder (fs w)) as [[data|es]|]; try discriminate. reflexivity.
Qed.

Lemma getAllSkills_described (w : World) :
  Forall (describesDirectory (fs w) (getSkillsFolderPaths w)) (getAllSkills w).
Proof.
  unfold getAllSkills.
  destruct (forEach (visitFolder (fs w)) (getSkillsFolderPaths w) []) as [skills|] eqn:E;
    [|constructor].
  revert E. apply forEach_preserves; [|constructor].
  intros s folder s' Hfolder Ps. unfold visitFolder.
  destruct (negb (existsSync (fs w) folder)); [intros E; now injection E as <-|].
  destruct (readdirSync (fs w) folder) as [entries|] eqn:Rd; [|discriminate].
  apply forEach_preserves; [|exact Ps].
  intros t e t' He Pt V.
  destruct (visitEntry_cases _ _ _ _ _ V)
    as [-> | (es & document & o & body & allFiles & supporting
              & Es & _ & _ & Ra & Sp & ->)]; [exact Pt|].
  apply Forall_app. split; [exact Pt|]. constructor; [|constructor].
  exists folder, entries, es, allFiles. cbn [name path skillMdPath supportingFiles].
  split; [exact Hfolder|]. split; [exact Rd|].
  split; [destruct e as [k n]; cbn [fst snd] in *; now subst n|].
  split; [reflexivity|]. split; [reflexivity|]. split; [exact Ra|].
  now apply supportingFilesOf_filter.
Qed.

(** Every record of the listing describes a directory of a configured
    root: its name is the name of a directory entry of the root, its paths
    are those of that directory and of the metadata document in it, and its
    supporting files are, in the order of the directory, the names besides
    the metadata document that are regular files. *)
Theorem listed_record_describes_its_directory (w : World) :
  Forall (fun s =>
            exists folder entries es allFiles,
              In folder (getSkillsFolderPaths w)
              /\ readdirSync (fs w) folder = Some entries
              /\ In (name s, Dir es) entries
              /\ path s = path_join folder (name s)
              /\ skillMdPath s = path_join (path s) "SKILL.md"
              /\ readdirSync (fs w) (path s) = Some allFiles
              /\ supportingFiles s
                 = List.filter
                     (fun f => negb (String.eqb f "SKILL.md")
                               && match statIsFile (fs w) (path_join (path s) f) with
                                  | Some regular => regular
                                  | None => false
                                  end)
                     (map fst allFiles))
    (getAllSkills w).
Proof.
  eapply List.Forall_impl; [|apply getAllSkills_described].
  intros s (folder & entries & es & allFiles & D).
  exists folder, entries, es, allFiles. exact D.
Qed.

End RootByRoot.

(** ** Deleting a skill *)

Lemma lookupEntry_filter_other (c c' : string) (es : list (string * node)) :
  c' <> c ->
  lookupEntry c' (List.filter (fun e => negb (String.eqb (fst e) c)) es) = lookupEntry c' es.
Proof.
  intros Hne. induction es as [|[k n] es IH]; [reflexivity|].
  cbn [List.filter fst]. destruct (String.eqb_spec k c) as [->|Hk]; cbn [negb lookupEntry].
  - rewrite IH. destruct (String.eqb_spec c c') as [->|_]; [congruence|reflexivity].
  - now rewrite IH.
Qed.

Lemma lookupEntry_filter_same (c : string) (es : list (string * node)) :
  lookupEntry c (List.filter (fun e => negb (String.eqb (fst e) c)) es) = None.
Proof.
  induction es as [|[k n] es IH]; [reflexivity|].
  cbn [List.filter fst]. destruct (String.eqb k c) eqn:E; cbn [negb lookupEntry]; [exact IH|].
  now rewrite E.
Qed.

Lemma rmSync_cons (c c2 : string) (p : Path) (es : list (string * node)) :
  rmSync (c :: c2 :: p) (Dir es)
  = match lookupEntry c es with
    | Some child => Dir (putEntry c (rmSync (c2 :: p) child) es)
    | None => Dir es
    end.
Proof. reflexivity. Qed.

(** Nothing is left at the removed path or below it. *)
Lemma rmSync_gone (p : Path) :
  forall root q, p <> [] -> resolve (p ++ q) (rmSync p root) = None.
Proof.
  induction p as [|c p IH]; intros root q Hp; [congruence|].
  destruct root as [d|es]; [reflexivity|].
  destruct p as [|c2 p].
  - cbn [rmSync app resolve]. now rewrite lookupEntry_filter_same.
  - rewrite rmSync_cons. cbn [app resolve].
    destruct (lookupEntry c es) as [child|] eqn:L.
    + rewrite lookupEntry_putEntry. apply (IH child q). discriminate.
    + cbn [resolve]. now rewrite L.
Qed.

(** A file that is not below the removed path is as it was. *)
Lemma rmSync_frame (p : Path) :
  forall root q, (forall r, q <> p ++ r) ->
                 readFileSync (rmSync p root) q = readFileSync root q.
Proof.
  induction p as [|c p IH]; intros root q Hq; [now destruct (Hq q)|].
  destruct root as [d|es]; [reflexivity|].
  destruct q as [|c' q]; [destruct p; [reflexivity|]; rewrite rmSync_cons;
                          now destruct (lookupEntry c es)|].
  destruct p as [|c2 p].
  - cbn [rmSync]. rewrite !readFileSync_cons.
    destruct (String.eqb_spec c' c) as [->|Hne]; [now destruct (Hq q)|].
    now rewrite lookupEntry_filter_other.
  - rewrite rmSync_cons.
    destruct (lookupEntry c es) as [child|] eqn:L; [|reflexivity].
    rewrite !readFileSync_cons.
    destruct (String.eqb_spec c' c) as [->|Hne].
    + rewrite lookupEntry_putEntry, L. apply IH.
      intros r ->. now apply (Hq r).
    + now rewrite lookupEntry_putEntry_other.
Qed.

Section DeleteProperties.
Context `{Host}.

(** [deleteSkill] answers false and changes nothing when [findSkill] finds
    no skill.  Otherwise it answers true and removes the directory of the
    skill found with all that is below it: nothing exists there afterwards,
    no record of the listing stands for that directory, and every file
    outside it reads as before.  The stored settings are not touched, so
    the name of a deleted skill stays in the enabled list. *)
Theorem deleteSkill_removes_the_directory (w : World) (identifier : string) :
  (findSkill w identifier = None -> deleteSkill w identifier = (w, false))
  /\ (forall skill,
        findSkill w identifier = Some skill ->
        exists w',
          deleteSkill w identifier = (w', true)
          /\ localStorage w' = localStorage w
          /\ getEnabledSkills w' = getEnabledSkills w
          /\ (forall q, (forall r, q <> path skill ++ r) ->
                        readFileSync (fs w') q = readFileSync (fs w) q)
          /\ (path skill <> [] ->
              (forall q, existsSync (fs w') (path skill ++ q) = false)
              /\ (forall s, In s (getAllSkills w') -> path s <> path skill))).
Proof.
  unfold deleteSkill. split.
  - now intros ->.
  - intros skill ->. eexists. split; [reflexivity|].
    split; [reflexivity|]. split; [reflexivity|]. cbn [fs setFs]. split.
    + intros q Hq. now apply rmSync_frame.
    + intros Hp.
      assert (G : forall q, resolve (path skill ++ q) (rmSync (path skill) (fs w)) = None)
        by (intros q; now apply rmSync_gone).
      split.
      * intros q. unfold existsSync. now rewrite G.
      * intros s Hin Eq.
        pose proof (proj1 (List.Forall_forall _ _)
                      (getAllSkills_listed (setFs w (rmSync (path skill) (fs w)))) s Hin)
          as (document & folder & _ & _ & Emd & Rs & _).
        rewrite Emd, Eq, path_join_component in Rs.
        unfold readFileSync in Rs. cbn [fs setFs] in Rs. now rewrite G in Rs.
Qed.

End DeleteProperties.

(** ** The enabled skills and the routing model *)

Lemma includes_filter (l : list string) (s x : string) :
  includes (List.filter (fun n => negb (String.eqb n s)) l) x
  = negb (String.eqb x s) && includes l x.
Proof.
  destruct (String.eqb_spec x s) as [->|Hne]; cbn [negb andb].
  - apply includes_filter_out.
  - now apply includes_filter_other.
Qed.

Lemma includes_app (l1 l2 : list string) (x : string) :
  includes (l1 ++ l2) x = includes l1 x || includes l2 x.
Proof. unfold includes. apply existsb_app. Qed.

Lemma filter_filter {A : Type} (f g : A -> bool) (l : list A) :
  List.filter f (List.filter g l) = List.filter (fun a => f a && g a) l.
Proof.
  induction l as [|a l IH]; [reflexivity|].
  cbn [List.filter]. destruct (g a); cbn [List.filter].
  - rewrite andb_true_r. now rewrite IH.
  - now rewrite andb_false_r.
Qed.

Section EnabledProperties.
Context `{Host}.

Lemma getAllSkills_storage (w : World) (ls : gmap string string) :
  ls !! SKILLS_FOLDER_KEY = localStorage w !! SKILLS_FOLDER_KEY ->
  getAllSkills (setStorage w ls) = getAllSkills w.
Proof.
  intros E. unfold getAllSkills, getSkillsFolderPaths, getSkillsFolders, setStorage.
  cbn [localStorage fs env_HOME env_USERPROFILE]. now rewrite E.
Qed.

(** The enabled skills are chosen by directory name.  After [disableSkill]
    they are the ones that were enabled without those of the directory
    name given; after [enableSkill] they are the listed skills whose
    directory name was enabled or is the name given.  A skill that only
    declares the name in its metadata is not concerned.  (The roots and the
    enabled names are stored under different keys, and the host reads back
    the arrays that [JSON.stringify] writes.) *)
Theorem enablement_goes_by_directory_name (w : World) (skillName : string) :
  SKILLS_FOLDER_KEY <> ENABLED_SKILLS_KEY ->
  (forall l, JSON_parse_names (JS.JSON_stringify l) = Some l) ->
  getEnabledSkillObjects (disableSkill w skillName)
  = List.filter (fun s => negb (String.eqb (name s) skillName)) (getEnabledSkillObjects w)
  /\ getEnabledSkillObjects (enableSkill w skillName)
     = List.filter (fun s => includes (getEnabledSkills w) (name s)
                             || String.eqb (name s) skillName)
         (getAllSkills w).
Proof.
  intros Hkeys R. split.
  - unfold getEnabledSkillObjects, disableSkill.
    rewrite getEnabledSkills_stored by apply R.
    rewrite getAllSkills_storage by (now rewrite lookup_insert_ne).
    rewrite filter_filter. apply filter_ext. intros s. apply includes_filter.
  - unfold getEnabledSkillObjects at 1, enableSkill.
    destruct (includes (getEnabledSkills w) skillName) eqn:I; cbn [negb].
    + apply filter_ext. intros s.
      destruct (String.eqb_spec (name s) skillName) as [->|_];
        [now rewrite I|now rewrite orb_false_r].
    + rewrite getEnabledSkills_stored by apply R.
      rewrite getAllSkills_storage by (now rewrite lookup_insert_ne).
      apply filter_ext. intros s. rewrite includes_app. f_equal.
      unfold includes. cbn [existsb]. now rewrite orb_false_r.
Qed.

End EnabledProperties.

Section RoutingModelProperties.
Context `{Host}.

(** The routing model that was set is the one read, but for the empty
    text, which reads as no model; after [clearRoutingModel] none is read
    and the router answers with the setup guidance.  Neither function
    touches the files or the enabled names. *)
Theorem routing_model_is_read_back (w : World) (model request : string) :
  getRoutingModel (setRoutingModel w model) = (if nonEmpty model then Some model else None)
  /\ getRoutingModel (clearRoutingModel w) = None
  /\ tool (clearRoutingModel w) request = Ret (Returned setupRequiredMessage)
  /\ getEnabledSkills (setRoutingModel w model) = getEnabledSkills w
  /\ getEnabledSkills (clearRoutingModel w) = getEnabledSkills w
  /\ fs (setRoutingModel w model) = fs w
  /\ fs (clearRoutingModel w) = fs w.
Proof.
  assert (C : getRoutingModel (clearRoutingModel w) = None).
  { unfold getRoutingModel, clearRoutingModel, setStorage. cbn [localStorage].
    now rewrite lookup_delete_eq. }
  split; [|split; [exact C|split; [|split; [|split]]]].
  - unfold getRoutingModel, setRoutingModel, setStorage. cbn [localStorage].
    now rewrite lookup_insert_eq.
  - unfold tool. now rewrite C.
  - unfold getEnabledSkills, setRoutingModel, setStorage. cbn [localStorage].
    now rewrite lookup_insert_ne.
  - unfold getEnabledSkills, clearRoutingModel, setStorage. cbn [localStorage].
    now rewrite lookup_delete_ne.
  - split; reflexivity.
Qed.

(** The router calls the classification service at most once: not at all
    when no routing model is stored or no skill is enabled (it then answers
    with the text for that case), and otherwise once, with the prompt of
    the enabled skills and the entry of the model table for the stored
    model. *)
Theorem router_asks_at_most_once (w : World) (request : string)
    (oracle : string -> option string -> option string) :
  fst (run oracle (tool w request))
  = match getRoutingModel w with
    | None => []
    | Some routingModel =>
        match getEnabledSkillObjects w with
        | [] => []
        | _ :: _ =>
            [(routingPrompt (getEnabledSkillObjects w) request, AI_Model routingModel)]
        end
    end
  /\ (forall routingModel,
         getRoutingModel w = Some routingModel ->
         getEnabledSkillObjects w = [] ->
         run oracle (tool w request) = ([], Returned noSkillsEnabledMessage)).
Proof.
  unfold tool. split.
  - destruct (getRoutingModel w) as [routingModel|]; [|reflexivity].
    destruct (getEnabledSkillObjects w) as [|s l]; [reflexivity|].
    cbn [length Nat.eqb]. unfold selectSkillWithAI, tryCatch, andThen, AI_ask.
    cbn [bind run].
    destruct (oracle _ _); reflexivity.
  - intros routingModel -> ->. reflexivity.
Qed.

End RoutingModelProperties.

(** ** What creating a skill writes *)

Lemma readFileSync_empty (q : Path) : readFileSync (Dir []) q = None.
Proof. destruct q; reflexivity. Qed.

(** Making directories changes no file. *)
Lemma mkdirSync_frame (p : Path) :
  forall root root', mkdirSync p root = Some root' ->
                     forall q, readFileSync root' q = readFileSync root q.
Proof.
  induction p as [|c p IH]; intros root root' M q.
  - destruct root; [discriminate|]. now injection M as <-.
  - destruct root as [d|es]; [discriminate|]. cbn [mkdirSync] in M.
    destruct q as [|c' q]; [destruct (lookupEntry c es);
                            destruct (mkdirSync p _); try discriminate;
                            now injection M as <-|].
    destruct (lookupEntry c es) as [child|] eqn:L.
    + destruct (mkdirSync p child) as [child'|] eqn:Mc; [|discriminate].
      injection M as <-. rewrite !readFileSync_cons.
      destruct (String.eqb_spec c' c) as [->|Hne].
      * rewrite lookupEntry_putEntry, L. apply (IH _ _ Mc).
      * now rewrite lookupEntry_putEntry_other.
    + destruct (mkdirSync p (Dir [])) as [child'|] eqn:Mc; [|discriminate].
      injection M as <-. rewrite !readFileSync_cons.
      destruct (String.eqb_spec c' c) as [->|Hne].
      * rewrite lookupEntry_putEntry, L, (IH _ _ Mc). apply readFileSync_empty.
      * now rewrite lookupEntry_putEntry_other.
Qed.

(** Making directories removes nothing. *)
Lemma mkdirSync_keeps (p : Path) :
  forall root root', mkdirSync p root = Some root' ->
                     forall q, existsSync root q = true -> existsSync root' q = true.
Proof.
  induction p as [|c p IH]; intros root root' M q.
  - destruct root; [discriminate|]. now injection M as <-.
  - destruct root as [d|es]; [discriminate|]. cbn [mkdirSync] in M.
    destruct q as [|c' q]; [reflexivity|].
    unfold existsSync. cbn [resolve].
    destruct (lookupEntry c es) as [child|] eqn:L.
    + destruct (mkdirSync p child) as [child'|] eqn:Mc; [|discriminate].
      injection M as <-.
      destruct (String.eqb_spec c' c) as [->|Hne].
      * rewrite lookupEntry_putEntry, L. apply (IH _ _ Mc).
      * now rewrite lookupEntry_putEntry_other.
    + destruct (mkdirSync p (Dir [])) as [child'|] eqn:Mc; [|discriminate].
      injection M as <-.
      destruct (String.eqb_spec c' c) as [->|Hne].
      * now rewrite L.
      * now rewrite lookupEntry_putEntry_other.
Qed.

Lemma writeFileSync_cons (c c2 : string) (p : Path) (data : string)
    (es : list (string * node)) :
  writeFileSync (c :: c2 :: p) data (Dir es)
  = match lookupEntry c es with
    | Some child =>
        match writeFileSync (c2 :: p) data child with
        | Some child' => Some (Dir (putEntry c child' es))
        | None => None
        end
    | None => None
    end.
Proof. reflexivity. Qed.

(** Writing a file changes no other file. *)
Lemma writeFileSync_others (p : Path) (data : string) :
  forall root root', writeFileSync p data root = Some root' ->
                     forall q, q <> p -> readFileSync root' q = readFileSync root q.
Proof.
  induction p as [|c p IH]; intros root root' W q Hq.
  - destruct root; discriminate.
  - destruct root as [d|es]; [discriminate|].
    destruct q as [|c' q];
      [destruct p; [cbn [writeFileSync] in W|rewrite writeFileSync_cons in W];
       repeat match type of W with
              | context [match ?x with _ => _ end] => destruct x
              end; try discriminate; now injection W as <-|].
    destruct p as [|c2 p].
    + cbn [writeFileSync] in W.
      assert (E : root' = Dir (putEntry c (File data) es)
                  /\ forall r, r <> [] -> match lookupEntry c es with
                                          | Some child => readFileSync child r
                                          | None => None
                                          end = None).
      { destruct (lookupEntry c es) as [[d|es']|]; try discriminate;
          (split; [congruence|]); intros r Hr; [|reflexivity].
        destruct r; [congruence|reflexivity]. }
      destruct E as [-> E]. rewrite !readFileSync_cons.
      destruct (String.eqb_spec c' c) as [->|Hne].
      * rewrite lookupEntry_putEntry, E by (intros ->; now apply Hq).
        destruct q; [now destruct Hq|reflexivity].
      * now rewrite lookupEntry_putEntry_other.
    + rewrite writeFileSync_cons in W.
      destruct (lookupEntry c es) as [child|] eqn:L; [|discriminate].
      destruct (writeFileSync (c2 :: p) data child) as [child'|] eqn:Wc; [|discriminate].
      injection W as <-. rewrite !readFileSync_cons.
      destruct (String.eqb_spec c' c) as [->|Hne].
      * rewrite lookupEntry_putEntry, L. apply (IH _ _ Wc). intros ->. now apply Hq.
      * now rewrite lookupEntry_putEntry_other.
Qed.

(** Writing a file removes nothing. *)
Lemma writeFileSync_keeps (p : Path) (data : string) :
  forall root root', writeFileSync p data root = Some root' ->
                     forall q, existsSync root q = true -> existsSync root' q = true.
Proof.
  induction p as [|c p IH]; intros root root' W q.
  - destruct root; discriminate.
  - destruct root as [d|es]; [discriminate|].
    destruct q as [|c' q]; [reflexivity|].
    unfold existsSync. cbn [resolve].
    destruct p as [|c2 p].
    + cbn [writeFileSync] in W.
      assert (E : root' = Dir (putEntry c (File data) es)
                  /\ forall r, match lookupEntry c es with
                               | Some child => resolve r child
                               | None => None
                               end <> None -> r = []).
      { destruct (lookupEntry c es) as [[d|es']|]; try discriminate;
          (split; [congruence|]); intros r Hr; [|congruence].
        destruct r; [reflexivity|now destruct Hr]. }
      destruct E as [-> E].
      destruct (String.eqb_spec c' c) as [->|Hne].
      * rewrite lookupEntry_putEntry. intros Hx.
        rewrite (E q); [reflexivity|].
        destruct (lookupEntry c es) as [child|]; [|discriminate].
        now destruct (resolve q child).
      * now rewrite lookupEntry_putEntry_other.
    + rewrite writeFileSync_cons in W.
      destruct (lookupEntry c es) as [child|] eqn:L; [|discriminate].
      destruct (writeFileSync (c2 :: p) data child) as [child'|] eqn:Wc; [|discriminate].
      injection W as <-.
      destruct (String.eqb_spec c' c) as [->|Hne].
      * rewrite lookupEntry_putEntry, L. apply (IH _ _ Wc).
      * now rewrite lookupEntry_putEntry_other.
Qed.

Section CreateWrites.
Context `{Host}.

Lemma createSkill_effects (w w' : World) (skill : ClaudeSkill)
    (skillName description body : string) (allowedTools : option (list string))
    (model : option string) (folderPath : option Path) :
  createSkill w skillName description body allowedTools model folderPath = Some (w', skill) ->
  path skill = path_join (targetFolder w folderPath) skillName
  /\ skillMdPath skill = path skill ++ ["SKILL.md"]
  /\ readFileSync (fs w') (skillMdPath skill)
     = Some (createFrontmatter skillName description allowedTools model +:+ body)
  /\ (forall q, q <> skillMdPath skill -> readFileSync (fs w') q = readFileSync (fs w) q)
  /\ (forall q, existsSync (fs w) q = true -> existsSync (fs w') q = true)
  /\ localStorage w' = localStorage w.
Proof.
  unfold createSkill. fold (targetFolder w folderPath).
  set (P := path_join (targetFolder w folderPath) skillName).
  destruct (mkdirSync P (fs w)) as [fs1|] eqn:M; [|discriminate].
  destruct (writeFileSync (path_join P "SKILL.md") _ fs1) as [fs2|] eqn:W; [|discriminate].
  intros E. injection E as <- <-. cbn [path skillMdPath fs setFs localStorage].
  rewrite path_join_component in *.
  split; [reflexivity|]. split; [reflexivity|]. split.
  - unfold readFileSync. now rewrite (writeFileSync_reads _ _ _ _ W).
  - split; [|split; [|reflexivity]].
    + intros q Hq. rewrite (writeFileSync_others _ _ _ _ W q Hq).
      apply (mkdirSync_frame _ _ _ M).
    + intros q Hx. apply (writeFileSync_keeps _ _ _ _ W).
      now apply (mkdirSync_keeps _ _ _ M).
Qed.

(** A [createSkill] that succeeds leaves the header and the body it was
    given, as it was given, in the metadata document of the directory,
    changes no other file, removes nothing, and does not touch the stored
    settings.  The directory is the name joined to the root given, or to
    the first configured root.  The record returned carries the name, the
    description and the body of the call and no supporting file, whatever
    the directory held before. *)
Theorem createSkill_writes_one_document (w w' : World) (skill : ClaudeSkill)
    (skillName description body : string) (allowedTools : option (list string))
    (model : option string) (folderPath : option Path) :
  createSkill w skillName description body allowedTools model folderPath = Some (w', skill) ->
  path skill = path_join (targetFolder w folderPath) skillName
  /\ skillMdPath skill = path skill ++ ["SKILL.md"]
  /\ readFileSync (fs w') (skillMdPath skill)
     = Some (createFrontmatter skillName description allowedTools model +:+ body)
  /\ (forall q, q <> skillMdPath skill -> readFileSync (fs w') q = readFileSync (fs w) q)
  /\ (forall q, existsSync (fs w) q = true -> existsSync (fs w') q = true)
  /\ localStorage w' = localStorage w
  /\ name skill = skillName
  /\ obj_get (metadata skill) "name" = VStr skillName
  /\ obj_get (metadata skill) "description" = VStr description
  /\ content skill = body
  /\ supportingFiles skill = [].
Proof.
  intros C.
  destruct (createSkill_effects _ _ _ _ _ _ _ _ _ C) as (Ep & Emd & R & Ho & Hk & Els).
  split; [exact Ep|]. split; [exact Emd|]. split; [exact R|]. split; [exact Ho|].
  split; [exact Hk|]. split; [exact Els|].
  revert C. unfold createSkill.
  destruct (mkdirSync _ (fs w)) as [fs1|]; [|discriminate].
  destruct (writeFileSync _ _ fs1) as [fs2|]; [|discriminate].
  intros E. injection E as _ <-. repeat split.
Qed.

End CreateWrites.

(** ** Reading a supporting file *)

Lemma fold_pushComponent_components (q p : Path) :
  Forall (fun c => isComponent c = true) q -> fold_left pushComponent q p = p ++ q.
Proof.
  revert p. induction q as [|c q IH]; intros p Hq; cbn [fold_left].
  - now rewrite app_nil_r.
  - inversion Hq as [|? ? Hc Hq']; subst.
    assert (E : pushComponent p c = p ++ [c]).
    { pose proof (path_join_simple p c Hc) as E. unfold path_join in E.
      unfold isComponent in Hc. rewrite !andb_true_iff in Hc.
      destruct Hc as [_ Hslash]. now rewrite (splitSlash_component _ Hslash) in E. }
    rewrite (IH _ Hq'), E, <- app_assoc. reflexivity.
Qed.

Lemma fold_pushComponent_dots (n : nat) (p : Path) :
  length p <= n -> fold_left pushComponent (repeat ".." n) p = [].
Proof.
  revert p. induction n as [|n IH]; intros p Hn; cbn [repeat fold_left].
  - destruct p; [reflexivity|cbn [length] in Hn; lia].
  - apply IH. change (pushComponent p "..") with (removelast p).
    destruct p as [|c p] using rev_ind; [cbn; lia|].
    rewrite removelast_last. rewrite length_app in Hn. cbn [length] in Hn. lia.
Qed.

Lemma splitSlash_join_cons (c : string) (rest : string) :
  Reference.allChars (fun c => negb (Ascii.eqb c "/")) c = true ->
  splitSlash (c +:+ String "/" rest) = c :: splitSlash rest.
Proof.
  induction c as [|a c IH]; cbn [Reference.allChars String.append splitSlash].
  - reflexivity.
  - destruct (Ascii.eqb a "/"); cbn [negb andb]; [discriminate|].
    intros Hc. now rewrite (IH Hc).
Qed.

Lemma splitSlash_join (l : list string) :
  l <> [] ->
  Forall (fun c => Reference.allChars (fun c => negb (Ascii.eqb c "/")) c = true) l ->
  splitSlash (JS.join "/" l) = l.
Proof.
  unfold JS.join. induction l as [|c l IH]; intros Hne Hl; [congruence|].
  inversion Hl as [|? ? Hc Hl']; subst.
  destruct l as [|c' l].
  - cbn [String.concat]. now apply splitSlash_component.
  - change (String.concat "/" (c :: c' :: l))
      with (c +:+ String "/" (String.concat "/" (c' :: l))).
    rewrite (splitSlash_join_cons _ _ Hc). f_equal. apply IH; [discriminate|exact Hl'].
Qed.

Section SupportingFileProperties.
Context `{Host}.

(** When no skill is found, [readSupportingFile] throws its error for the
    skill.  When one is found, every supporting file of its record is
    read: the result is the text of that file in the directory.  The empty
    file name is the directory itself, which exists: the result is then
    the error of the file system for reading a directory, not the error of
    the module for a file that is not found. *)
Theorem supporting_files_of_a_record_are_read (w : World) (identifier : string) :
  (findSkill w identifier = None ->
   forall fileName,
     readSupportingFile w identifier fileName
     = NotFoundError ("Skill " +:+ Q +:+ identifier +:+ Q +:+ " not found"))
  /\ (forall skill,
        findSkill w identifier = Some skill ->
        (forall fileName,
            In fileName (supportingFiles skill) ->
            exists data,
              readSupportingFile w identifier fileName = FileText data
              /\ readFileSync (fs w) (path_join (path skill) fileName) = Some data)
        /\ readSupportingFile w identifier "" = FileSystemError).
Proof.
  unfold readSupportingFile. split; [now intros ->|].
  intros skill F. rewrite F. split.
  - intros fileName Hin.
    assert (Hs : In skill (getAllSkills w)).
    { unfold findSkill in F. now apply find_some in F. }
    pose proof (proj1 (List.Forall_forall _ _) (getAllSkills_described w) skill Hs)
      as (folder & entries & es & allFiles & _ & _ & _ & _ & _ & _ & Sp).
    rewrite Sp in Hin. apply filter_In in Hin. destruct Hin as [_ Hkeep].
    apply andb_true_iff in Hkeep. destruct Hkeep as [_ Hfile].
    unfold statIsFile in Hfile. unfold existsSync, readFileSync.
    destruct (resolve (path_join (path skill) fileName) (fs w)) as [[data|es']|];
      try discriminate.
    exists data. auto.
  - destruct (findSkill_listed _ _ _ F) as (document & folder & _ & _ & Emd & Rs & _).
    change (path_join (path skill) "") with (path skill).
    rewrite Emd, path_join_component in Rs. unfold readFileSync in Rs.
    rewrite resolve_app in Rs. unfold existsSync, readFileSync.
    destruct (resolve (path skill) (fs w)) as [[data|es]|]; try discriminate.
    reflexivity.
Qed.

(** The file name is joined to the directory as a path, and nothing keeps
    the result inside the directory: with one double dot for each component
    of the directory before the components of any regular file, that file
    is read. *)
Theorem supporting_file_name_can_leave_the_directory (w : World) (identifier : string)
    (skill : ClaudeSkill) (file : Path) (data : string) :
  findSkill w identifier = Some skill ->
  Forall (fun c => isComponent c = true) file ->
  readFileSync (fs w) file = Some data ->
  readSupportingFile w identifier
    (JS.join "/" (repeat ".." (length (path skill)) ++ file))
  = FileText data.
Proof.
  intros F Hfile R. unfold readSupportingFile. rewrite F.
  assert (Hne : file <> []).
  { intros ->. unfold readFileSync in R. cbn [resolve] in R.
    destruct (findSkill_listed _ _ _ F) as (document & folder & _ & _ & Emd & Rs & _).
    rewrite Emd, path_join_component in Rs. unfold readFileSync in Rs.
    destruct (fs w); [|discriminate]. destruct (path skill); discriminate. }
  assert (J : path_join (path skill)
                (JS.join "/" (repeat ".." (length (path skill)) ++ file)) = file).
  { unfold path_join. rewrite splitSlash_join.
    - rewrite fold_left_app, fold_pushComponent_dots by lia.
      now rewrite fold_pushComponent_components.
    - destruct (repeat ".." (length (path skill))); [exact Hne|discriminate].
    - apply Forall_app. split.
      + apply List.Forall_forall. intros x Hx. apply repeat_spec in Hx. now subst x.
      + eapply List.Forall_impl; [|exact Hfile]. intros c Hc. unfold isComponent in Hc.
        rewrite !andb_true_iff in Hc. tauto. }
  rewrite J. unfold existsSync. unfold readFileSync in R |- *.
  destruct (resolve file (fs w)) as [[d|es]|]; try discriminate.
  now injection R as ->.
Qed.

End SupportingFileProperties.

(** ** Managing the roots *)

Lemma find_hasPath_none (folderPath : string) (folders : list Roots.StoredFolder) :
  List.find (Roots.hasPath folderPath) folders = None
  <-> ~ In folderPath (map Roots.stored_path folders).
Proof.
  unfold Roots.hasPath. induction folders as [|f l IH]; cbn [List.find map In]; [tauto|].
  destruct (String.eqb_spec (Roots.stored_path f) folderPath) as [E|E].
  - split; [discriminate|]. intros Hn. destruct Hn. now left.
  - rewrite IH. tauto.
Qed.

Lemma filter_hasPath_out (folderPath : string) (folders : list Roots.StoredFolder) :
  ~ In folderPath
      (map Roots.stored_path
         (List.filter (fun f => negb (Roots.hasPath folderPath f)) folders)).
Proof.
  rewrite in_map_iff. intros (f & E & Hin). apply filter_In in Hin.
  destruct Hin as [_ Hk]. unfold Roots.hasPath in Hk. rewrite E, String.eqb_refl in Hk.
  discriminate.
Qed.

Lemma findIndex_first {A : Type} (test : A -> bool) (l : list A) :
  match Roots.findIndex test l with
  | Some i =>
      exists before a after,
        l = before ++ a :: after /\ length before = i /\ test a = true
        /\ (forall b, In b before -> test b = false)
  | None => forall a, In a l -> test a = false
  end.
Proof.
  induction l as [|a l IH]; cbn [Roots.findIndex]; [intros a []|].
  destruct (test a) eqn:T.
  - exists [], a, l. repeat split; auto. intros b [].
  - destruct (Roots.findIndex test l) as [i|].
    + destruct IH as (before & a' & after & -> & <- & Ta & Hb).
      exists (a :: before), a', after. repeat split; auto.
      intros b [<- | Hin]; auto.
    + intros b [<- | Hin]; auto.
Qed.

Section RootProperties.
Context `{Host}.
Variable JSON_parse : string -> Roots.parsed.

Lemma getSkillsFolders_stored (w : World) (folders : list Roots.StoredFolder) :
  JSON_parse (Roots.JSON_stringify folders) = Roots.IsArray folders ->
  Roots.getSkillsFolders JSON_parse (Roots.store w folders) = folders.
Proof.
  intros R. unfold Roots.getSkillsFolders, Roots.store, setStorage. cbn [localStorage].
  rewrite lookup_insert_eq.
  change (nonEmpty (Roots.JSON_stringify folders)) with true. cbn iota. now rewrite R.
Qed.

Lemma resolved_folders_stored (w : World) (folders : list Roots.StoredFolder) :
  JSON_parse_folders (Roots.JSON_stringify folders)
  = FoldersArray (map Roots.resolved folders) ->
  getSkillsFolders (Roots.store w folders) = map Roots.resolved folders.
Proof.
  intros R. unfold getSkillsFolders, Roots.store, setStorage. cbn [localStorage].
  rewrite lookup_insert_eq.
  change (nonEmpty (Roots.JSON_stringify folders)) with true. cbn iota. now rewrite R.
Qed.

(** After [setSkillsFolderPath] the path given is the only root, whatever
    the roots were: the listing looks there and nowhere else, and
    [createSkill] writes there.  (The host reads back the array that is
    stored.) *)
Theorem setSkillsFolderPath_leaves_one_root (w : World) (folderPath : string) :
  let folders := [Roots.mkStoredFolder folderPath None] in
  JSON_parse (Roots.JSON_stringify folders) = Roots.IsArray folders ->
  JSON_parse_folders (Roots.JSON_stringify folders)
  = FoldersArray (map Roots.resolved folders) ->
  let w' := Roots.setSkillsFolderPath w folderPath in
  Roots.getSkillsFolders JSON_parse w' = folders
  /\ getSkillsFolderPaths w' = [parsePath folderPath]
  /\ targetFolder w' None = parsePath folderPath
  /\ fs w' = fs w.
Proof.
  intros folders R R' w'.
  assert (E : getSkillsFolderPaths w' = [parsePath folderPath]).
  { unfold getSkillsFolderPaths, w', Roots.setSkillsFolderPath.
    now rewrite (resolved_folders_stored _ _ R'). }
  split; [now apply getSkillsFolders_stored|]. split; [exact E|].
  split; [|reflexivity].
  unfold targetFolder, getSkillsFolderPath. now rewrite E.
Qed.

(** [addSkillsFolderPath] changes nothing when a root has the path given
    (whatever the label); otherwise the new root goes after the ones there
    are, which keep their order, and so their priority in the listing.
    Either way the path is a root afterwards, and adding it once more
    changes nothing.  The roots there are include the default one when
    nothing is stored: the first addition stores it in front of the new
    root. *)
Theorem addSkillsFolderPath_appends_a_new_path (w : World) (folderPath : string)
    (label : option string) :
  let folders := Roots.getSkillsFolders JSON_parse w in
  let added := folders ++ [Roots.mkStoredFolder folderPath label] in
  JSON_parse (Roots.JSON_stringify added) = Roots.IsArray added ->
  let w' := Roots.addSkillsFolderPath JSON_parse w folderPath label in
  (In folderPath (Roots.getSkillsFolderPaths JSON_parse w) -> w' = w)
  /\ (~ In folderPath (Roots.getSkillsFolderPaths JSON_parse w) ->
      Roots.getSkillsFolders JSON_parse w' = added)
  /\ In folderPath (Roots.getSkillsFolderPaths JSON_parse w')
  /\ (forall label', Roots.addSkillsFolderPath JSON_parse w' folderPath label' = w')
  /\ fs w' = fs w.
Proof.
  intros folders added R w'.
  unfold Roots.getSkillsFolderPaths. fold folders.
  pose proof (find_hasPath_none folderPath folders) as Fn.
  assert (Hin : In folderPath (map Roots.stored_path folders) -> w' = w).
  { intros Hin. unfold w', Roots.addSkillsFolderPath. fold folders.
    destruct (List.find (Roots.hasPath folderPath) folders); [reflexivity|].
    now apply Fn in Hin. }
  assert (Hout : ~ In folderPath (map Roots.stored_path folders) ->
                 Roots.getSkillsFolders JSON_parse w' = added).
  { intros Hn. apply Fn in Hn. unfold w', Roots.addSkillsFolderPath. fold folders.
    rewrite Hn. now apply getSkillsFolders_stored. }
  assert (Hafter : In folderPath (map Roots.stored_path (Roots.getSkillsFolders JSON_parse w'))).
  { destruct (in_dec string_dec folderPath (map Roots.stored_path folders)) as [Hi|Hn].
    - now rewrite (Hin Hi).
    - rewrite (Hout Hn). unfold added. rewrite map_app, in_app_iff. right. now left. }
  split; [exact Hin|]. split; [exact Hout|]. split; [exact Hafter|]. split.
  - intros label'. unfold Roots.addSkillsFolderPath at 1.
    destruct (List.find (Roots.hasPath folderPath) (Roots.getSkillsFolders JSON_parse w'))
      eqn:F; [reflexivity|].
    now apply find_hasPath_none in F.
  - unfold w', Roots.addSkillsFolderPath.
    now destruct (List.find (Roots.hasPath folderPath) _).
Qed.

(** [removeSkillsFolderPath] stores the roots without those of the path
    given, the others in their order, so that the path is no root
    afterwards.  When no root is left, none is: the default root does not
    come back, the listing is empty, and [createSkill] without a root
    writes under the empty path. *)
Theorem removeSkillsFolderPath_removes_every_entry (w : World) (folderPath : string) :
  let remaining :=
    List.filter (fun f => negb (Roots.hasPath folderPath f))
      (Roots.getSkillsFolders JSON_parse w) in
  JSON_parse (Roots.JSON_stringify remaining) = Roots.IsArray remaining ->
  let w' := Roots.removeSkillsFolderPath JSON_parse w folderPath in
  Roots.getSkillsFolders JSON_parse w' = remaining
  /\ ~ In folderPath (Roots.getSkillsFolderPaths JSON_parse w')
  /\ fs w' = fs w
  /\ (remaining = [] ->
      JSON_parse_folders "[]" = FoldersArray [] ->
      getSkillsFolders w' = []
      /\ getAllSkills w' = []
      /\ targetFolder w' None = []).
Proof.
  intros remaining R w'.
  assert (E : Roots.getSkillsFolders JSON_parse w' = remaining)
    by now apply getSkillsFolders_stored.
  split; [exact E|]. split; [|split; [reflexivity|]].
  - unfold Roots.getSkillsFolderPaths. rewrite E. apply filter_hasPath_out.
  - intros Hempty R'.
    assert (G : getSkillsFolders w' = []).
    { unfold w', Roots.removeSkillsFolderPath. fold remaining. rewrite Hempty.
      now apply (resolved_folders_stored w []). }
    split; [exact G|].
    unfold getAllSkills, targetFolder, getSkillsFolderPath, getSkillsFolderPaths.
    rewrite G. split; reflexivity.
Qed.

(** [updateSkillsFolderPath] answers false and changes nothing when no root
    has the old path.  Otherwise it answers true and puts the new path and
    the label given (none when none is given) in the place of the first
    root with the old path; the other roots stay as they are, also one
    that has the new path already. *)
Theorem updateSkillsFolderPath_replaces_the_first_entry (w : World)
    (oldPath newPath : string) (label : option string) :
  (~ In oldPath (Roots.getSkillsFolderPaths JSON_parse w) ->
   Roots.updateSkillsFolderPath JSON_parse w oldPath newPath label = (w, false))
  /\ (forall before f after,
        Roots.getSkillsFolders JSON_parse w = before ++ f :: after ->
        Roots.stored_path f = oldPath ->
        ~ In oldPath (map Roots.stored_path before) ->
        let updated := before ++ Roots.mkStoredFolder newPath label :: after in
        JSON_parse (Roots.JSON_stringify updated) = Roots.IsArray updated ->
        exists w',
          Roots.updateSkillsFolderPath JSON_parse w oldPath newPath label = (w', true)
          /\ Roots.getSkillsFolders JSON_parse w' = updated
          /\ fs w' = fs w).
Proof.
  unfold Roots.updateSkillsFolderPath, Roots.getSkillsFolderPaths.
  pose proof (findIndex_first (Roots.hasPath oldPath) (Roots.getSkillsFolders JSON_parse w))
    as F.
  split.
  - intros Hn.
    destruct (Roots.findIndex _ _) as [i|]; [|reflexivity].
    destruct F as (before & a & after & E & _ & Ta & _). destruct Hn.
    rewrite E, map_app, in_app_iff. right. left.
    unfold Roots.hasPath in Ta. now apply String.eqb_eq in Ta.
  - intros before f after E Ef Hb R.
    set (updated := before ++ Roots.mkStoredFolder newPath label :: after) in *.
    rewrite E in F |- *.
    destruct (Roots.findIndex _ _) as [i|].
    + destruct F as (before' & a & after' & E' & Hi & Ta & Hb').
      assert (Eb : before' = before).
      { clear - E' Ta Hb' Ef Hb. revert before' E' Hb'.
        induction before as [|b before IH]; intros [|b' before'] E' Hb'.
        - reflexivity.
        - cbn [app] in E'. injection E' as -> _.
          specialize (Hb' b' (or_introl eq_refl)). unfold Roots.hasPath in Hb'.
          rewrite Ef, String.eqb_refl in Hb'. discriminate.
        - cbn [app] in E'. injection E' as -> _. destruct Hb. cbn [map In]. left.
          unfold Roots.hasPath in Ta. now apply String.eqb_eq in Ta.
        - cbn [app] in E'. injection E' as -> E'. f_equal.
          apply IH; [|exact E'|].
          + intros Hin. apply Hb. now right.
          + intros x Hx. apply Hb'. now right. }
      subst before'. apply app_inv_head in E'. injection E' as <- <-.
      eexists. split; [reflexivity|]. split; [|reflexivity].
      rewrite <- Hi.
      replace (<[length before := Roots.mkStoredFolder newPath label]> (before ++ f :: after))
        with updated.
      * now apply getSkillsFolders_stored.
      * unfold updated.
        replace (length before) with (length before + 0) by lia.
        now rewrite insert_app_r.
    + specialize (F f). unfold Roots.hasPath in F. rewrite Ef, String.eqb_refl in F.
      discriminate F. rewrite in_app_iff. right. now left.
Qed.

End RootProperties.

(** ** The tools *)

Lemma slugChar_no_slash (c : ascii) :
  isSlugChar c = true -> negb (Ascii.eqb c "/") = true.
Proof. each_ascii c; intros E; solve [reflexivity | discriminate E]. Qed.

(** A name that the pattern of the create tool accepts is one component of
    a path. *)
Lemma isSlug_isComponent (x : string) : isSlug x = true -> isComponent x = true.
Proof.
  unfold isSlug, isComponent. rewrite !andb_true_iff, !negb_true_iff.
  intros [Hne Hall]. repeat split.
  - exact Hne.
  - destruct x as [|c x]; [discriminate|]. cbn [Reference.allChars] in Hall.
    apply andb_true_iff in Hall. destruct Hall as [Hc _].
    apply String.eqb_neq. intros E. injection E as -> _. discriminate Hc.
  - destruct x as [|c x]; [discriminate|]. cbn [Reference.allChars] in Hall.
    apply andb_true_iff in Hall. destruct Hall as [Hc _].
    apply String.eqb_neq. intros E. injection E as -> _. discriminate Hc.
  - induction x as [|c x IH]; [reflexivity|]. cbn [Reference.allChars] in *.
    apply andb_true_iff in Hall. destruct Hall as [Hc Hx].
    rewrite (slugChar_no_slash _ Hc). cbn [andb].
    destruct x; [reflexivity|]. now apply IH.
Qed.

Section ToolProperties.
Context `{Host}.
Variable pathText : Path -> string.
Variable errorMessage : string.

(** The create tool never touches the stored settings and changes at most
    one file: the metadata document in the directory of the name given,
    directly under the first configured root.  When it changes anything,
    the name is made of the letters a to z, digits and hyphens and has at
    most 64 of them, the description and the content are not blank, the
    description has at most 1024 code units, and the document holds the
    header and the content of the input. *)
Theorem create_tool_writes_one_document_under_the_first_root (w : World)
    (input : CreateTool.Input) :
  let result := CreateTool.tool pathText errorMessage w input in
  let document := getSkillsFolderPath w ++ [CreateTool.in_name input; "SKILL.md"] in
  localStorage (fst result) = localStorage w
  /\ (forall q, q <> document -> readFileSync (fs (fst result)) q = readFileSync (fs w) q)
  /\ (fst result = w
      \/ (isSlug (CreateTool.in_name input) = true
          /\ String.length (CreateTool.in_name input) <= 64
          /\ isBlank (CreateTool.in_description input) = false
          /\ String.length (CreateTool.in_description input) <= 1024
          /\ isBlank (CreateTool.in_content input) = false
          /\ readFileSync (fs (fst result)) document
             = Some (createFrontmatter (CreateTool.in_name input)
                       (CreateTool.in_description input) (CreateTool.in_allowedTools input)
                       (CreateTool.in_model input)
                     +:+ CreateTool.in_content input))).
Proof.
  intros result document. unfold result, CreateTool.tool.
  destruct (isBlank (CreateTool.in_name input)); [cbn [fst]; auto|].
  destruct (isSlug (CreateTool.in_name input)) eqn:Slug; cbn [negb]; [|cbn [fst]; auto].
  destruct (64 <? String.length (CreateTool.in_name input)) eqn:L64; [cbn [fst]; auto|].
  destruct (isBlank (CreateTool.in_description input)) eqn:Bd; [cbn [fst]; auto|].
  destruct (1024 <? String.length (CreateTool.in_description input)) eqn:L1024;
    [cbn [fst]; auto|].
  destruct (isBlank (CreateTool.in_content input)) eqn:Bc; [cbn [fst]; auto|].
  destruct (createSkill w _ _ _ _ _ None) as [[w' skill]|] eqn:C; [|cbn [fst]; auto].
  cbn [fst].
  destruct (createSkill_effects _ _ _ _ _ _ _ _ _ C)
    as (Ep & Emd & R & Hothers & _ & Els).
  assert (Ed : skillMdPath skill = document).
  { rewrite Emd, Ep. unfold targetFolder.
    rewrite (path_join_simple _ _ (isSlug_isComponent _ Slug)).
    unfold document. now rewrite <- app_assoc. }
  rewrite Ed in *. split; [exact Els|]. split; [exact Hothers|]. right.
  apply Nat.ltb_ge in L64, L1024. auto 10.
Qed.

Lemma updateSkill_found (w : World) (identifier : string) (updates : SkillUpdates)
    (skill : ClaudeSkill) :
  findSkill w identifier = Some skill ->
  let merged := obj_spread (metadata skill) (updatesEntries updates) in
  let newContent :=
    match upd_content updates with Given c => c | _ => content skill end in
  exists w',
    updateSkill w identifier updates
    = Some (w', Some (mkSkill (name skill) (path skill) merged newContent
                        (supportingFiles skill) (skillMdPath skill)))
    /\ localStorage w' = localStorage w
    /\ readFileSync (fs w') (skillMdPath skill)
       = Some (updateFrontmatter merged +:+ newContent)
    /\ (forall q, q <> skillMdPath skill -> readFileSync (fs w') q = readFileSync (fs w) q).
Proof.
  intros F merged newContent.
  destruct (findSkill_listed _ _ _ F)
    as (document & folder & _ & _ & Emd & R & P & _ & _).
  assert (Rf : resolve (skillMdPath skill) (fs w) = Some (File document)).
  { unfold readFileSync in R.
    destruct (resolve (skillMdPath skill) (fs w)) as [[d|es]|]; congruence. }
  destruct (writeFileSync_existing (skillMdPath skill)
              (updateFrontmatter merged +:+ newContent) (fs w) document)
    as (root' & W & R'); [rewrite Emd, path_join_component; now destruct (path skill)|exact Rf|].
  exists (setFs w root'). unfold updateSkill.
  rewrite F, R, P. cbn [parsed_content]. fold merged. fold newContent.
  rewrite W. split; [reflexivity|]. split; [reflexivity|].
  split; [unfold readFileSync; cbn [fs setFs]; now rewrite R'|].
  apply (writeFileSync_others _ _ _ _ W).
Qed.

Lemma taken_description (description : option string) :
  descriptionTaken description = true ->
  match description with
  | Some d =>
      if Nat.eqb (String.length (JS.trim d)) 0 then
        Some (crossMark +:+ " Description cannot be empty.")
      else if 1024 <? String.length d then
        Some (crossMark
              +:+ " Description too long. Maximum 1024 characters allowed (currently "
              +:+ natToString (String.length d) +:+ " characters).")
      else None
  | None => None
  end = None.
Proof.
  destruct description as [d|]; [|reflexivity]. cbn [descriptionTaken].
  rewrite andb_true_iff, negb_true_iff. intros [-> L].
  apply Nat.leb_le in L. apply Nat.ltb_ge in L. now rewrite L.
Qed.

Lemma taken_content (content : option string) :
  contentTaken content = true ->
  match content with
  | Some c => Nat.eqb (String.length (JS.trim c)) 0
  | None => false
  end = false.
Proof.
  destruct content as [c|]; [|reflexivity]. cbn [contentTaken].
  now rewrite negb_true_iff.
Qed.

(** The edit tool that takes the four fields writes, for a skill it finds
    and fields it takes, the document that [createSkill] writes for the
    declared name and the fields of the input alone: an allowed-tools list
    or a model that is not given again is not written any more, and a
    description that is not given is written as the text undefined.  The
    body is the content given, else the current one. *)
Theorem edit_of_four_fields_rewrites_the_header_from_the_input (w : World)
    (input : EditFieldsTool.Input) (skill : ClaudeSkill) :
  isBlank (EditFieldsTool.in_name input) = false ->
  findSkill w (EditFieldsTool.in_name input) = Some skill ->
  descriptionTaken (EditFieldsTool.in_description input) = true ->
  contentTaken (EditFieldsTool.in_content input) = true ->
  let result := EditFieldsTool.tool errorMessage w input in
  readFileSync (fs (fst result)) (skillMdPath skill)
  = Some (createFrontmatter (toStr (obj_get (metadata skill) "name"))
            (shown (EditFieldsTool.in_description input))
            (EditFieldsTool.in_allowedTools input) (EditFieldsTool.in_model input)
          +:+ match EditFieldsTool.in_content input with
              | Some c => c
              | None => content skill
              end)
  /\ (forall q, q <> skillMdPath skill ->
                readFileSync (fs (fst result)) q = readFileSync (fs w) q)
  /\ exists changes,
       snd result
       = checkMark +:+ " Successfully updated Claude Code Skill " +:+ Q
         +:+ toStr (obj_get (metadata skill) "name") +:+ Q
         +:+ NL +:+ NL +:+ "Changes:" +:+ NL +:+ changes +:+ NL +:+ NL
         +:+ "Description: " +:+ shown (EditFieldsTool.in_description input)
         +:+ NL +:+ NL
         +:+ "The skill will use the updated content next time Claude invokes it.".
Proof.
  intros Bn F Td Tc result. unfold result, EditFieldsTool.tool.
  rewrite Bn, F, (taken_description _ Td), (taken_content _ Tc).
  destruct (updateSkill_found w _
              (mkUpdates (passed (EditFieldsTool.in_description input))
                 (passed (EditFieldsTool.in_content input))
                 (passed (EditFieldsTool.in_allowedTools input))
                 (passed (EditFieldsTool.in_model input))) skill F)
    as (w' & -> & _ & R & Hothers).
  cbn [fst snd metadata]. split; [|split; [exact Hothers|]].
  - rewrite R. f_equal. f_equal.
    + destruct input as [n [d|] [c|] [t|] [m|]];
        cbn [EditFieldsTool.in_description EditFieldsTool.in_content
             EditFieldsTool.in_allowedTools EditFieldsTool.in_model
             passed updatesEntries optionalEntry upd_description upd_content
             upd_allowedTools upd_model app shown];
        unfold updateFrontmatter, createFrontmatter, obj_spread; cbn [fold_left fst snd];
        rewrite ?obj_get_set_other by discriminate;
        rewrite ?obj_get_set;
        rewrite ?obj_get_set_other by discriminate;
        rewrite ?obj_get_set;
        rewrite ?obj_get_set_other by discriminate;
        rewrite ?obj_get_set;
        rewrite ?obj_get_set_other by discriminate;
        rewrite ?obj_get_set;
        reflexivity.
    + now destruct (EditFieldsTool.in_content input).
  - destruct (spread_updates (metadata skill)
                (mkUpdates (passed (EditFieldsTool.in_description input))
                   (passed (EditFieldsTool.in_content input))
                   (passed (EditFieldsTool.in_allowedTools input))
                   (passed (EditFieldsTool.in_model input)))) as (Gn & Gd & _).
    cbn zeta in Gn. rewrite Gn.
    assert (Ed : toStr (obj_get
                          (obj_spread (metadata skill)
                             (updatesEntries
                                (mkUpdates (passed (EditFieldsTool.in_description input))
                                   (passed (EditFieldsTool.in_content input))
                                   (passed (EditFieldsTool.in_allowedTools input))
                                   (passed (EditFieldsTool.in_model input)))))
                          "description")
                 = shown (EditFieldsTool.in_description input)).
    { destruct input as [n [d|] [c|] [t|] [m|]];
        cbn [EditFieldsTool.in_description EditFieldsTool.in_content
             EditFieldsTool.in_allowedTools EditFieldsTool.in_model
             passed updatesEntries optionalEntry upd_description upd_content
             upd_allowedTools upd_model app shown];
        unfold obj_spread; cbn [fold_left fst snd];
        rewrite ?obj_get_set_other by discriminate;
        rewrite ?obj_get_set; reflexivity. }
    rewrite Ed. eexists. reflexivity.
Qed.

End ToolProperties.

Section EditToolProperties.
Context `{Host}.
Variable pathText : Path -> string.
Variable errorMessage : string.

(** The edit tool, for a skill it finds and fields it takes, rewrites the
    metadata document with the current name, allowed tools and model, with
    the description given, and with the content given or else the current
    body.  The description is passed on also when none is given: the
    header then holds the text undefined for it, and so does the answer of
    the tool.  The allowed tools are written, in JSON, whenever the current
    value has a length above zero, be it an array of strings or not; the
    model is written whenever the current value is not empty.  No other
    file changes. *)
Theorem edit_tool_rewrites_the_description_line (w : World) (input : EditTool.Input)
    (skill : ClaudeSkill) :
  isBlank (EditTool.in_name input) = false ->
  findSkill w (EditTool.in_name input) = Some skill ->
  descriptionTaken (EditTool.in_description input) = true ->
  contentTaken (EditTool.in_content input) = true ->
  let result := EditTool.tool errorMessage w input in
  let current := metadata skill in
  readFileSync (fs (fst result)) (skillMdPath skill)
  = Some (updateFrontmatter
            [("name", obj_get current "name");
             ("description", optionalValue VStr (EditTool.in_description input));
             ("allowedTools", obj_get current "allowedTools");
             ("model", obj_get current "model")]
          +:+ match EditTool.in_content input with
              | Some c => c
              | None => content skill
              end)
  /\ updateFrontmatter
       [("name", obj_get current "name");
        ("description", optionalValue VStr (EditTool.in_description input));
        ("allowedTools", obj_get current "allowedTools");
        ("model", obj_get current "model")]
     = "---" +:+ NL +:+ "name: " +:+ toStr (obj_get current "name") +:+ NL
       +:+ "description: " +:+ shown (EditTool.in_description input)
       +:+ (if hasLength (obj_get current "allowedTools")
            then NL +:+ "allowed-tools: " +:+ stringifyValue (obj_get current "allowedTools")
            else EmptyString)
       +:+ (if truthy (obj_get current "model")
            then NL +:+ "model: " +:+ toStr (obj_get current "model")
            else EmptyString)
       +:+ NL +:+ "---" +:+ NL +:+ NL
  /\ (forall q, q <> skillMdPath skill ->
                readFileSync (fs (fst result)) q = readFileSync (fs w) q)
  /\ exists changes,
       snd result
       = checkMark +:+ " Successfully updated Claude Code Skill " +:+ Q
         +:+ toStr (obj_get current "name") +:+ Q
         +:+ NL +:+ NL +:+ "Changes:" +:+ NL +:+ changes +:+ NL +:+ NL
         +:+ "Description: " +:+ shown (EditTool.in_description input)
         +:+ NL +:+ NL
         +:+ "The skill will use the updated content next time Claude invokes it.".
Proof.
  intros Bn F Td Tc result current. unfold result, EditTool.tool.
  rewrite Bn, F, (taken_description _ Td), (taken_content _ Tc).
  set (updates := mkUpdates (passed (EditTool.in_description input))
                    (passed (EditTool.in_content input)) Absent Absent).
  destruct (updateSkill_found w _ updates skill F) as (w' & -> & _ & R & Hothers).
  destruct (spread_updates (metadata skill) updates) as (Gn & _ & Gt & Gm & _).
  cbn zeta in Gn. cbn [mergedAs upd_allowedTools upd_model updates] in Gt, Gm.
  fold current in Gn, Gt, Gm.
  assert (Gd : obj_get (obj_spread current (updatesEntries updates)) "description"
               = optionalValue VStr (EditTool.in_description input)).
  { unfold updates. destruct input as [n [d|] [c|]];
      cbn [EditTool.in_description EditTool.in_content passed updatesEntries
           optionalEntry upd_description upd_content upd_allowedTools upd_model app
           optionalValue];
      unfold obj_spread; cbn [fold_left fst snd];
      rewrite ?obj_get_set_other by discriminate;
      rewrite ?obj_get_set; reflexivity. }
  assert (Es : toStr (optionalValue VStr (EditTool.in_description input))
               = shown (EditTool.in_description input))
    by now destruct (EditTool.in_description input).
  cbn [fst snd metadata]. fold current. split; [|split; [|split; [exact Hothers|]]].
  - rewrite R. f_equal. f_equal.
    + apply updateFrontmatter_well_known. intros k Hk. cbn [wellKnownKeys In] in Hk.
      destruct Hk as [<- | [<- | [<- | [<- | []]]]]; cbn [obj_get String.eqb];
        cbn; auto.
    + unfold updates. cbn [upd_content]. now destruct (EditTool.in_content input).
  - rewrite updateFrontmatter_text.
    change (obj_get [("name", obj_get current "name");
                     ("description", optionalValue VStr (EditTool.in_description input));
                     ("allowedTools", obj_get current "allowedTools");
                     ("model", obj_get current "model")] "name")
      with (obj_get current "name").
    change (obj_get [("name", obj_get current "name");
                     ("description", optionalValue VStr (EditTool.in_description input));
                     ("allowedTools", obj_get current "allowedTools");
                     ("model", obj_get current "model")] "description")
      with (optionalValue VStr (EditTool.in_description input)).
    change (obj_get [("name", obj_get current "name");
                     ("description", optionalValue VStr (EditTool.in_description input));
                     ("allowedTools", obj_get current "allowedTools");
                     ("model", obj_get current "model")] "allowedTools")
      with (obj_get current "allowedTools").
    change (obj_get [("name", obj_get current "name");
                     ("description", optionalValue VStr (EditTool.in_description input));
                     ("allowedTools", obj_get current "allowedTools");
                     ("model", obj_get current "model")] "model")
      with (obj_get current "model").
    now rewrite Es.
  - rewrite Gn, Gd, Es. eexists. reflexivity.
Qed.

(** The confirmation and the tool check the same things: when no
    confirmation is shown, the tool refuses and changes nothing; when one
    is shown, it names the skill found, the update is made and the tool
    answers that it succeeded. *)
Theorem edit_tool_succeeds_exactly_when_confirmed (w : World) (input : EditTool.Input) :
  match EditTool.confirmation pathText w input with
  | None =>
      exists reason, EditTool.tool errorMessage w input = (w, crossMark +:+ reason)
  | Some shownConfirmation =>
      exists skill w' updated text,
        findSkill w (EditTool.in_name input) = Some skill
        /\ EditTool.message shownConfirmation
           = "Update Claude Code Skill " +:+ Q +:+ toStr (obj_get (metadata skill) "name")
             +:+ Q +:+ "?"
        /\ updateSkill w (EditTool.in_name input)
             (mkUpdates (passed (EditTool.in_description input))
                (passed (EditTool.in_content input)) Absent Absent)
           = Some (w', Some updated)
        /\ EditTool.tool errorMessage w input = (w', checkMark +:+ text)
  end.
Proof.
  unfold EditTool.confirmation, EditTool.tool.
  destruct (isBlank (EditTool.in_name input)); [eexists; reflexivity|].
  destruct (findSkill w (EditTool.in_name input)) as [skill|] eqn:F;
    [|eexists; reflexivity].
  destruct (EditTool.in_description input) as [d|] eqn:Ed.
  - destruct (Nat.eqb (String.length (JS.trim d)) 0); cbn [orb]; [eexists; reflexivity|].
    destruct (1024 <? String.length d); [eexists; reflexivity|].
    destruct (EditTool.in_content input) as [c|] eqn:Ec.
    + destruct (Nat.eqb (String.length (JS.trim c)) 0); [eexists; reflexivity|].
      destruct (updateSkill_found w _ (mkUpdates (passed (Some d)) (passed (Some c))
                                         Absent Absent) skill F)
        as (w' & U & _).
      rewrite U. exists skill. do 3 eexists. repeat split; reflexivity.
    + destruct (updateSkill_found w _ (mkUpdates (passed (Some d)) (passed None)
                                         Absent Absent) skill F)
        as (w' & U & _).
      rewrite U. exists skill. do 3 eexists. repeat split; reflexivity.
  - destruct (EditTool.in_content input) as [c|] eqn:Ec.
    + destruct (Nat.eqb (String.length (JS.trim c)) 0); [eexists; reflexivity|].
      destruct (updateSkill_found w _ (mkUpdates (passed None) (passed (Some c))
                                         Absent Absent) skill F)
        as (w' & U & _).
      rewrite U. exists skill. do 3 eexists. repeat split; reflexivity.
    + destruct (updateSkill_found w _ (mkUpdates (passed None) (passed None)
                                         Absent Absent) skill F)
        as (w' & U & _).
      rewrite U. exists skill. do 3 eexists. repeat split; reflexivity.
Qed.

End EditToolProperties.

Section ListingCompleteness.
Context `{Host}.

(** When the listing completes, it holds a record for every directory of a
    configured root whose metadata document parses to a mapping with a name
    and a description: the record has the name of the directory, the
    metadata and the body read in the document. *)
Theorem valid_directory_is_listed (w : World) (folder : Path)
    (dirName document body : string) (o : obj) :
  listingCompletes w ->
  In folder (getSkillsFolderPaths w) ->
  isComponent dirName = true ->
  readFileSync (fs w) (folder ++ [dirName; "SKILL.md"]) = Some document ->
  parseSkillMarkdown document = Some (mkParsed (YMap o) body) ->
  truthy (obj_get o "name") = true ->
  truthy (obj_get o "description") = true ->
  exists s,
    In s (getAllSkills w)
    /\ name s = dirName
    /\ path s = folder ++ [dirName]
    /\ skillMdPath s = folder ++ [dirName; "SKILL.md"]
    /\ metadata s = o
    /\ content s = body.
Proof.
  intros Hc Hf Hd R P Tn Td. unfold listingCompletes in Hc. unfold getAllSkills.
  destruct (forEach (visitFolder (fs w)) (getSkillsFolderPaths w) []) as [skills|] eqn:L;
    [|congruence].
  pose proof (path_join_simple folder dirName Hd) as Pj.
  assert (Rs : resolve (path_join folder dirName ++ ["SKILL.md"]) (fs w)
               = Some (File document)).
  { rewrite Pj, <- app_assoc. unfold readFileSync in R. cbn [app].
    destruct (resolve (folder ++ [dirName; "SKILL.md"]) (fs w)) as [[d|es]|]; congruence. }
  destruct (listing_holds (fs w) _ _ folder dirName document body o L Hf Rs Pj P Tn Td)
    as [supporting Hin].
  eexists. split; [exact Hin|]. cbn [name path skillMdPath metadata content].
  rewrite Pj, <- app_assoc. auto.
Qed.

End ListingCompleteness.

Section RouterAnswers.
Context `{Host}.

(** Whatever the classification service answers, the router returns one
    of four texts: the setup guidance, the text for no enabled skill, the
    no-match guidance over the enabled skills, or the instructions of a
    skill that is enabled.  A skill that is not enabled is never
    returned, also when the service names it. *)
Theorem router_answers_with_an_enabled_skill (w : World) (request : string)
    (oracle : string -> option string -> option string) :
  let answer := snd (run oracle (tool w request)) in
  answer = Returned setupRequiredMessage
  \/ answer = Returned noSkillsEnabledMessage
  \/ answer = Returned (formatNoMatchMessage (getEnabledSkillObjects w))
  \/ exists skill,
       In skill (getEnabledSkillObjects w)
       /\ isSkillEnabled w (name skill) = true
       /\ answer = Returned (formatSkillResponse skill).
Proof.
  intros answer. unfold answer.
  destruct (tool w request) as [[text|]|prompt model k] eqn:E.
  - cbn [run snd]. revert E. unfold tool.
    destruct (getRoutingModel w); [|intros E; injection E as <-; auto].
    destruct (Nat.eqb (length (getEnabledSkillObjects w)) 0); [|discriminate].
    intros E. injection E as <-. auto.
  - exfalso. revert E. unfold tool.
    destruct (getRoutingModel w); [|discriminate].
    destruct (Nat.eqb (length (getEnabledSkillObjects w)) 0); discriminate.
  - destruct (tool_asks _ _ _ _ _ E) as [_ Hk].
    cbn [run]. rewrite Hk. cbn [run snd]. unfold respond.
    destruct (match oracle prompt model with
              | Some r => readResponse r
              | None => None
              end) as [selected|]; [|auto].
    destruct (negb (nonEmpty selected)); [auto|].
    destruct (List.find (matchesSkill selected) (getEnabledSkillObjects w)) as [skill|] eqn:F;
      [|auto].
    apply find_some in F. destruct F as [Hin _].
    right. right. right. exists skill. split; [exact Hin|]. split; [|reflexivity].
    unfold getEnabledSkillObjects in Hin. apply filter_In in Hin. apply Hin.
Qed.

End RouterAnswers.

(** ** The keys of the metadata in camel case *)

Lemma kebabToCamel_cons (a : ascii) (t : string) :
  Ascii.eqb a "-" = false -> JS.kebabToCamel (String a t) = String a (JS.kebabToCamel t).
Proof. intros E. destruct t; cbn [JS.kebabToCamel]; rewrite ?E; reflexivity. Qed.

Lemma upper_not_lower (c : ascii) : JS.isLower c = true -> JS.isLower (JS.upperChar c) = false.
Proof. each_ascii c; intros E; solve [reflexivity | discriminate E]. Qed.

Lemma upper_not_hyphen (c : ascii) :
  JS.isLower c = true -> Ascii.eqb (JS.upperChar c) "-" = false.
Proof. each_ascii c; intros E; solve [reflexivity | discriminate E]. Qed.

Lemma kebabToCamel_head (c : ascii) (rest : string) :
  JS.isLower c = false ->
  exists c' rest', JS.kebabToCamel (String c rest) = String c' rest' /\ JS.isLower c' = false.
Proof.
  intros Hc. destruct rest as [|d rest]; [now exists c, EmptyString|].
  cbn [JS.kebabToCamel]. destruct (Ascii.eqb c "-" && JS.isLower d) eqn:E.
  - apply andb_true_iff in E. destruct E as [_ Hd].
    eexists _, _. split; [reflexivity|]. now apply upper_not_lower.
  - eexists _, _. split; [reflexivity|exact Hc].
Qed.

(** The text that the replacement leaves holds no hyphen before a small
    letter: replacing again changes nothing. *)
Lemma kebabToCamel_idempotent (s : string) :
  JS.kebabToCamel (JS.kebabToCamel s) = JS.kebabToCamel s.
Proof.
  remember (String.length s) as n eqn:En.
  assert (Hn : String.length s <= n) by lia. clear En.
  revert s Hn. induction n as [|n IH]; intros s Hn.
  - destruct s; [reflexivity|cbn [String.length] in Hn; lia].
  - destruct s as [|a [|c rest]]; [reflexivity|reflexivity|].
    cbn [String.length] in Hn.
    change (JS.kebabToCamel (String a (String c rest)))
      with (if Ascii.eqb a "-" && JS.isLower c
            then String (JS.upperChar c) (JS.kebabToCamel rest)
            else String a (JS.kebabToCamel (String c rest))).
    destruct (Ascii.eqb a "-") eqn:Ea; cbn [andb].
    + destruct (JS.isLower c) eqn:Hc.
      * rewrite (kebabToCamel_cons _ _ (upper_not_hyphen _ Hc)).
        rewrite IH by lia. reflexivity.
      * destruct (kebabToCamel_head c rest Hc) as (c' & rest' & E & Hc').
        assert (I : JS.kebabToCamel (JS.kebabToCamel (String c rest))
                    = JS.kebabToCamel (String c rest))
          by (apply IH; cbn [String.length]; lia).
        rewrite E in I |- *.
        change (JS.kebabToCamel (String a (String c' rest')))
          with (if Ascii.eqb a "-" && JS.isLower c'
                then String (JS.upperChar c') (JS.kebabToCamel rest')
                else String a (JS.kebabToCamel (String c' rest'))).
        rewrite Hc', andb_false_r. now rewrite I.
    + rewrite (kebabToCamel_cons _ _ Ea). rewrite IH by (cbn [String.length]; lia).
      reflexivity.
Qed.

(** One turn of the loop over the keys. *)
Lemma camel_turn_other (m : obj) (key x : string) :
  JS.kebabToCamel key <> x ->
  obj_get (obj_set m (JS.kebabToCamel key) (obj_get m key)) x = obj_get m x.
Proof. intros Hne. apply obj_get_set_other. congruence. Qed.

Lemma camel_loop_keeps (keys : list string) (k : string) :
  (forall k', In k' keys -> JS.kebabToCamel k' = k -> k' = k) ->
  forall m,
    obj_get (fold_left (fun m key => obj_set m (JS.kebabToCamel key) (obj_get m key)) keys m) k
    = obj_get m k.
Proof.
  induction keys as [|key keys IH]; intros Hk m; [reflexivity|].
  cbn [fold_left]. rewrite IH by (intros k' Hin; apply Hk; now right).
  destruct (string_dec (JS.kebabToCamel key) k) as [E|Hne].
  - pose proof (Hk key (or_introl eq_refl) E) as Ek. subst key. rewrite E.
    apply obj_get_set.
  - now apply camel_turn_other.
Qed.

Lemma camel_loop_settled (keys : list string) (k : string) (v : value) :
  (forall k', In k' keys -> JS.kebabToCamel k' = JS.kebabToCamel k ->
              k' = k \/ k' = JS.kebabToCamel k) ->
  forall m,
    obj_get m (JS.kebabToCamel k) = v -> obj_get m k = v ->
    let m' := fold_left (fun m key => obj_set m (JS.kebabToCamel key) (obj_get m key))
                keys m in
    obj_get m' (JS.kebabToCamel k) = v /\ obj_get m' k = v.
Proof.
  induction keys as [|key keys IH]; intros Hk m Ht Hv; [cbn; auto|].
  cbn [fold_left]. apply IH; [intros k' Hin; apply Hk; now right| |].
  - destruct (string_dec (JS.kebabToCamel key) (JS.kebabToCamel k)) as [E|Hne].
    + rewrite E, obj_get_set.
      destruct (Hk key (or_introl eq_refl) E) as [-> | ->]; assumption.
    + now rewrite camel_turn_other.
  - destruct (string_dec (JS.kebabToCamel key) k) as [E|Hne].
    + assert (Et : JS.kebabToCamel k = k)
        by (rewrite <- E at 1; rewrite kebabToCamel_idempotent; exact E).
      rewrite E, obj_get_set.
      destruct (Hk key (or_introl eq_refl) ltac:(congruence)) as [-> | ->];
        [assumption|now rewrite Et].
    + now rewrite camel_turn_other.
Qed.

(** The loop of [parseSkillMarkdown] over the keys of a mapping leaves
    every key with its value and makes the value readable under the
    camel-case form of the key too, as soon as no other key (but that
    camel-case form itself) has the same camel-case form.  So when a
    mapping holds a hyphenated key and its camel-case twin, the value of
    the hyphenated key is the one read under both, whichever comes
    first. *)
Theorem hyphenated_keys_are_read_in_camel_case (o : obj) (k : string) :
  In k (obj_keys o) ->
  (forall k', In k' (obj_keys o) -> JS.kebabToCamel k' = JS.kebabToCamel k ->
              k' = k \/ k' = JS.kebabToCamel k) ->
  exists read,
    camelCaseMetadata (YMap o) = Some (YMap read)
    /\ obj_get read (JS.kebabToCamel k) = obj_get o k
    /\ obj_get read k = obj_get o k.
Proof.
  intros Hin Hk. eexists. split; [reflexivity|].
  destruct (in_split _ _ Hin) as (l1 & l2 & E). rewrite E in Hk |- *.
  rewrite fold_left_app. cbn [fold_left].
  set (m1 := fold_left _ l1 o).
  assert (K1 : obj_get m1 k = obj_get o k).
  { apply camel_loop_keeps. intros k' Hin' E'.
    assert (Et : JS.kebabToCamel k = k)
      by (rewrite <- E'; apply kebabToCamel_idempotent).
    destruct (Hk k') as [Ek | Ek];
      [rewrite in_app_iff; now left | congruence | exact Ek | congruence]. }
  apply camel_loop_settled.
  - intros k' Hin'. apply Hk. rewrite in_app_iff. right. now right.
  - rewrite obj_get_set. exact K1.
  - destruct (string_dec (JS.kebabToCamel k) k) as [Et|Hne].
    + rewrite Et, obj_get_set. exact K1.
    + rewrite obj_get_set_other by congruence. exact K1.
Qed.

(** ** The texts of the roots and their resolved forms *)

Lemma splitSlash_not_nil (s : string) : splitSlash s <> [].
Proof.
  destruct s as [|c s]; cbn [splitSlash]; [discriminate|].
  destruct (Ascii.eqb c "/"); [discriminate|]. now destruct (splitSlash s).
Qed.

Lemma splitSlash_app_slash (a b : string) :
  splitSlash (a +:+ String "/" b) = splitSlash a ++ splitSlash b.
Proof.
  induction a as [|c a IH]; [reflexivity|].
  cbn [String.append splitSlash]. rewrite IH.
  destruct (Ascii.eqb c "/"); [reflexivity|].
  pose proof (splitSlash_not_nil a). now destruct (splitSlash a).
Qed.

Lemma splitSlash_no_slash (s : string) :
  Forall (fun c => Reference.allChars (fun c => negb (Ascii.eqb c "/")) c = true)
    (splitSlash s).
Proof.
  induction s as [|c s IH]; cbn [splitSlash]; [repeat constructor|].
  destruct (Ascii.eqb c "/") eqn:E; [constructor; [reflexivity|exact IH]|].
  pose proof (splitSlash_not_nil s).
  destruct (splitSlash s) as [|h t]; [congruence|].
  inversion IH as [|? ? Hh Ht]; subst. constructor; [|exact Ht].
  cbn [Reference.allChars]. now rewrite E.
Qed.

(** The segments that the normalisation has kept: double dots in front,
    then the components of the resolved path. *)
Lemma normalize_resolves (allowAboveRoot : bool) (segments : list string) :
  Forall (fun c => Reference.allChars (fun c => negb (Ascii.eqb c "/")) c = true) segments ->
  forall (k : nat) (p : Path),
    Forall (fun c => isComponent c = true) p ->
    (allowAboveRoot = false -> k = 0) ->
    exists k',
      fold_left (Roots.normalizeStep allowAboveRoot) segments (repeat ".." k ++ p)
      = repeat ".." k' ++ fold_left pushComponent segments p
      /\ Forall (fun c => isComponent c = true) (fold_left pushComponent segments p)
      /\ (allowAboveRoot = false -> k' = 0).
Proof.
  induction segments as [|seg segments IH]; intros Hs k p Hp Hk; [now exists k|].
  inversion Hs as [|? ? Hseg Hs']; subst. cbn [fold_left].
  unfold Roots.normalizeStep at 2. unfold pushComponent at 2 4.
  destruct (String.eqb seg "" || String.eqb seg ".") eqn:E1; [now apply IH|].
  destruct (String.eqb seg "..") eqn:E2.
  - destruct p as [|c p] using rev_ind.
    + rewrite app_nil_r. cbn [removelast].
      destruct k as [|k].
      * cbn [repeat Roots.lastSegment].
        destruct allowAboveRoot.
        -- apply (IH Hs' 1 []); [constructor|discriminate].
        -- apply (IH Hs' 0 []); [constructor|reflexivity].
      * assert (L : Roots.lastSegment (repeat ".." (S k)) = Some "..").
        { clear. induction k as [|k IHk]; [reflexivity|].
          change (repeat ".." (S (S k))) with (".." :: repeat ".." (S k)).
          cbn [Roots.lastSegment]. exact IHk. }
        rewrite L. cbn [String.eqb Ascii.eqb Bool.eqb].
        destruct allowAboveRoot; [|now specialize (Hk eq_refl)].
        replace (repeat ".." (S k) ++ [".."]) with (repeat ".." (S (S k)) ++ @nil string).
        -- apply (IH Hs' (S (S k)) []); [constructor|discriminate].
        -- rewrite app_nil_r. change [".."] with (repeat ".." 1).
           rewrite <- repeat_app. f_equal. lia.
    + clear IHp. rewrite removelast_last.
      apply Forall_app in Hp. destruct Hp as [Hp Hc]. inversion Hc as [|? ? Hc' _]; subst.
      assert (L : Roots.lastSegment (repeat ".." k ++ p ++ [c]) = Some c).
      { rewrite app_assoc. generalize (repeat ".." k ++ p). clear.
        intros l. induction l as [|a l IHl]; [reflexivity|].
        cbn [app Roots.lastSegment]. rewrite IHl. now destruct (l ++ [c]). }
      rewrite L.
      assert (Ec : String.eqb c ".." = false).
      { unfold isComponent in Hc'. rewrite !andb_true_iff, !negb_true_iff in Hc'. tauto. }
      rewrite Ec, app_assoc, removelast_last. now apply IH.
  - rewrite <- app_assoc. apply IH; [exact Hs'| |exact Hk].
    apply Forall_app. split; [exact Hp|]. constructor; [|constructor].
    unfold isComponent. apply orb_false_elim in E1. destruct E1 as [E0 E1].
    rewrite E1, E2, Hseg. destruct seg; [discriminate|reflexivity].
Qed.

Lemma fold_pushComponent_kept (k : nat) (p : Path) :
  Forall (fun c => isComponent c = true) p ->
  fold_left pushComponent (repeat ".." k ++ p) [] = p.
Proof.
  intros Hp. rewrite fold_left_app, fold_pushComponent_dots by (cbn; lia).
  now rewrite fold_pushComponent_components.
Qed.

Lemma kept_no_slash (k : nat) (p : Path) :
  Forall (fun c => isComponent c = true) p ->
  Forall (fun c => Reference.allChars (fun c => negb (Ascii.eqb c "/")) c = true)
    (repeat ".." k ++ p).
Proof.
  intros Hp. apply Forall_app. split.
  - apply List.Forall_forall. intros x Hx. apply repeat_spec in Hx. now subst x.
  - eapply List.Forall_impl; [|exact Hp]. intros c Hc. unfold isComponent in Hc.
    rewrite !andb_true_iff in Hc. tauto.
Qed.

Lemma join_kept_nonEmpty (l : list string) :
  l <> [] -> Forall (fun c => nonEmpty c = true) l -> nonEmpty (JS.join "/" l) = true.
Proof.
  unfold JS.join. destruct l as [|c [|d l]]; intros Hne Hl; [congruence| |];
    inversion Hl as [|? ? Hc _]; subst; cbn [String.concat].
  - exact Hc.
  - destruct c; [discriminate|reflexivity].
Qed.

(** Normalising a path text does not change the directory it names. *)
Lemma parsePath_normalize (p : string) : parsePath (Roots.normalize p) = parsePath p.
Proof.
  unfold Roots.normalize. destruct p as [|c0 p0] eqn:Ep; [reflexivity|]. cbn [nonEmpty negb].
  rewrite <- Ep. set (isAbsolute := JS.startsWith p "/").
  destruct (normalize_resolves (negb isAbsolute) (splitSlash p) (splitSlash_no_slash p)
              0 [] ltac:(constructor) ltac:(reflexivity)) as (k & E & Hc & Hk).
  cbn [repeat app] in E. rewrite E.
  unfold parsePath at 2. unfold path_join.
  set (comps := fold_left pushComponent (splitSlash p) []) in *.
  destruct (repeat ".." k ++ comps) as [|s0 l0] eqn:El.
  - cbn. apply app_eq_nil in El. destruct El as [_ ->].
    destruct isAbsolute; [reflexivity|]. now destruct (Roots.endsWithSlash p).
  - rewrite <- El.
    assert (Hne : nonEmpty (JS.join "/" (repeat ".." k ++ comps)) = true).
    { apply join_kept_nonEmpty; [rewrite El; discriminate|].
      apply Forall_app. split.
      - apply List.Forall_forall. intros x Hx. apply repeat_spec in Hx. now subst x.
      - eapply List.Forall_impl; [|exact Hc]. intros c Hcc. unfold isComponent in Hcc.
        rewrite !andb_true_iff in Hcc. tauto. }
    rewrite Hne. cbn [negb].
    assert (S1 : splitSlash (JS.join "/" (repeat ".." k ++ comps)) = repeat ".." k ++ comps).
    { apply splitSlash_join; [rewrite El; discriminate|now apply kept_no_slash]. }
    assert (S2 : fold_left pushComponent
                   (splitSlash (JS.join "/" (repeat ".." k ++ comps)
                                +:+ (if Roots.endsWithSlash p then "/" else EmptyString))) []
                 = comps).
    { destruct (Roots.endsWithSlash p).
      - rewrite splitSlash_app_slash, S1, fold_left_app, fold_pushComponent_kept by exact Hc.
        reflexivity.
      - rewrite append_nil_r, S1. now apply fold_pushComponent_kept. }
    unfold parsePath, path_join. destruct isAbsolute; [|exact S2].
    change ("/" +:+ ?x) with (String "/" x). cbn [splitSlash Ascii.eqb Bool.eqb fold_left].
    exact S2.
Qed.

Lemma parsePath_join_home (homeDir : string) :
  parsePath (Roots.join [homeDir; ".claude"; "skills"])
  = path_join (path_join (parsePath homeDir) ".claude") "skills".
Proof.
  unfold Roots.join. cbn [List.filter nonEmpty].
  destruct homeDir as [|c h] eqn:Eh; cbn [nonEmpty].
  - reflexivity.
  - rewrite <- Eh. rewrite parsePath_normalize. unfold JS.join. cbn [String.concat].
    unfold parsePath, path_join.
    change (homeDir +:+ "/" +:+ ".claude" +:+ "/" +:+ "skills")
      with (homeDir +:+ String "/" (".claude" +:+ String "/" "skills")).
    rewrite splitSlash_app_slash, fold_left_app. reflexivity.
Qed.

Section RootsResolved.
Context `{Host}.
Variable JSON_parse : string -> Roots.parsed.

(** The roots that the listing walks are the stored roots, each path text
    resolved, in their order; with nothing stored, the one root is the
    normalised join of the home directory, [.claude] and [skills].  (The
    hypothesis says that the two readings of [JSON.parse] are one on the
    stored text.) *)
Lemma roots_are_the_stored_roots_resolved (w : World) :
  (forall stored,
      localStorage w !! SKILLS_FOLDER_KEY = Some stored ->
      JSON_parse_folders stored
      = match JSON_parse stored with
        | Roots.Throws => FoldersThrow
        | Roots.IsArray folders => FoldersArray (map Roots.resolved folders)
        | Roots.NotArray => FoldersNotArray
        end) ->
  getSkillsFolders w = map Roots.resolved (Roots.getSkillsFolders JSON_parse w).
Proof.
  intros Hparse. unfold getSkillsFolders, Roots.getSkillsFolders.
  assert (D : [mkSkillsFolder
                 (path_join
                    (path_join
                       (parsePath (orElse (env_HOME w) (orElse (env_USERPROFILE w) "")))
                       ".claude") "skills") None]
              = map Roots.resolved
                  [Roots.mkStoredFolder
                     (Roots.join [orElse (env_HOME w) (orElse (env_USERPROFILE w) "");
                                  ".claude"; "skills"]) None]).
  { cbn [map]. unfold Roots.resolved. cbn [Roots.stored_path Roots.stored_label].
    now rewrite parsePath_join_home. }
  destruct (localStorage w !! SKILLS_FOLDER_KEY) as [stored|]; [|exact D].
  destruct (nonEmpty stored); [|exact D].
  rewrite (Hparse stored eq_refl).
  destruct (JSON_parse stored); [reflexivity|reflexivity|exact D].
Qed.

(** A root that is added is walked last: the roots of the listing are the
    ones before followed by the new one, and when the listing completes
    afterwards it is the listing before followed by the skills found under
    the new root.  So a skill of a root that was there keeps its place
    before any skill of the new root, also one of the same name.  (The host
    reads the stored texts the same way in both readings and reads back the
    array that is stored.) *)
Theorem added_root_is_listed_last (w : World) (folderPath : string)
    (label : option string) :
  let folders := Roots.getSkillsFolders JSON_parse w in
  let added := folders ++ [Roots.mkStoredFolder folderPath label] in
  let w' := Roots.addSkillsFolderPath JSON_parse w folderPath label in
  ~ In folderPath (Roots.getSkillsFolderPaths JSON_parse w) ->
  (forall stored,
      localStorage w !! SKILLS_FOLDER_KEY = Some stored ->
      JSON_parse_folders stored
      = match JSON_parse stored with
        | Roots.Throws => FoldersThrow
        | Roots.IsArray folders => FoldersArray (map Roots.resolved folders)
        | Roots.NotArray => FoldersNotArray
        end) ->
  JSON_parse_folders (Roots.JSON_stringify added) = FoldersArray (map Roots.resolved added) ->
  getSkillsFolderPaths w' = getSkillsFolderPaths w ++ [parsePath folderPath]
  /\ (listingCompletes w' ->
      exists found,
        getAllSkills w' = getAllSkills w ++ found
        /\ forall s, In s found -> path s = path_join (parsePath folderPath) (name s)).
Proof.
  intros folders added w' Hnew Hsame Hback.
  assert (Ew : w' = Roots.store w added).
  { unfold w', Roots.addSkillsFolderPath. fold folders.
    now rewrite (proj2 (find_hasPath_none folderPath folders) Hnew). }
  assert (Er : getSkillsFolderPaths w' = getSkillsFolderPaths w ++ [parsePath folderPath]).
  { unfold getSkillsFolderPaths.
    rewrite Ew, (resolved_folders_stored _ _ Hback).
    rewrite (roots_are_the_stored_roots_resolved w Hsame). fold folders.
    unfold added. now rewrite !map_app. }
  split; [exact Er|].
  unfold listingCompletes, getAllSkills. rewrite Er.
  replace (fs w') with (fs w) by (rewrite Ew; reflexivity).
  rewrite listing_app.
  destruct (forEach (visitFolder (fs w)) (getSkillsFolderPaths w) []) as [before|];
    [|congruence].
  cbn [forEach].
  destruct (visitFolder (fs w) [] (parsePath folderPath)) as [found|] eqn:V;
    cbn [option_map]; [|congruence].
  intros _. exists found. split; [reflexivity|].
  intros s Hin.
  pose proof (visitFolder_listed (fs w) [parsePath folderPath] (parsePath folderPath)
                [] found (or_introl eq_refl) (List.Forall_nil _) V) as L.
  destruct (proj1 (List.Forall_forall _ _) L s Hin)
    as (document & folder & [<- | []] & Ep & _).
  exact Ep.
Qed.

End RootsResolved.

(** ** A name that holds three hyphens *)

Lemma prefix_length (p s : string) :
  String.prefix p s = true -> String.length p <= String.length s.
Proof.
  revert s. induction p as [|a p IH]; intros s; [cbn; lia|].
  destruct s as [|b s]; cbn [String.prefix String.length]; [discriminate|].
  destruct (ascii_dec a b); [|discriminate]. intros E. apply IH in E. lia.
Qed.

Lemma prefix_extend (p s rest : string) :
  String.length p <= String.length s ->
  String.prefix p (s +:+ rest) = String.prefix p s.
Proof.
  revert s. induction p as [|a p IH]; intros s Hl.
  - destruct s; destruct rest; reflexivity.
  - destruct s as [|b s]; cbn [String.length] in Hl; [lia|].
    cbn [String.append String.prefix]. destruct (ascii_dec a b); [|reflexivity].
    apply IH. lia.
Qed.

Lemma index_length (p s : string) (i : nat) :
  String.index 0 p s = Some i -> i + String.length p <= String.length s.
Proof.
  revert i. induction s as [|c s IH]; intros i; cbn [String.index].
  - destruct p; [|discriminate]. intros E. injection E as <-. cbn. lia.
  - destruct (String.prefix p (String c s)) eqn:P.
    + intros E. injection E as <-. apply prefix_length in P. lia.
    + destruct (String.index 0 p s) as [n|]; [|discriminate].
      intros E. injection E as <-. specialize (IH n eq_refl). cbn [String.length]. lia.
Qed.

(** The first place where a pattern stands in a text is its first place
    in any longer text. *)
Lemma index_extend (p s rest : string) (i : nat) :
  String.index 0 p s = Some i -> String.index 0 p (s +:+ rest) = Some i.
Proof.
  revert i. induction s as [|c s IH]; intros i.
  - cbn [String.index]. destruct p; [|discriminate]. intros E. injection E as <-.
    destruct rest; reflexivity.
  - intros E. pose proof (index_length _ _ _ E) as Hl. revert E.
    cbn [String.append String.index].
    destruct (String.prefix p (String c s)) eqn:P.
    + intros E. injection E as <-.
      change (String c (s +:+ rest)) with (String c s +:+ rest).
      rewrite prefix_extend, P by (apply prefix_length in P; exact P). reflexivity.
    + destruct (String.index 0 p s) as [n|] eqn:En; [|discriminate].
      intros E. injection E as <-.
      change (String c (s +:+ rest)) with (String c s +:+ rest).
      rewrite prefix_extend, P by lia. now rewrite (IH n eq_refl).
Qed.

Lemma substring_extend (s rest : string) (i : nat) :
  i <= String.length s -> String.substring 0 i (s +:+ rest) = String.substring 0 i s.
Proof.
  revert i. induction s as [|c s IH]; intros i Hi.
  - cbn [String.length] in Hi. assert (i = 0) by lia. subst i. now destruct rest.
  - destruct i as [|i]; [reflexivity|]. cbn [String.append String.substring].
    rewrite IH by (cbn [String.length] in Hi; lia). reflexivity.
Qed.

Section HyphensInTheName.
Context `{Host}.

(** Where [parseSkillMarkdown] cuts a document that [createSkill] wrote
    for a name that holds three hyphens in a row: at those hyphens, so
    that the block is the name line up to them. *)
Lemma parse_cut_in_the_name (skillName description body : string)
    (allowedTools : option (list string)) (model : option string) (i : nat) :
  String.index 0 "---" skillName = Some i ->
  exists rest,
    parseSkillMarkdown (createFrontmatter skillName description allowedTools model +:+ body)
    = parseParts (JS.trim (NL +:+ "name: " +:+ String.substring 0 i skillName)) rest.
Proof.
  intros Hi. rewrite createFrontmatter_lines, parse_after_opening.
  set (tail := String JS.LF ("---" +:+ String JS.LF (String JS.LF body))).
  assert (E : exists after,
             headerLines skillName description allowedTools model +:+ tail
             = "name: " +:+ (skillName +:+ after)).
  { unfold headerLines. eexists.
    repeat (first [rewrite append_assoc | progress cbn [String.append]]). reflexivity. }
  destruct E as [after E].
  rewrite E.
  pose proof (index_extend _ _ after _ Hi) as Hx.
  pose proof (index_length _ _ _ Hi) as Hl. cbn [String.length] in Hl.
  assert (Ix : String.index 0 "---" (String JS.LF ("name: " +:+ (skillName +:+ after)))
               = Some (7 + i)).
  { cbn [String.append String.index].
    repeat match goal with
           | |- context [String.prefix "---" (String ?c ?s)] =>
               change (String.prefix "---" (String c s)) with false
           end.
    rewrite Hx. reflexivity. }
  rewrite Ix. eexists. f_equal.
  unfold NL. cbn [String.append String.substring plus].
  rewrite substring_extend by lia. reflexivity.
Qed.

End HyphensInTheName.

Lemma cross_is_not_check (a b : string) : crossMark +:+ a <> checkMark +:+ b.
Proof. unfold crossMark, checkMark. cbn [String.append]. discriminate. Qed.

Section HyphensInTheToolName.
Context `{Host}.
Variable pathText : Path -> string.
Variable errorMessage : string.

(** The pattern of the create tool accepts a name that holds three
    hyphens in a row, and the document then written ends its metadata block
    at those hyphens, inside the name line.  So when the tool answers that
    it created such a skill, the document is on disk, and yet no record of
    the listing stands for the new directory, as soon as the YAML parser
    finds no description in a block that is the name line cut there. *)
Theorem created_skill_with_three_hyphens_is_not_listed (w : World)
    (input : CreateTool.Input) (i : nat) (text : string) :
  snd (CreateTool.tool pathText errorMessage w input) = checkMark +:+ text ->
  String.index 0 "---" (CreateTool.in_name input) = Some i ->
  (forall y read,
      YAML_parse (JS.trim (NL +:+ "name: "
                           +:+ String.substring 0 i (CreateTool.in_name input)))
      = Some (YMap y) ->
      camelCaseMetadata (YMap y) = Some (YMap read) ->
      truthy (obj_get read "description") = false) ->
  let w' := fst (CreateTool.tool pathText errorMessage w input) in
  let directory := getSkillsFolderPath w ++ [CreateTool.in_name input] in
  isSlug (CreateTool.in_name input) = true
  /\ readFileSync (fs w') (directory ++ ["SKILL.md"])
     = Some (createFrontmatter (CreateTool.in_name input) (CreateTool.in_description input)
               (CreateTool.in_allowedTools input) (CreateTool.in_model input)
             +:+ CreateTool.in_content input)
  /\ forall s, In s (getAllSkills w') -> path s <> directory.
Proof.
  intros Hok Hi Hyaml w' directory. unfold w'. revert Hok. unfold CreateTool.tool.
  destruct (isBlank (CreateTool.in_name input));
    [intros E; now apply cross_is_not_check in E|].
  destruct (isSlug (CreateTool.in_name input)) eqn:Slug; cbn [negb];
    [|intros E; now apply cross_is_not_check in E].
  destruct (64 <? String.length (CreateTool.in_name input));
    [intros E; now apply cross_is_not_check in E|].
  destruct (isBlank (CreateTool.in_description input));
    [intros E; now apply cross_is_not_check in E|].
  destruct (1024 <? String.length (CreateTool.in_description input));
    [intros E; now apply cross_is_not_check in E|].
  destruct (isBlank (CreateTool.in_content input));
    [intros E; now apply cross_is_not_check in E|].
  destruct (createSkill w _ _ _ _ _ None) as [[w1 skill]|] eqn:C;
    [|intros E; now apply cross_is_not_check in E].
  intros _. cbn [fst].
  destruct (createSkill_effects _ _ _ _ _ _ _ _ _ C) as (Ep & Emd & R & _).
  assert (Ed : path skill = directory).
  { rewrite Ep. unfold targetFolder.
    now rewrite (path_join_simple _ _ (isSlug_isComponent _ Slug)). }
  rewrite Emd, Ed in R. split; [reflexivity|]. split; [exact R|].
  intros s Hin Es.
  pose proof (proj1 (List.Forall_forall _ _) (getAllSkills_listed w1) s Hin)
    as (document & folder & _ & _ & Emd' & Rs & P & _ & Td).
  rewrite Emd', Es, path_join_component, R in Rs. injection Rs as <-.
  destruct (parse_cut_in_the_name (CreateTool.in_name input)
              (CreateTool.in_description input) (CreateTool.in_content input)
              (CreateTool.in_allowedTools input) (CreateTool.in_model input) i Hi)
    as [rest Pc].
  rewrite Pc in P. unfold parseParts in P.
  destruct (YAML_parse _) as [[|y|str|]|] eqn:Y; try discriminate.
  - destruct (camelCaseMetadata (YMap y)) as [[|read|str|]|] eqn:Cm; try discriminate.
    injection P as E1 _. rewrite <- E1, (Hyaml y read eq_refl Cm) in Td.
    discriminate Td.
  - cbn [camelCaseMetadata] in P. destruct (nonEmpty str); discriminate.
Qed.

End HyphensInTheToolName.


(** ** The properties on concrete states, under the reference host *)

Module Concrete.

#[local] Existing Instance Reference.host.

(** C1 fails as stated: the body written with a space before it is read
    without the space. *)
Lemma body_is_read_trimmed :
  Examples.spaced = createFrontmatter "a" "d" None None +:+ " x"
  /\ parseSkillMarkdown Examples.spaced
     = Some (mkParsed (YMap [("name", VStr "a"); ("description", VStr "d")]) "x").
Proof. split; vm_compute; reflexivity. Qed.

Lemma written_document_reads_back_witness :
  exists read,
    parseSkillMarkdown
      (createFrontmatter "a" "d" (Some ["Read"; "Grep"]) (Some "fast") +:+ " x ")
    = Some (mkParsed (YMap read) "x")
    /\ obj_get read "name" = VStr "a"
    /\ obj_get read "description" = VStr "d"
    /\ obj_get read "allowedTools" = VArr ["Read"; "Grep"]
    /\ obj_get read "allowed-tools" = obj_get read "allowedTools"
    /\ obj_get read "model" = VStr "fast".
Proof.
  apply (written_document_reads_back "a" "d" (Some ["Read"; "Grep"]) (Some "fast") " x ");
    vm_compute; reflexivity.
Defined.

(** C2 fails as stated: the key license of the document on disk is not in
    the document that an update of the description writes. *)
Lemma update_drops_further_keys :
  option_map (fun s => obj_get (metadata s) "license")
    (findSkill Examples.withLicense "notes") = Some (VStr "MIT")
  /\ match updateSkill Examples.withLicense "notes" Examples.newDescription with
     | Some (w', _) =>
         readFileSync (fs w') Examples.notesDocument
         = Some ("---" +:+ NL +:+ "name: notes" +:+ NL +:+ "description: new" +:+ NL
                 +:+ "---" +:+ NL +:+ NL +:+ "body")
         /\ option_map (fun s => obj_get (metadata s) "license") (findSkill w' "notes")
            = Some VUndef
     | None => False
     end.
Proof. vm_compute. repeat split; reflexivity. Qed.

Lemma updateSkill_rewrites_well_known_fields_witness :
  (exists w',
      updateSkill Examples.withLicense "notes" Examples.newDescription
      = Some (w', Some (mkSkill "notes" ["home"; ".claude"; "skills"; "notes"]
                          [("name", VStr "notes"); ("description", VStr "new");
                           ("license", VStr "MIT")]
                          "body" [] Examples.notesDocument))
      /\ localStorage w' = localStorage Examples.withLicense
      /\ readFileSync (fs w') Examples.notesDocument
         = Some ("---" +:+ NL +:+ "name: notes" +:+ NL +:+ "description: new" +:+ NL
                 +:+ "---" +:+ NL +:+ NL +:+ "body"))
  /\ (exists read,
         parseSkillMarkdown
           ("---" +:+ NL +:+ "name: notes" +:+ NL +:+ "description: new" +:+ NL
            +:+ "---" +:+ NL +:+ NL +:+ "body")
         = Some (mkParsed (YMap read) "body")
         /\ obj_get read "name" = VStr "notes"
         /\ obj_get read "description" = VStr "new")
  /\ (exists w',
         updateSkill Examples.withTools "notes"
           (mkUpdates Absent (Given "new body") Absent (Given "slow"))
         = Some (w', Some (mkSkill "notes" ["home"; ".claude"; "skills"; "notes"]
                             [("name", VStr "notes"); ("description", VStr "d");
                              ("allowed-tools", VArr ["Read"]); ("model", VStr "slow");
                              ("allowedTools", VArr ["Read"]); ("content", VStr "new body")]
                             "new body" [] Examples.notesDocument))
         /\ readFileSync (fs w') Examples.notesDocument
            = Some ("---" +:+ NL +:+ "name: notes" +:+ NL +:+ "description: d" +:+ NL
                    +:+ "allowed-tools: [" +:+ Q +:+ "Read" +:+ Q +:+ "]" +:+ NL
                    +:+ "model: slow" +:+ NL +:+ "---" +:+ NL +:+ NL +:+ "new body")).
Proof.
  assert (F : findSkill Examples.withLicense "notes" = Some Examples.notes)
    by (vm_compute; reflexivity).
  assert (G : findSkill Examples.withTools "notes" = Some Examples.notesWithTools)
    by (vm_compute; reflexivity).
  destruct (updateSkill_rewrites_well_known_fields
              Examples.withLicense "notes" Examples.newDescription Examples.notes F)
    as (_ & (w' & U & S & R & _) & _ & _ & _ & _ & _ & _ & _ & B).
  destruct (updateSkill_rewrites_well_known_fields
              Examples.withTools "notes"
              (mkUpdates Absent (Given "new body") Absent (Given "slow"))
              Examples.notesWithTools G)
    as (_ & (w2 & U2 & _ & R2 & _) & _).
  split; [|split].
  - exists w'. split; [exact U|]. split; [exact S|exact R].
  - destruct (B "notes" "new" None None eq_refl eq_refl eq_refl eq_refl) as (_ & P).
    destruct P as (read & Pr & Rn & Rd & _).
    + vm_compute. reflexivity.
    + vm_compute. reflexivity.
    + exists read. split; [exact Pr|]. split; [exact Rn|exact Rd].
  - exists w2. split; [exact U2|exact R2].
Defined.

(** What the edit tool passes when it is given only a new content: the
    other properties are there and undefined, and the description written
    is the text undefined. *)
Lemma undefined_description_is_written :
  match updateSkill Examples.withLicense "notes"
          (mkUpdates Undefined (Given "new body") Undefined Undefined) with
  | Some (w', _) =>
      readFileSync (fs w') Examples.notesDocument
      = Some ("---" +:+ NL +:+ "name: notes" +:+ NL +:+ "description: undefined" +:+ NL
              +:+ "---" +:+ NL +:+ NL +:+ "new body")
  | None => False
  end.
Proof. vm_compute. reflexivity. Qed.

(** Allowed tools that are an array of numbers have a length above zero:
    an update that gives a description writes them again, in JSON. *)
Lemma array_of_numbers_is_written_in_json :
  option_map (fun s => obj_get (metadata s) "allowedTools")
    (@findSkill Examples.numbersHost Examples.withNumbers "notes")
  = Some (VOther true "1,2" true "[1,2]")
  /\ match @updateSkill Examples.numbersHost Examples.withNumbers "notes"
             Examples.newDescription with
     | Some (w', _) =>
         readFileSync (fs w') Examples.notesDocument
         = Some ("---" +:+ NL +:+ "name: notes" +:+ NL +:+ "description: new" +:+ NL
                 +:+ "allowed-tools: [1,2]" +:+ NL +:+ "---" +:+ NL +:+ NL +:+ "body")
     | None => False
     end
  /\ readFileSync
       (fs (fst (@EditTool.tool Examples.numbersHost EmptyString Examples.withNumbers
                   (EditTool.mkInput "notes" (Some "new") None))))
       Examples.notesDocument
     = Some ("---" +:+ NL +:+ "name: notes" +:+ NL +:+ "description: new" +:+ NL
             +:+ "allowed-tools: [1,2]" +:+ NL +:+ "---" +:+ NL +:+ NL +:+ "body").
Proof. vm_compute. repeat split; reflexivity. Qed.

(** C3 fails as stated: the directory b exists, and [findSkill] with b
    returns the directory a, which is listed first and declares the name b. *)
Lemma declared_name_listed_first_wins :
  map name (getAllSkills Examples.declaredNameFirst) = ["a"; "b"]
  /\ option_map name (findSkill Examples.declaredNameFirst "b") = Some "a"
  /\ option_map (fun s => obj_get (metadata s) "name")
       (findSkill Examples.declaredNameFirst "b") = Some (VStr "b").
Proof. vm_compute. repeat split; reflexivity. Qed.

Lemma empty_block_empties_the_listing_witness :
  getAllSkills Examples.validAndEmptyBlock = []
  /\ map name (getAllSkills Examples.validAndNoDescription) = ["a"].
Proof.
  split.
  - apply (empty_block_empties_the_listing Examples.validAndEmptyBlock
             ["home"; ".claude"; "skills"]
             [Examples.skillDir "a" (Examples.document "a" "desc" "body");
              Examples.skillDir "b" Examples.emptyBlock]
             [("SKILL.md", File Examples.emptyBlock)] "b").
    + reflexivity.
    + vm_compute. left. reflexivity.
    + reflexivity.
    + right. left. reflexivity.
    + reflexivity.
  - vm_compute. reflexivity.
Defined.

Lemma classification_failure_gives_no_match_witness :
  match tool Examples.routed "please shorten this article" with
  | Ask prompt model k =>
      getEnabledSkillObjects Examples.routed = [Examples.summarizer]
      /\ run (fun _ _ => None) (tool Examples.routed "please shorten this article")
         = ([(prompt, model)], Returned (formatNoMatchMessage [Examples.summarizer]))
      /\ k None
         = Ret (Returned ("# No Suitable Skill Found

The user's request doesn't clearly match any of your available AI Skills.

## WHAT YOU SHOULD DO

**Respond to the user directly using your general capabilities.** Don't try to force a skill match.

Help the user with their request to the best of your ability. If you need clarification about what they want, ask them.

---

## Available Skills (1)

For your reference, here are the skills that are currently enabled:

1. **summarizer** - Summarizes text

---

## TIPS

- If the user mentions a specific skill name by name, let them know it's not available
- If you think a skill MIGHT be relevant but you're not sure, you can ask: " +:+ Q +:+ "Would you like me to use the [skill-name] skill for this?" +:+ Q +:+ "
- The user can enable more skills or create new ones through the " +:+ Q +:+ "Manage Skills" +:+ Q +:+ " command"))
  | Ret _ => False
  end.
Proof.
  destruct (tool Examples.routed "please shorten this article") as [a|prompt model k] eqn:E.
  - vm_compute in E. discriminate E.
  - destruct (classification_failure_gives_no_match _ _ _ _ _ E) as (K & R & _).
    assert (G : getEnabledSkillObjects Examples.routed = [Examples.summarizer])
      by (vm_compute; reflexivity).
    rewrite G in K, R.
    split; [exact G|]. split; [rewrite <- E; apply R; reflexivity|].
    rewrite K. vm_compute. reflexivity.
Defined.

Lemma unconfigured_router_returns_setup_guidance_witness :
  tool (Examples.homeWorld ∅ []) "hello" = Ret (Returned setupRequiredMessage)
  /\ forall oracle,
      run oracle (tool (Examples.homeWorld ∅ []) "hello")
      = ([], Returned setupRequiredMessage).
Proof.
  apply unconfigured_router_returns_setup_guidance. left. reflexivity.
Defined.

Lemma response_normalisation_witness :
  match tool Examples.routed "please shorten this article" with
  | Ask _ _ k =>
      k (Some (" " +:+ Q +:+ "summarizer" +:+ Q +:+ NL))
      = Ret (Returned (formatSkillResponse Examples.summarizer))
      /\ k (Some " none ") = Ret (Returned (formatNoMatchMessage [Examples.summarizer]))
      /\ readResponse (" " +:+ Q +:+ "summarizer" +:+ Q +:+ NL) = Some "summarizer"
      /\ readResponse " none " = None
      /\ readResponse (Q +:+ "NoNe" +:+ Q +:+ NL) = None
      /\ readResponse "nine" = Some "nine"
  | Ret _ => False
  end
  /\ match tool Examples.routedNone "do nothing at all" with
     | Ask _ _ k =>
         k (Some "none") = Ret (Returned (formatNoMatchMessage [Examples.idle]))
         /\ k (Some "nONe") = Ret (Returned (formatNoMatchMessage [Examples.idle]))
         /\ formatNoMatchMessage [Examples.idle] <> formatSkillResponse Examples.idle
     | Ret _ => False
     end.
Proof.
  split.
  - destruct (tool Examples.routed "please shorten this article")
      as [a|prompt model k] eqn:E.
    + vm_compute in E. discriminate E.
    + split; [|split; [|split; [|split; [|split]]]].
      * destruct (response_normalisation _ _ _ (" " +:+ Q +:+ "summarizer" +:+ Q +:+ NL)
                    _ _ E) as (_ & _ & K & _).
        rewrite K. vm_compute. reflexivity.
      * destruct (response_normalisation _ _ _ " none " _ _ E) as (_ & _ & K & _).
        rewrite K. vm_compute. reflexivity.
      * destruct (response_normalisation _ _ _ (" " +:+ Q +:+ "summarizer" +:+ Q +:+ NL)
                    _ _ E) as (R & _).
        rewrite R. vm_compute. reflexivity.
      * destruct (response_normalisation _ _ _ " none " _ _ E) as (_ & N & _).
        apply (proj2 N). exists "n"%char, "o"%char, "n"%char, "e"%char.
        repeat split; auto.
      * destruct (response_normalisation _ _ _ (Q +:+ "NoNe" +:+ Q +:+ NL) _ _ E)
          as (_ & N & _).
        apply (proj2 N). exists "N"%char, "o"%char, "N"%char, "e"%char.
        repeat split; auto.
      * destruct (response_normalisation _ _ _ "nine" _ _ E) as (R & _).
        rewrite R. vm_compute. reflexivity.
  - destruct (tool Examples.routedNone "do nothing at all") as [a|prompt model k] eqn:E.
    + vm_compute in E. discriminate E.
    + split; [|split].
      * destruct (response_normalisation _ _ _ "none" _ _ E) as (_ & _ & K & _).
        rewrite K. vm_compute. reflexivity.
      * destruct (response_normalisation _ _ _ "nONe" _ _ E) as (_ & _ & K & _).
        rewrite K. vm_compute. reflexivity.
      * vm_compute. discriminate.
Defined.

Lemma disableSkill_removes_every_occurrence_witness :
  getEnabledSkills Examples.twiceEnabled = ["a"; "b"; "a"]
  /\ getEnabledSkills (disableSkill Examples.twiceEnabled "a") = ["b"]
  /\ isSkillEnabled (disableSkill Examples.twiceEnabled "a") "a" = false.
Proof.
  destruct (@disableSkill_removes_every_occurrence Reference.host Examples.twiceEnabled "a"
              parseNames_stringify)
    as (_ & E & D & _).
  split; [vm_compute; reflexivity|]. split; [|exact D].
  rewrite E. vm_compute. reflexivity.
Defined.

(** C8 fails as stated: after two calls on the second root, [findSkill]
    with the name returns the skill of the first root, with its own
    description and body. *)
Lemma earlier_root_shadows_created_skill :
  match createSkill Examples.twoRoots "x" "d" "body" None None (Some ["r2"]) with
  | Some (w1, _) =>
      match createSkill w1 "x" "d2" "body2" None None (Some ["r2"]) with
      | Some (w2, _) =>
          readFileSync (fs w2) ["r2"; "x"; "SKILL.md"]
          = Some (Examples.document "x" "d2" "body2")
          /\ option_map (fun s => (path s, obj_get (metadata s) "description", content s))
               (findSkill w2 "x")
             = Some (["r1"; "x"], VStr "old", "kept")
      | None => False
      end
  | None => False
  end.
Proof. vm_compute. split; reflexivity. Qed.

Lemma createSkill_twice_overwrites_witness :
  exists w1 s1 w2 s2 s,
    createSkill (Examples.homeWorld ∅ []) "x" "d" "body" None None None = Some (w1, s1)
    /\ createSkill w1 "x" "d2" " body2 " None None None = Some (w2, s2)
    /\ readFileSync (fs w2) (skillMdPath s2)
       = Some (createFrontmatter "x" "d2" None None +:+ " body2 ")
    /\ findSkill w2 "x" = Some s
    /\ path s = path s2
    /\ obj_get (metadata s) "description" = VStr "d2"
    /\ content s = "body2".
Proof.
  destruct (createSkill (Examples.homeWorld ∅ []) "x" "d" "body" None None None)
    as [[w1 s1]|] eqn:C1; [|vm_compute in C1; discriminate C1].
  pose proof C1 as C1'. vm_compute in C1'. injection C1' as E1 E2. subst w1 s1.
  destruct (createSkill_twice_overwrites _ _ _ _ _ _ "d2" " body2 " _ None _ None _ C1)
    as (w2 & s2 & C2 & Hp & Hm & R & K).
  pose proof C2 as C2'. vm_compute in C2'. injection C2' as E1 E2. subst w2 s2.
  assert (I : String.index 0 "---" (headerLines "x" "d2" None None) = None)
    by (vm_compute; reflexivity).
  assert (Y : YAML_parse (JS.trim (headerLines "x" "d2" None None))
              = Some (YMap (writtenFields "x" "d2" None None)))
    by (vm_compute; reflexivity).
  destruct (K I Y) as [_ K2].
  destruct K2 as (s & F & Ps & Ds & Cs).
  - vm_compute. reflexivity.
  - reflexivity.
  - vm_compute. left. reflexivity.
  - unfold listingCompletes. vm_compute. discriminate.
  - intros s Hin _. vm_compute in Hin. destruct Hin as [<- | []]. reflexivity.
  - eexists _, _, _, _, s. repeat split; eauto.
Defined.

Lemma missing_delimiter_parses_to_null_witness :
  parseSkillMarkdown "# no block" = None
  /\ parseSkillMarkdown ("---" +:+ NL +:+ "name: a") = None.
Proof.
  split; apply missing_delimiter_parses_to_null; [left|right]; reflexivity.
Defined.

Lemma enableSkill_twice_is_once_witness :
  getEnabledSkills (enableSkill (enableSkill Examples.twiceEnabled "c") "c")
  = ["a"; "b"; "a"; "c"].
Proof.
  destruct (@enableSkill_twice_is_once Reference.host Examples.twiceEnabled "c"
              parseNames_stringify) as (E & _ & G).
  rewrite E. destruct G as [G _]; [reflexivity|]. rewrite G. reflexivity.
Defined.

Lemma listing_follows_the_order_of_the_roots_witness :
  getAllSkills (Examples.rootsWorld ["/r1"; "/r2"] Examples.twoSkills)
  = getAllSkills (Examples.rootsWorld ["/r1"] Examples.twoSkills)
    ++ getAllSkills (Examples.rootsWorld ["/r2"] Examples.twoSkills)
  /\ map name (getAllSkills (Examples.rootsWorld ["/r1"; "/r2"] Examples.twoSkills))
     = ["x"; "y"].
Proof.
  split; [|vm_compute; reflexivity].
  apply listing_follows_the_order_of_the_roots; try reflexivity.
  unfold listingCompletes. vm_compute. discriminate.
Defined.

Lemma missing_root_is_passed_over_witness :
  getAllSkills (Examples.rootsWorld ["/r1"; "/missing"; "/r2"] Examples.twoSkills)
  = getAllSkills (Examples.rootsWorld ["/r1"; "/r2"] Examples.twoSkills).
Proof.
  apply (missing_root_is_passed_over _ _ [["r1"]] [["r2"]] ["missing"]); reflexivity.
Defined.

Lemma root_that_is_a_file_empties_the_listing_witness :
  map name (getAllSkills (Examples.rootsWorld ["/r1"] Examples.twoSkills)) = ["x"]
  /\ getAllSkills (Examples.rootsWorld ["/r1"; "/f"] Examples.twoSkills) = [].
Proof.
  split; [vm_compute; reflexivity|].
  apply (root_that_is_a_file_empties_the_listing _ ["f"]); [|reflexivity].
  vm_compute. right. left. reflexivity.
Defined.

Lemma deleteSkill_removes_the_directory_witness :
  exists w',
    deleteSkill Examples.withSupport "notes" = (w', true)
    /\ existsSync (fs w') ["home"; ".claude"; "skills"; "notes"; "ref.txt"] = false
    /\ readFileSync (fs w') ["etc"; "passwd"] = Some "secret".
Proof.
  destruct (proj2 (deleteSkill_removes_the_directory Examples.withSupport "notes")
              Examples.notesWithSupport)
    as (w' & D & _ & _ & Hothers & Hgone); [vm_compute; reflexivity|].
  exists w'. split; [exact D|]. split.
  - apply (proj1 (Hgone ltac:(discriminate)) ["ref.txt"]).
  - rewrite Hothers; [reflexivity|]. intros r. discriminate.
Defined.

Lemma enablement_goes_by_directory_name_witness :
  getEnabledSkillObjects Examples.routed = [Examples.summarizer]
  /\ getEnabledSkillObjects (disableSkill Examples.routed "summarizer") = []
  /\ getEnabledSkillObjects (enableSkill (disableSkill Examples.routed "summarizer")
                               "summarizer")
     = [Examples.summarizer].
Proof.
  split; [vm_compute; reflexivity|]. split.
  - rewrite (proj1 (@enablement_goes_by_directory_name Reference.host Examples.routed
                      "summarizer" ltac:(discriminate) parseNames_stringify)).
    vm_compute. reflexivity.
  - rewrite (proj2 (@enablement_goes_by_directory_name Reference.host
                      (disableSkill Examples.routed "summarizer")
                      "summarizer" ltac:(discriminate) parseNames_stringify)).
    vm_compute. reflexivity.
Defined.

Lemma createSkill_writes_one_document_witness :
  exists w' skill,
    createSkill Examples.withSupport "x" "d" "body" None None None = Some (w', skill)
    /\ readFileSync (fs w') ["home"; ".claude"; "skills"; "x"; "SKILL.md"]
       = Some (Examples.document "x" "d" "body")
    /\ readFileSync (fs w') ["home"; ".claude"; "skills"; "notes"; "ref.txt"]
       = Some "reference".
Proof.
  destruct (createSkill Examples.withSupport "x" "d" "body" None None None)
    as [[w' skill]|] eqn:C; [|vm_compute in C; discriminate C].
  destruct (createSkill_writes_one_document _ _ _ _ _ _ _ _ _ C)
    as (Ep & Emd & R & Hothers & _).
  assert (E : skillMdPath skill = ["home"; ".claude"; "skills"; "x"; "SKILL.md"])
    by (rewrite Emd, Ep; reflexivity).
  rewrite E in *. exists w', skill. split; [reflexivity|]. split; [exact R|].
  rewrite Hothers; [reflexivity|discriminate].
Defined.

Lemma supporting_files_of_a_record_are_read_witness :
  supportingFiles Examples.notesWithSupport = ["ref.txt"]
  /\ readSupportingFile Examples.withSupport "notes" "ref.txt" = FileText "reference"
  /\ readSupportingFile Examples.withSupport "notes" "" = FileSystemError
  /\ readSupportingFile Examples.withSupport "nothing" "ref.txt"
     = NotFoundError ("Skill " +:+ Q +:+ "nothing" +:+ Q +:+ " not found").
Proof.
  destruct (supporting_files_of_a_record_are_read Examples.withSupport "notes") as [_ Hfound].
  destruct (Hfound Examples.notesWithSupport ltac:(vm_compute; reflexivity)) as [Hread Hdir].
  destruct (Hread "ref.txt" ltac:(left; reflexivity)) as (data & Rd & Rf).
  vm_compute in Rf. injection Rf as <-.
  split; [reflexivity|]. split; [exact Rd|]. split; [exact Hdir|].
  apply (proj1 (supporting_files_of_a_record_are_read Examples.withSupport "nothing")).
  vm_compute. reflexivity.
Defined.

Lemma supporting_file_name_can_leave_the_directory_witness :
  readSupportingFile Examples.withSupport "notes" "../../../../etc/passwd"
  = FileText "secret".
Proof.
  apply (supporting_file_name_can_leave_the_directory Examples.withSupport "notes"
           Examples.notesWithSupport ["etc"; "passwd"] "secret").
  - vm_compute. reflexivity.
  - repeat constructor.
  - reflexivity.
Defined.

Lemma setSkillsFolderPath_leaves_one_root_witness :
  getSkillsFolderPaths
    (Roots.setSkillsFolderPath (Examples.rootsWorld ["/r1"; "/r2"] Examples.twoSkills) "/r2/")
  = [["r2"]]
  /\ Roots.getSkillsFolders Roots.parseStored
       (Roots.setSkillsFolderPath (Examples.rootsWorld ["/r1"; "/r2"] Examples.twoSkills)
          "/r2/")
     = [Roots.mkStoredFolder "/r2/" None].
Proof.
  destruct (setSkillsFolderPath_leaves_one_root Roots.parseStored
              (Examples.rootsWorld ["/r1"; "/r2"] Examples.twoSkills) "/r2/")
    as (T & P & _); [vm_compute; reflexivity|vm_compute; reflexivity|].
  split; [exact P|exact T].
Defined.

Lemma addSkillsFolderPath_appends_a_new_path_witness :
  Roots.getSkillsFolderPaths Roots.parseStored
    (Roots.addSkillsFolderPath Roots.parseStored (Examples.homeWorld ∅ []) "/work"
       (Some "Work"))
  = ["/home/.claude/skills"; "/work"]
  /\ Roots.addSkillsFolderPath Roots.parseStored
       (Examples.rootsWorld ["/r1"; "/r2"] Examples.twoSkills) "/r2" (Some "again")
     = Examples.rootsWorld ["/r1"; "/r2"] Examples.twoSkills.
Proof.
  split.
  - destruct (addSkillsFolderPath_appends_a_new_path Roots.parseStored
                (Examples.homeWorld ∅ []) "/work" (Some "Work"))
      as (_ & A & _); [vm_compute; reflexivity|].
    unfold Roots.getSkillsFolderPaths. rewrite A; [reflexivity|].
    vm_compute. intros [E | []]. discriminate E.
  - destruct (addSkillsFolderPath_appends_a_new_path Roots.parseStored
                (Examples.rootsWorld ["/r1"; "/r2"] Examples.twoSkills) "/r2" (Some "again"))
      as (S & _); [vm_compute; reflexivity|].
    apply S. vm_compute. right. left. reflexivity.
Defined.

Lemma removeSkillsFolderPath_removes_every_entry_witness :
  Roots.getSkillsFolderPaths Roots.parseStored
    (Roots.removeSkillsFolderPath Roots.parseStored
       (Examples.rootsWorld ["/r1"; "/r2"; "/r1"] Examples.twoSkills) "/r1")
  = ["/r2"]
  /\ map name (getAllSkills (Examples.rootsWorld ["/r1"] Examples.twoSkills)) = ["x"]
  /\ getAllSkills
       (Roots.removeSkillsFolderPath Roots.parseStored
          (Examples.rootsWorld ["/r1"] Examples.twoSkills) "/r1")
     = []
  /\ getSkillsFolders
       (Roots.removeSkillsFolderPath Roots.parseStored (Examples.homeWorld ∅ [])
          "/home/.claude/skills")
     = [].
Proof.
  split; [|split; [vm_compute; reflexivity|split]].
  - destruct (removeSkillsFolderPath_removes_every_entry Roots.parseStored
                (Examples.rootsWorld ["/r1"; "/r2"; "/r1"] Examples.twoSkills) "/r1")
      as (E & _); [vm_compute; reflexivity|].
    unfold Roots.getSkillsFolderPaths. rewrite E. reflexivity.
  - destruct (removeSkillsFolderPath_removes_every_entry Roots.parseStored
                (Examples.rootsWorld ["/r1"] Examples.twoSkills) "/r1")
      as (_ & _ & _ & L); [vm_compute; reflexivity|].
    apply L; vm_compute; reflexivity.
  - destruct (removeSkillsFolderPath_removes_every_entry Roots.parseStored
                (Examples.homeWorld ∅ []) "/home/.claude/skills")
      as (_ & _ & _ & L); [vm_compute; reflexivity|].
    apply L; vm_compute; reflexivity.
Defined.

Lemma updateSkillsFolderPath_replaces_the_first_entry_witness :
  exists w',
    Roots.updateSkillsFolderPath Roots.parseStored
      (Examples.rootsWorld ["/r1"; "/r2"; "/r1"] Examples.twoSkills) "/r1" "/r2" (Some "two")
    = (w', true)
    /\ Roots.getSkillsFolders Roots.parseStored w'
       = [Roots.mkStoredFolder "/r2" (Some "two"); Roots.mkStoredFolder "/r2" None;
          Roots.mkStoredFolder "/r1" None].
Proof.
  destruct (proj2 (updateSkillsFolderPath_replaces_the_first_entry Roots.parseStored
                     (Examples.rootsWorld ["/r1"; "/r2"; "/r1"] Examples.twoSkills)
                     "/r1" "/r2" (Some "two"))
              [] (Roots.mkStoredFolder "/r1" None)
              [Roots.mkStoredFolder "/r2" None; Roots.mkStoredFolder "/r1" None])
    as (w' & U & G & _);
    [vm_compute; reflexivity | reflexivity | intros [] | vm_compute; reflexivity |].
  exists w'. split; [exact U|exact G].
Defined.

Lemma create_tool_writes_one_document_under_the_first_root_witness :
  readFileSync
    (fs (fst (CreateTool.tool (fun _ => EmptyString) EmptyString
                (Examples.homeWorld ∅ [])
                (CreateTool.mkInput "x" "d" "body" None None))))
    ["home"; ".claude"; "skills"; "x"; "SKILL.md"]
  = Some (Examples.document "x" "d" "body")
  /\ fst (CreateTool.tool (fun _ => EmptyString) EmptyString (Examples.homeWorld ∅ [])
            (CreateTool.mkInput "../x" "d" "body" None None))
     = Examples.homeWorld ∅ [].
Proof.
  split.
  - destruct (create_tool_writes_one_document_under_the_first_root
                (fun _ => EmptyString) EmptyString
                (Examples.homeWorld ∅ []) (CreateTool.mkInput "x" "d" "body" None None))
      as (_ & _ & [E | (_ & _ & _ & _ & _ & R)]).
    + vm_compute in E. discriminate E.
    + exact R.
  - destruct (create_tool_writes_one_document_under_the_first_root
                (fun _ => EmptyString) EmptyString
                (Examples.homeWorld ∅ []) (CreateTool.mkInput "../x" "d" "body" None None))
      as (_ & _ & [E | (S & _)]).
    + exact E.
    + vm_compute in S. discriminate S.
Defined.

Lemma edit_of_four_fields_rewrites_the_header_from_the_input_witness :
  readFileSync (fs Examples.withTools) Examples.notesDocument = Some Examples.equipped
  /\ readFileSync
       (fs (fst (EditFieldsTool.tool EmptyString Examples.withTools
                   (EditFieldsTool.mkInput "notes" None (Some "new body") None None))))
       Examples.notesDocument
     = Some ("---" +:+ NL +:+ "name: notes" +:+ NL +:+ "description: undefined" +:+ NL
             +:+ "---" +:+ NL +:+ NL +:+ "new body").
Proof.
  split; [reflexivity|].
  assert (F : findSkill Examples.withTools "notes" = Some Examples.notesWithTools)
    by (vm_compute; reflexivity).
  exact (proj1 (edit_of_four_fields_rewrites_the_header_from_the_input EmptyString
                  Examples.withTools
                  (EditFieldsTool.mkInput "notes" None (Some "new body") None None)
                  Examples.notesWithTools eq_refl F eq_refl eq_refl)).
Defined.

Lemma edit_tool_rewrites_the_description_line_witness :
  readFileSync
    (fs (fst (EditTool.tool EmptyString Examples.withTools
                (EditTool.mkInput "notes" None (Some "new body")))))
    Examples.notesDocument
  = Some ("---" +:+ NL +:+ "name: notes" +:+ NL +:+ "description: undefined" +:+ NL
          +:+ "allowed-tools: [" +:+ Q +:+ "Read" +:+ Q +:+ "]" +:+ NL
          +:+ "model: fast" +:+ NL +:+ "---" +:+ NL +:+ NL +:+ "new body")
  /\ readFileSync
       (fs (fst (EditTool.tool EmptyString Examples.withTools
                   (EditTool.mkInput "notes" (Some "new") None))))
       Examples.notesDocument
     = Some ("---" +:+ NL +:+ "name: notes" +:+ NL +:+ "description: new" +:+ NL
             +:+ "allowed-tools: [" +:+ Q +:+ "Read" +:+ Q +:+ "]" +:+ NL
             +:+ "model: fast" +:+ NL +:+ "---" +:+ NL +:+ NL +:+ "body").
Proof.
  assert (F : findSkill Examples.withTools "notes" = Some Examples.notesWithTools)
    by (vm_compute; reflexivity).
  split.
  - exact (proj1 (edit_tool_rewrites_the_description_line EmptyString Examples.withTools
                    (EditTool.mkInput "notes" None (Some "new body"))
                    Examples.notesWithTools eq_refl F eq_refl eq_refl)).
  - exact (proj1 (edit_tool_rewrites_the_description_line EmptyString Examples.withTools
                    (EditTool.mkInput "notes" (Some "new") None)
                    Examples.notesWithTools eq_refl F eq_refl eq_refl)).
Defined.

Lemma edit_tool_succeeds_exactly_when_confirmed_witness :
  option_map EditTool.message
    (EditTool.confirmation (fun _ => EmptyString) Examples.withTools
       (EditTool.mkInput "notes" (Some "new") None))
  = Some ("Update Claude Code Skill " +:+ Q +:+ "notes" +:+ Q +:+ "?")
  /\ EditTool.confirmation (fun _ => EmptyString) Examples.withTools
       (EditTool.mkInput "notes" (Some "  ") None) = None
  /\ EditTool.tool EmptyString Examples.withTools (EditTool.mkInput "notes" (Some "  ") None)
     = (Examples.withTools, crossMark +:+ " Description cannot be empty.").
Proof.
  pose proof (edit_tool_succeeds_exactly_when_confirmed (fun _ => EmptyString) EmptyString
                Examples.withTools (EditTool.mkInput "notes" (Some "new") None)) as C.
  destruct (EditTool.confirmation (fun _ => EmptyString) Examples.withTools
              (EditTool.mkInput "notes" (Some "new") None)) as [c|] eqn:E;
    [|vm_compute in E; discriminate E].
  destruct C as (skill & w' & updated & text & F & M & _).
  vm_compute in F. injection F as <-.
  split; [cbn [option_map]; rewrite M; reflexivity|].
  split; vm_compute; reflexivity.
Defined.

Lemma valid_directory_is_listed_witness :
  exists s,
    In s (getAllSkills Examples.withSupport)
    /\ name s = "notes"
    /\ content s = "body".
Proof.
  destruct (valid_directory_is_listed Examples.withSupport ["home"; ".claude"; "skills"]
              "notes" (Examples.document "notes" "d" "body") "body"
              [("name", VStr "notes"); ("description", VStr "d")])
    as (s & Hin & Hn & _ & _ & _ & Hc); try reflexivity.
  - unfold listingCompletes. vm_compute. discriminate.
  - vm_compute. left. reflexivity.
  - exists s. auto.
Defined.

Lemma hyphenated_keys_are_read_in_camel_case_witness :
  exists read,
    camelCaseMetadata
      (YMap [("allowedTools", VArr ["Old"]); ("name", VStr "a");
             ("allowed-tools", VArr ["Read"])])
    = Some (YMap read)
    /\ obj_get read "allowedTools" = VArr ["Read"]
    /\ obj_get read "allowed-tools" = VArr ["Read"].
Proof.
  apply (hyphenated_keys_are_read_in_camel_case
           [("allowedTools", VArr ["Old"]); ("name", VStr "a");
            ("allowed-tools", VArr ["Read"])] "allowed-tools").
  - right. right. left. reflexivity.
  - intros k' [<- | [<- | [<- | []]]] E.
    + right. reflexivity.
    + vm_compute in E. discriminate E.
    + left. reflexivity.
Defined.

Lemma added_root_is_listed_last_witness :
  getSkillsFolderPaths
    (Roots.addSkillsFolderPath Roots.parseStored
       (Examples.rootsWorld ["/r1"] Examples.twoSkills) "/r2" None)
  = [["r1"]; ["r2"]]
  /\ exists found,
       getAllSkills
         (Roots.addSkillsFolderPath Roots.parseStored
            (Examples.rootsWorld ["/r1"] Examples.twoSkills) "/r2" None)
       = getAllSkills (Examples.rootsWorld ["/r1"] Examples.twoSkills) ++ found.
Proof.
  destruct (added_root_is_listed_last Roots.parseStored
              (Examples.rootsWorld ["/r1"] Examples.twoSkills) "/r2" None)
    as (Er & L).
  - vm_compute. intros [E | []]. discriminate E.
  - intros stored E. vm_compute in E. injection E as <-. vm_compute. reflexivity.
  - vm_compute. reflexivity.
  - split; [rewrite Er; reflexivity|].
    destruct L as (found & E & _).
    + unfold listingCompletes. vm_compute. discriminate.
    + exists found. exact E.
Defined.

Lemma created_skill_with_three_hyphens_is_not_listed_witness :
  (exists text,
      snd (CreateTool.tool (fun _ => EmptyString) EmptyString (Examples.homeWorld ∅ [])
             (CreateTool.mkInput "a---b" "d" "body" None None))
      = checkMark +:+ text)
  /\ parseSkillMarkdown (Examples.document "a---b" "d" "body")
     = parseParts "name: a"
         ("b" +:+ NL +:+ "description: d" +:+ NL +:+ "---" +:+ NL +:+ NL +:+ "body")
  /\ forall s,
       In s (getAllSkills
               (fst (CreateTool.tool (fun _ => EmptyString) EmptyString
                       (Examples.homeWorld ∅ [])
                       (CreateTool.mkInput "a---b" "d" "body" None None)))) ->
       path s <> ["home"; ".claude"; "skills"; "a---b"].
Proof.
  eassert (Hok : snd (CreateTool.tool (fun _ => EmptyString) EmptyString
                        (Examples.homeWorld ∅ [])
                        (CreateTool.mkInput "a---b" "d" "body" None None))
                 = checkMark +:+ _) by (vm_compute; reflexivity).
  split; [eexists; exact Hok|].
  split; [vm_compute; reflexivity|].
  refine (proj2 (proj2 (created_skill_with_three_hyphens_is_not_listed
                          (fun _ => EmptyString) EmptyString
                          (Examples.homeWorld ∅ [])
                          (CreateTool.mkInput "a---b" "d" "body" None None) 1 _
                          Hok eq_refl _))).
  intros y read Y Cm. vm_compute in Y. injection Y as <-.
  vm_compute in Cm. injection Cm as <-. reflexivity.
Defined.

End Concrete.
